(** * UE-Bot ESP32 firmware: WiFi manager and LED indicator

    A shallow embedding of
      - [src/config.h]                 (the timing and pin constants),
      - [src/wifi/wifi_manager.cpp]    ([UEBot::WiFi::WiFiManager]),
      - [src/utils/led_indicator.cpp]  ([UEBot::Utils::LEDIndicator]),
    followed by the properties of the two state machines.

    Conventions of the embedding.
      - [unsigned long] is 32 bits wide on the ESP32; a value is a [Z] in
        [0, 2^32) and the subtraction is written with its wrap-around ([u32]).
      - [int] is 32 bits wide; [_reconnectAttempts++] and [_blinkPhase + 1]
        are written with the two's complement wrap ([wrap_int]).
      - A [const char*] is an [option string]; [nullptr] is [None].
      - The platform (Arduino core) is a [World]: a simulated monotonic
        clock that only [delay] and the caller advance, the number of
        [WiFi.status()] reads made so far, and the trace of the effects the
        firmware performed, each stamped with the clock value at which it
        happened.  The adapter is a sequence of status values: the k-th call
        of [WiFi.status()] returns [adapter k].
      - The state callback is recorded in the trace when it is invoked; its
        body is not run here (the one registered by [main.cpp] only selects
        a LED pattern and does not call back into the manager).
      - [Serial] output is not modelled. *)

From Stdlib Require Import ZArith List Bool String Lia.
Import ListNotations.
Local Open Scope Z_scope.

(* ================================================================= *)
(** ** config.h *)

Definition LED_PIN : Z := 2.
Definition LED_BUILTIN_ACTIVE_LOW : bool := false.
Definition RECONNECT_DELAY_MS : Z := 5000.
Definition HEARTBEAT_INTERVAL_MS : Z := 30000.
Definition WIFI_TIMEOUT_MS : Z := 30000.

(* ================================================================= *)
(** ** Machine integers *)

Definition u32 (z : Z) : Z := z mod 2 ^ 32.

Definition INT_MAX : Z := 2 ^ 31 - 1.
Definition wrap_int (z : Z) : Z := (z + 2 ^ 31) mod 2 ^ 32 - 2 ^ 31.

(* ================================================================= *)
(** ** The platform *)

(** [wl_status_t] of the Arduino core. *)
Inductive wl_status_t : Type :=
| WL_NO_SHIELD
| WL_IDLE_STATUS
| WL_NO_SSID_AVAIL
| WL_SCAN_COMPLETED
| WL_CONNECTED
| WL_CONNECT_FAILED
| WL_CONNECTION_LOST
| WL_DISCONNECTED.

Definition is_WL_CONNECTED (s : wl_status_t) : bool :=
  match s with WL_CONNECTED => true | _ => false end.

Inductive WiFiState : Type :=
| DISCONNECTED
| CONNECTING
| CONNECTED
| ERROR.

Definition WiFiState_eqb (a b : WiFiState) : bool :=
  match a, b with
  | DISCONNECTED, DISCONNECTED
  | CONNECTING, CONNECTING
  | CONNECTED, CONNECTED
  | ERROR, ERROR => true
  | _, _ => false
  end.

(** The effects that leave the firmware. *)
Inductive Event : Type :=
| EvCallback (handler : nat) (s : WiFiState)
| EvWiFiMode
| EvWiFiBegin (ssid password : option string)
| EvWiFiDisconnect
| EvPinMode (pin : Z)
| EvDigitalWrite (pin : Z) (level : bool).

Record World : Type := mkWorld {
  w_clock : Z;
  w_reads : nat;
  w_trace : list (Z * Event)
}.

Definition world_millis (w : World) : Z := u32 (w_clock w).

Definition world_delay (ms : Z) (w : World) : World :=
  mkWorld (w_clock w + ms) (w_reads w) (w_trace w).

Definition world_emit (e : Event) (w : World) : World :=
  mkWorld (w_clock w) (w_reads w) (w_trace w ++ [(w_clock w, e)]).

Definition world_read (w : World) : World :=
  mkWorld (w_clock w) (S (w_reads w)) (w_trace w).

(** The arguments of the callback invocations of a trace, oldest first. *)
Fixpoint callback_states (evs : list (Z * Event)) : list WiFiState :=
  match evs with
  | [] => []
  | (_, EvCallback _ s) :: r => s :: callback_states r
  | _ :: r => callback_states r
  end.

(** The clock values of the [WiFi.begin] calls of a trace, oldest first. *)
Fixpoint begin_times (evs : list (Z * Event)) : list Z :=
  match evs with
  | [] => []
  | (t, EvWiFiBegin _ _) :: r => t :: begin_times r
  | _ :: r => begin_times r
  end.

(** The levels written to the pin, oldest first. *)
Fixpoint pin_writes (evs : list (Z * Event)) : list (Z * bool) :=
  match evs with
  | [] => []
  | (_, EvDigitalWrite p v) :: r => (p, v) :: pin_writes r
  | _ :: r => pin_writes r
  end.

(** [l] is the list of the states entered on the way from [s0] to [s1],
    each one different from the state it replaces. *)
Fixpoint transitions (s0 : WiFiState) (l : list WiFiState) (s1 : WiFiState) : Prop :=
  match l with
  | [] => s0 = s1
  | x :: r => s0 <> x /\ transitions x r s1
  end.

(** Consecutive elements of [l] are more than [gap] apart. *)
Fixpoint spaced (gap : Z) (l : list Z) : Prop :=
  match l with
  | a :: ((b :: _) as r) => gap < b - a /\ spaced gap r
  | _ => True
  end.

(* ================================================================= *)
(** ** wifi/wifi_manager.{h,cpp} *)

Module WiFi.

Record WiFiManager : Type := mkWiFiManager {
  _ssid : option string;
  _password : option string;
  _state : WiFiState;
  _stateCallback : option nat;
  _lastConnectAttempt : Z;
  _reconnectAttempts : Z
}.

(** [WiFiManager::WiFiManager()] *)
Definition WiFiManager_new : WiFiManager :=
  mkWiFiManager None None DISCONNECTED None 0 0.

Definition set_credentials (ssid password : option string) (m : WiFiManager) :=
  mkWiFiManager ssid password (_state m) (_stateCallback m)
                (_lastConnectAttempt m) (_reconnectAttempts m).
Definition set_state (s : WiFiState) (m : WiFiManager) :=
  mkWiFiManager (_ssid m) (_password m) s (_stateCallback m)
                (_lastConnectAttempt m) (_reconnectAttempts m).
Definition set_stateCallback (cb : option nat) (m : WiFiManager) :=
  mkWiFiManager (_ssid m) (_password m) (_state m) cb
                (_lastConnectAttempt m) (_reconnectAttempts m).
Definition set_lastConnectAttempt (t : Z) (m : WiFiManager) :=
  mkWiFiManager (_ssid m) (_password m) (_state m) (_stateCallback m)
                t (_reconnectAttempts m).
Definition set_reconnectAttempts (n : Z) (m : WiFiManager) :=
  mkWiFiManager (_ssid m) (_password m) (_state m) (_stateCallback m)
                (_lastConnectAttempt m) n.

(** The object and the platform it runs on. *)
Record Machine : Type := mkMachine {
  this : WiFiManager;
  world : World
}.

(** A method is a state transformer that may run out of fuel. *)
Definition M (A : Type) : Type := Machine -> option (A * Machine).

Definition ret {A : Type} (a : A) : M A := fun s => Some (a, s).

Definition bind {A B : Type} (c : M A) (k : A -> M B) : M B :=
  fun s => match c s with
           | Some (a, s') => k a s'
           | None => None
           end.

Definition out_of_fuel {A : Type} : M A := fun _ => None.

Notation "x <- c ;; k" := (bind c (fun x => k))
  (at level 61, c at next level, right associativity).
Notation "c ;; k" := (bind c (fun _ => k))
  (at level 61, right associativity).

Definition get_this : M WiFiManager := fun s => Some (this s, s).

Definition modify_this (f : WiFiManager -> WiFiManager) : M unit :=
  fun s => Some (tt, mkMachine (f (this s)) (world s)).

Definition modify_world (f : World -> World) : M unit :=
  fun s => Some (tt, mkMachine (this s) (f (world s))).

(** [millis()] *)
Definition millis : M Z := fun s => Some (world_millis (world s), s).

(** [delay(ms)] *)
Definition delay (ms : Z) : M unit := modify_world (world_delay ms).

Definition emit (e : Event) : M unit := modify_world (world_emit e).

Section Manager.

Variable adapter : nat -> wl_status_t.

(** [::WiFi.status()] *)
Definition WiFi_status : M wl_status_t :=
  fun s => Some (adapter (w_reads (world s)),
                 mkMachine (this s) (world_read (world s))).

(** [WiFiManager::updateState] *)
Definition updateState (newState : WiFiState) : M unit :=
  m <- get_this ;;
  if negb (WiFiState_eqb (_state m) newState) then
    modify_this (set_state newState) ;;
    match _stateCallback m with
    | Some h => emit (EvCallback h newState)
    | None => ret tt
    end
  else ret tt.

(** [WiFiManager::handleDisconnect] *)
Definition handleDisconnect : M unit :=
  updateState DISCONNECTED.

(** The [while] loop of [WiFiManager::begin]; [true] when the loop is left
    with the adapter connected, [false] when the body returned on timeout. *)
Fixpoint begin_wait (fuel : nat) (startTime : Z) : M bool :=
  match fuel with
  | O => out_of_fuel
  | S fuel' =>
      st <- WiFi_status ;;
      if is_WL_CONNECTED st then ret true
      else
        now <- millis ;;
        if u32 (now - startTime) >? WIFI_TIMEOUT_MS then
          updateState ERROR ;;
          ret false
        else
          delay 500 ;;
          begin_wait fuel' startTime
  end.

Definition begin_fuel : nat := S (S (Z.to_nat (WIFI_TIMEOUT_MS / 500))).

(** [WiFiManager::begin] *)
Definition begin (ssid password : option string) : M bool :=
  modify_this (set_credentials ssid password) ;;
  updateState CONNECTING ;;
  emit EvWiFiMode ;;
  emit (EvWiFiBegin ssid password) ;;
  startTime <- millis ;;
  connected <- begin_wait begin_fuel startTime ;;
  if connected then
    updateState CONNECTED ;;
    modify_this (set_reconnectAttempts 0) ;;
    ret true
  else ret false.

(** [WiFiManager::reconnect] *)
Definition reconnect : M unit :=
  m <- get_this ;;
  match _ssid m with
  | None => ret tt
  | Some _ =>
      modify_this (set_reconnectAttempts (wrap_int (_reconnectAttempts m + 1))) ;;
      _ <- begin (_ssid m) (_password m) ;;
      ret tt
  end.

(** [WiFiManager::loop] *)
Definition loop : M unit :=
  m <- get_this ;;
  (if WiFiState_eqb (_state m) CONNECTED then
     st <- WiFi_status ;;
     if negb (is_WL_CONNECTED st) then handleDisconnect else ret tt
   else ret tt) ;;
  m <- get_this ;;
  if WiFiState_eqb (_state m) DISCONNECTED || WiFiState_eqb (_state m) ERROR then
    now <- millis ;;
    if u32 (now - _lastConnectAttempt m) >? RECONNECT_DELAY_MS then
      modify_this (set_lastConnectAttempt now) ;;
      reconnect
    else ret tt
  else ret tt.

(** [WiFiManager::isConnected] *)
Definition isConnected : M bool :=
  m <- get_this ;;
  if WiFiState_eqb (_state m) CONNECTED then
    st <- WiFi_status ;;
    ret (is_WL_CONNECTED st)
  else ret false.

(** [WiFiManager::getState] *)
Definition getState : M WiFiState :=
  m <- get_this ;;
  ret (_state m).

(** [WiFiManager::setStateCallback] *)
Definition setStateCallback (callback : option nat) : M unit :=
  modify_this (set_stateCallback callback).

(** [WiFiManager::disconnect] *)
Definition disconnect : M unit :=
  emit EvWiFiDisconnect ;;
  updateState DISCONNECTED.

(** The calls a client can make, and time passing between them. *)
Inductive Op : Type :=
| OpBegin (ssid password : option string)
| OpLoop
| OpIsConnected
| OpDisconnect
| OpReconnect
| OpDelay (ms : Z).

Definition do_op (o : Op) : M unit :=
  match o with
  | OpBegin ssid password => _ <- begin ssid password ;; ret tt
  | OpLoop => loop
  | OpIsConnected => _ <- isConnected ;; ret tt
  | OpDisconnect => disconnect
  | OpReconnect => reconnect
  | OpDelay ms => delay ms
  end.

Fixpoint run (ops : list Op) : M unit :=
  match ops with
  | [] => ret tt
  | o :: r => do_op o ;; run r
  end.

End Manager.

(** The trace entry of a callback invocation at clock value [t], when a
    callback is registered. *)
Definition notify (cb : option nat) (s : WiFiState) (t : Z) : list (Z * Event) :=
  match cb with
  | Some h => [(t, EvCallback h s)]
  | None => []
  end.

(** What [updateState] adds to the trace. *)
Definition notify_change (m : WiFiManager) (s : WiFiState) (t : Z) : list (Z * Event) :=
  if WiFiState_eqb (_state m) s then [] else notify (_stateCallback m) s t.

(** From [st] to [st'] the callback slot is kept and the trace only grows;
    with a callback registered, the callback invocations that were added
    are the states entered on the way, one per change of state; and a
    method entered outside [CONNECTING] is not left in it. *)
Definition evolves (st st' : Machine) : Prop :=
  _stateCallback (this st') = _stateCallback (this st) /\
  (_state (this st) <> CONNECTING -> _state (this st') <> CONNECTING) /\
  exists evs,
    w_trace (world st') = w_trace (world st) ++ evs /\
    (_stateCallback (this st) <> None ->
     transitions (_state (this st)) (callback_states evs) (_state (this st'))).

(** The calls that leave the pacing of the reconnect attempts to [loop]:
    polls, queries, explicit disconnects, and time passing. *)
Definition is_poll (o : Op) : bool :=
  match o with
  | OpLoop | OpIsConnected | OpDisconnect => true
  | OpDelay ms => 0 <=? ms
  | OpBegin _ _ | OpReconnect => false
  end.

(** From [st] to [st'] the clock did not go back and at most one connect
    attempt was started: either [WiFi.begin] was not called, and
    [_lastConnectAttempt] is kept or set to the time of the call; or it was
    called once, at the time of the call, after more than
    [RECONNECT_DELAY_MS] since [_lastConnectAttempt], which now holds that
    time. *)
Definition paced (st st' : Machine) : Prop :=
  w_clock (world st) <= w_clock (world st') /\
  exists evs,
    w_trace (world st') = w_trace (world st) ++ evs /\
    ((begin_times evs = [] /\
      (_lastConnectAttempt (this st') = _lastConnectAttempt (this st) \/
       _lastConnectAttempt (this st') = world_millis (world st)))
     \/
     (begin_times evs = [w_clock (world st)] /\
      RECONNECT_DELAY_MS <
        u32 (world_millis (world st) - _lastConnectAttempt (this st)) /\
      _lastConnectAttempt (this st') = world_millis (world st))).

(** Sample adapters: a link that comes up at the fourth status read, one
    that never comes up, and one that is up for the first read only. *)
Definition slow_adapter (n : nat) : wl_status_t :=
  if (n <? 3)%nat then WL_DISCONNECTED else WL_CONNECTED.

Definition dead_adapter (n : nat) : wl_status_t := WL_DISCONNECTED.

Definition flaky_adapter (n : nat) : wl_status_t :=
  if (n <? 1)%nat then WL_CONNECTED else WL_CONNECTION_LOST.

(** A link that comes up between the status reads 30000 ms and 30500 ms
    after the start: unconnected for the reads 0 to 60, connected from
    read 61 on. *)
Definition late_adapter (n : nat) : wl_status_t :=
  if (n <? 61)%nat then WL_DISCONNECTED else WL_CONNECTED.

(** *** The outcomes of the calls, as relations *)

Section Outcomes.

Variable adapter : nat -> wl_status_t.

(** How a call of [begin] ends: with the adapter found connected at the
    [k]-th status read of the call (the reads are 500 ms apart and the
    last one is read 61), or with all 62 reads unconnected. *)
Inductive begins (ssid password : option string) (m : WiFiManager) (w : World)
  : bool -> Machine -> Prop :=
| begins_connected (k : nat) :
    (k <= 61)%nat ->
    (forall i, (i < k)%nat -> is_WL_CONNECTED (adapter (w_reads w + i)) = false) ->
    is_WL_CONNECTED (adapter (w_reads w + k)) = true ->
    begins ssid password m w true
      (mkMachine
         (set_reconnectAttempts 0 (set_state CONNECTED (set_credentials ssid password m)))
         (mkWorld (w_clock w + 500 * Z.of_nat k) (S (w_reads w + k))
            (w_trace w ++ notify_change m CONNECTING (w_clock w)
               ++ [(w_clock w, EvWiFiMode); (w_clock w, EvWiFiBegin ssid password)]
               ++ notify (_stateCallback m) CONNECTED (w_clock w + 500 * Z.of_nat k))))
| begins_timed_out :
    (forall i, (i <= 61)%nat -> is_WL_CONNECTED (adapter (w_reads w + i)) = false) ->
    begins ssid password m w false
      (mkMachine
         (set_state ERROR (set_credentials ssid password m))
         (mkWorld (w_clock w + 30500) (w_reads w + 62)
            (w_trace w ++ notify_change m CONNECTING (w_clock w)
               ++ [(w_clock w, EvWiFiMode); (w_clock w, EvWiFiBegin ssid password)]
               ++ notify (_stateCallback m) ERROR (w_clock w + 30500)))).

(** The second half of [loop], entered in [DISCONNECTED] or [ERROR]. *)
Inductive retries (m : WiFiManager) (w : World) : Machine -> Prop :=
| retries_wait :
    u32 (world_millis w - _lastConnectAttempt m) <= RECONNECT_DELAY_MS ->
    retries m w (mkMachine m w)
| retries_no_credentials :
    RECONNECT_DELAY_MS < u32 (world_millis w - _lastConnectAttempt m) ->
    _ssid m = None ->
    retries m w (mkMachine (set_lastConnectAttempt (world_millis w) m) w)
| retries_attempt (b : bool) (st' : Machine) :
    RECONNECT_DELAY_MS < u32 (world_millis w - _lastConnectAttempt m) ->
    _ssid m <> None ->
    begins (_ssid m) (_password m)
           (set_reconnectAttempts (wrap_int (_reconnectAttempts m + 1))
              (set_lastConnectAttempt (world_millis w) m)) w b st' ->
    retries m w st'.

(** How a call of [loop] ends. *)
Inductive polls (m : WiFiManager) (w : World) : Machine -> Prop :=
| polls_connected :
    _state m = CONNECTED ->
    is_WL_CONNECTED (adapter (w_reads w)) = true ->
    polls m w (mkMachine m (world_read w))
| polls_connecting :
    _state m = CONNECTING ->
    polls m w (mkMachine m w)
| polls_link_lost (st' : Machine) :
    _state m = CONNECTED ->
    is_WL_CONNECTED (adapter (w_reads w)) = false ->
    retries (set_state DISCONNECTED m)
            (mkWorld (w_clock w) (S (w_reads w))
                     (w_trace w ++ notify (_stateCallback m) DISCONNECTED (w_clock w)))
            st' ->
    polls m w st'
| polls_idle (st' : Machine) :
    _state m = DISCONNECTED \/ _state m = ERROR ->
    retries m w st' ->
    polls m w st'.

(** How each call ends. *)
Inductive outcome : Op -> Machine -> Machine -> Prop :=
| outcome_begin ssid password m w b st' :
    begins ssid password m w b st' ->
    outcome (OpBegin ssid password) (mkMachine m w) st'
| outcome_loop m w st' :
    polls m w st' ->
    outcome OpLoop (mkMachine m w) st'
| outcome_isConnected_read m w :
    _state m = CONNECTED ->
    outcome OpIsConnected (mkMachine m w) (mkMachine m (world_read w))
| outcome_isConnected_skip m w :
    _state m <> CONNECTED ->
    outcome OpIsConnected (mkMachine m w) (mkMachine m w)
| outcome_disconnect m w :
    outcome OpDisconnect (mkMachine m w)
      (mkMachine (set_state DISCONNECTED m)
         (mkWorld (w_clock w) (w_reads w)
            (w_trace w ++ (w_clock w, EvWiFiDisconnect)
                       :: notify_change m DISCONNECTED (w_clock w))))
| outcome_reconnect_no_credentials m w :
    _ssid m = None ->
    outcome OpReconnect (mkMachine m w) (mkMachine m w)
| outcome_reconnect m w b st' :
    _ssid m <> None ->
    begins (_ssid m) (_password m)
           (set_reconnectAttempts (wrap_int (_reconnectAttempts m + 1)) m) w b st' ->
    outcome OpReconnect (mkMachine m w) st'
| outcome_delay ms m w :
    outcome (OpDelay ms) (mkMachine m w) (mkMachine m (world_delay ms w)).

End Outcomes.

(** *** Vocabulary of the further properties *)

(** The edges of the state machine. *)
Definition edge (a b : WiFiState) : bool :=
  match a, b with
  | DISCONNECTED, CONNECTING
  | ERROR, CONNECTING
  | CONNECTED, CONNECTING
  | CONNECTING, CONNECTED
  | CONNECTING, ERROR
  | CONNECTED, DISCONNECTED
  | ERROR, DISCONNECTED => true
  | _, _ => false
  end.

(** [l] follows edges from [s0] on. *)
Fixpoint walk (s0 : WiFiState) (l : list WiFiState) : Prop :=
  match l with
  | [] => True
  | x :: r => edge s0 x = true /\ walk x r
  end.

(** The machine is between calls, with the callback [h] registered. *)
Definition settled (h : nat) (st : Machine) : Prop :=
  _stateCallback (this st) = Some h /\ _state (this st) <> CONNECTING.

(** The notifications added from [st] to [st'] follow edges from the state
    of [st] to the state of [st']. *)
Definition walked (st st' : Machine) : Prop :=
  exists evs,
    w_trace (world st') = w_trace (world st) ++ evs /\
    transitions (_state (this st)) (callback_states evs) (_state (this st')) /\
    walk (_state (this st)) (callback_states evs).

(** The handlers of the callback invocations of a trace, oldest first. *)
Fixpoint callback_handlers (evs : list (Z * Event)) : list nat :=
  match evs with
  | [] => []
  | (_, EvCallback h _) :: r => h :: callback_handlers r
  | _ :: r => callback_handlers r
  end.

(** A trace without its callback invocations. *)
Fixpoint silent (evs : list (Z * Event)) : list (Z * Event) :=
  match evs with
  | [] => []
  | (_, EvCallback _ _) :: r => silent r
  | e :: r => e :: silent r
  end.

(** The machine with the callback slot emptied and the callback
    invocations taken out of the trace. *)
Definition mute (st : Machine) : Machine :=
  mkMachine (set_stateCallback None (this st))
            (mkWorld (w_clock (world st)) (w_reads (world st))
                     (silent (w_trace (world st)))).

(** From [st] to [st'] the callback slot is kept and every callback
    invocation added went to the callback in the slot. *)
Definition registered_only (st st' : Machine) : Prop :=
  _stateCallback (this st') = _stateCallback (this st) /\
  exists evs,
    w_trace (world st') = w_trace (world st) ++ evs /\
    Forall (fun h => _stateCallback (this st) = Some h) (callback_handlers evs).

(** A manager without credentials, in [DISCONNECTED]. *)
Definition idle_without_credentials (st : Machine) : Prop :=
  _ssid (this st) = None /\ _state (this st) = DISCONNECTED.

(** From [st] to [st'] the adapter was not read and nothing was added to
    the trace but explicit [WiFi.disconnect] calls; the attempt counter is
    kept. *)
Definition inert (st st' : Machine) : Prop :=
  _reconnectAttempts (this st') = _reconnectAttempts (this st) /\
  w_reads (world st') = w_reads (world st) /\
  exists evs,
    w_trace (world st') = w_trace (world st) ++ evs /\
    Forall (fun e => snd e = EvWiFiDisconnect) evs.

(** The calls other than [begin]. *)
Definition no_begin (o : Op) : bool :=
  match o with
  | OpBegin _ _ => false
  | _ => true
  end.

(** [n] polls in a row. *)
Definition polls_in_a_row (n : nat) : list Op := repeat OpLoop n.

End WiFi.

(* ================================================================= *)
(** ** utils/led_indicator.{h,cpp} *)

Module Utils.

Inductive LEDPattern : Type :=
| OFF
| ON
| BLINK_SLOW
| BLINK_FAST
| PULSE
| DOUBLE_BLINK.

Record LEDIndicator : Type := mkLEDIndicator {
  _pin : Z;
  _activeLow : bool;
  _pattern : LEDPattern;
  _ledState : bool;
  _lastUpdate : Z;
  _blinkPhase : Z
}.

(** [LEDIndicator::LEDIndicator(pin, activeLow)] *)
Definition LEDIndicator_new (pin : Z) (activeLow : bool) : LEDIndicator :=
  mkLEDIndicator pin activeLow OFF false 0 0.

Definition set_pattern (p : LEDPattern) (l : LEDIndicator) :=
  mkLEDIndicator (_pin l) (_activeLow l) p (_ledState l) (_lastUpdate l) (_blinkPhase l).
Definition set_ledState (v : bool) (l : LEDIndicator) :=
  mkLEDIndicator (_pin l) (_activeLow l) (_pattern l) v (_lastUpdate l) (_blinkPhase l).
Definition set_lastUpdate (t : Z) (l : LEDIndicator) :=
  mkLEDIndicator (_pin l) (_activeLow l) (_pattern l) (_ledState l) t (_blinkPhase l).
Definition set_blinkPhase (n : Z) (l : LEDIndicator) :=
  mkLEDIndicator (_pin l) (_activeLow l) (_pattern l) (_ledState l) (_lastUpdate l) n.

(** [LEDIndicator::applyState] *)
Definition applyState (state : bool) (l : LEDIndicator) (w : World)
  : LEDIndicator * World :=
  (set_ledState state l,
   world_emit (EvDigitalWrite (_pin l) (if _activeLow l then negb state else state)) w).

(** [LEDIndicator::toggle] *)
Definition toggle (l : LEDIndicator) (w : World) : LEDIndicator * World :=
  let l1 := set_ledState (negb (_ledState l)) l in
  applyState (_ledState l1) l1 w.

(** [LEDIndicator::begin] *)
Definition begin (l : LEDIndicator) (w : World) : LEDIndicator * World :=
  applyState false l (world_emit (EvPinMode (_pin l)) w).

(** The body shared by the [BLINK_SLOW], [BLINK_FAST] and [PULSE] cases. *)
Definition blink (period : Z) (now : Z) (l : LEDIndicator) (w : World)
  : LEDIndicator * World :=
  if u32 (now - _lastUpdate l) >? period then
    toggle (set_lastUpdate now l) w
  else (l, w).

(** [LEDIndicator::loop] *)
Definition loop (l : LEDIndicator) (w : World) : LEDIndicator * World :=
  let now := world_millis w in
  match _pattern l with
  | OFF => applyState false l w
  | ON => applyState true l w
  | BLINK_SLOW => blink 1000 now l w
  | BLINK_FAST => blink 200 now l w
  | PULSE => blink 50 now l w
  | DOUBLE_BLINK =>
      if u32 (now - _lastUpdate l) >? (if _blinkPhase l <? 4 then 100 else 500) then
        let (l1, w1) := toggle (set_lastUpdate now l) w in
        (set_blinkPhase (Z.rem (wrap_int (_blinkPhase l1 + 1)) 6) l1, w1)
      else (l, w)
  end.

(** [LEDIndicator::setPattern] *)
Definition setPattern (pattern : LEDPattern) (l : LEDIndicator) : LEDIndicator :=
  set_blinkPhase 0 (set_lastUpdate 0 (set_pattern pattern l)).

(** [LEDIndicator::on] *)
Definition on (l : LEDIndicator) (w : World) : LEDIndicator * World :=
  applyState true (set_pattern ON l) w.

(** [LEDIndicator::off] *)
Definition off (l : LEDIndicator) (w : World) : LEDIndicator * World :=
  applyState false (set_pattern OFF l) w.

(** The calls a client can make, and time passing between them. *)
Inductive Op : Type :=
| OpBegin
| OpLoop
| OpSetPattern (p : LEDPattern)
| OpOn
| OpOff
| OpToggle
| OpDelay (ms : Z).

Definition do_op (o : Op) (l : LEDIndicator) (w : World) : LEDIndicator * World :=
  match o with
  | OpBegin => begin l w
  | OpLoop => loop l w
  | OpSetPattern p => (setPattern p l, w)
  | OpOn => on l w
  | OpOff => off l w
  | OpToggle => toggle l w
  | OpDelay ms => (l, world_delay ms w)
  end.

Fixpoint run (ops : list Op) (l : LEDIndicator) (w : World) : LEDIndicator * World :=
  match ops with
  | [] => (l, w)
  | o :: r => let (l1, w1) := do_op o l w in run r l1 w1
  end.

(** What [digitalWrite] is called with for the logical level [v]. *)
Definition driven (l : LEDIndicator) (v : bool) : Z * bool :=
  (_pin l, if _activeLow l then negb v else v).

(** What the calls from [l, w] to [l', w'] wrote: nothing, with the logical
    level kept, or a sequence of levels on the pin of [l] that ends with
    the polarity-corrected logical level of [l']. *)
Definition writes_corrected (l : LEDIndicator) (w : World)
           (l' : LEDIndicator) (w' : World) : Prop :=
  _pin l' = _pin l /\
  _activeLow l' = _activeLow l /\
  exists evs,
    w_trace w' = w_trace w ++ evs /\
    Forall (fun pv => fst pv = _pin l) (pin_writes evs) /\
    (pin_writes evs = [] /\ _ledState l' = _ledState l \/
     exists pre, pin_writes evs = pre ++ [driven l (_ledState l')]).

(** The toggle threshold of [DOUBLE_BLINK] in phase [k mod 6]. *)
Definition double_blink_threshold (k : Z) : Z :=
  if k mod 6 <? 4 then 100 else 500.

(** Consecutive elements of [l] are more than [thr k], [thr (k + 1)], ...
    apart. *)
Fixpoint spaced_by (thr : Z -> Z) (k : Z) (l : list Z) : Prop :=
  match l with
  | a :: ((b :: _) as r) => thr k < b - a /\ spaced_by thr (k + 1) r
  | _ => True
  end.

(** The clock does not go back along [times], which start at [t0]. *)
Fixpoint ascending (t0 : Z) (times : list Z) : Prop :=
  match times with
  | [] => True
  | t :: r => t0 <= t /\ ascending t r
  end.

(** Poll once at each of the given clock values. *)
Fixpoint poll_at (times : list Z) (l : LEDIndicator) (w : World)
  : LEDIndicator * World :=
  match times with
  | [] => (l, w)
  | t :: r =>
      let (l1, w1) := loop l (mkWorld t (w_reads w) (w_trace w)) in
      poll_at r l1 w1
  end.

(** The clock values at which the pin was written, oldest first. *)
Fixpoint write_times (evs : list (Z * Event)) : list Z :=
  match evs with
  | [] => []
  | (t, EvDigitalWrite _ _) :: r => t :: write_times r
  | _ :: r => write_times r
  end.

(** *** Vocabulary of the further properties *)

(** The threshold of the patterns that toggle on one fixed period. *)
Definition period_of (p : LEDPattern) : option Z :=
  match p with
  | BLINK_SLOW => Some 1000
  | BLINK_FAST => Some 200
  | PULSE => Some 50
  | OFF | ON | DOUBLE_BLINK => None
  end.

(** [n] levels that alternate, the first one being [v]. *)
Fixpoint alternating (v : bool) (n : nat) : list bool :=
  match n with
  | O => []
  | S n' => v :: alternating (negb v) n'
  end.

(** The clock values [t0 + d], [t0 + 2 d], ..., [t0 + n d]. *)
Definition every (d t0 : Z) (n : nat) : list Z :=
  map (fun i => t0 + d * Z.of_nat i) (seq 1 n).

(** The calls that are not a call of [loop]. *)
Definition is_control (o : Op) : bool :=
  match o with
  | OpLoop => false
  | _ => true
  end.

End Utils.

(* ================================================================= *)
(** ** main.cpp *)

Module Main.

(** From config.h. *)
Definition WIFI_SSID : string := "your_wifi_ssid".
Definition WIFI_PASSWORD : string := "your_wifi_password".

(** The global instances and the platform. *)
Record System : Type := mkSystem {
  wifiManager : WiFi.WiFiManager;
  led : Utils.LEDIndicator;
  platform : World
}.

(** [onWiFiStateChange] *)
Definition onWiFiStateChange (state : WiFiState) (l : Utils.LEDIndicator)
  : Utils.LEDIndicator :=
  match state with
  | CONNECTING => Utils.setPattern Utils.BLINK_FAST l
  | CONNECTED => Utils.setPattern Utils.ON l
  | DISCONNECTED => Utils.setPattern Utils.BLINK_SLOW l
  | ERROR => Utils.setPattern Utils.DOUBLE_BLINK l
  end.

(** The name under which [onWiFiStateChange] sits in the callback slot. *)
Definition onWiFiStateChange_slot : nat := 0%nat.

(** Runs the callback for the invocations recorded in [evs], in order.
    [main.cpp] defines no other callback: an invocation under another name
    runs nothing. *)
Fixpoint dispatch (evs : list (Z * Event)) (l : Utils.LEDIndicator)
  : Utils.LEDIndicator :=
  match evs with
  | [] => l
  | (_, EvCallback h s) :: r =>
      dispatch r (if (h =? onWiFiStateChange_slot)%nat
                  then onWiFiStateChange s l else l)
  | _ :: r => dispatch r l
  end.

(** A call of a method of [wifiManager].  The callback only writes [led],
    which no method of the manager reads, so it is run on the invocations
    the call added to the trace. *)
Definition call {A : Type} (c : WiFi.M A) (s : System) : option (A * System) :=
  match c (WiFi.mkMachine (wifiManager s) (platform s)) with
  | Some (a, st') =>
      Some (a, mkSystem (WiFi.this st')
                        (dispatch (skipn (List.length (w_trace (platform s)))
                                         (w_trace (WiFi.world st')))
                                  (led s))
                        (WiFi.world st'))
  | None => None
  end.

(** A call of a method of [led]. *)
Definition led_call (f : Utils.LEDIndicator -> World -> Utils.LEDIndicator * World)
           (s : System) : System :=
  let (l', w') := f (led s) (platform s) in
  mkSystem (wifiManager s) l' w'.

(** The global instances as constructed, at clock value [t]. *)
Definition boot (t : Z) : System :=
  mkSystem WiFi.WiFiManager_new
           (Utils.LEDIndicator_new LED_PIN LED_BUILTIN_ACTIVE_LOW)
           (mkWorld t 0 []).

(** The LED pattern [onWiFiStateChange] selects for a state. *)
Definition pattern_for (state : WiFiState) : Utils.LEDPattern :=
  match state with
  | CONNECTING => Utils.BLINK_FAST
  | CONNECTED => Utils.ON
  | DISCONNECTED => Utils.BLINK_SLOW
  | ERROR => Utils.DOUBLE_BLINK
  end.

(** Between calls: the callback is registered, the manager is not in
    [CONNECTING], the LED shows the pattern of the manager's state, on the
    pin and with the polarity of config.h. *)
Definition in_step (s : System) : Prop :=
  WiFi._stateCallback (wifiManager s) = Some onWiFiStateChange_slot /\
  WiFi._state (wifiManager s) <> CONNECTING /\
  Utils._pattern (led s) = pattern_for (WiFi._state (wifiManager s)) /\
  Utils._pin (led s) = LED_PIN /\
  Utils._activeLow (led s) = LED_BUILTIN_ACTIVE_LOW.

Section Sketch.

Variable adapter : nat -> wl_status_t.

(** [setup]; the queries of the adapter for the device info have no effect
    on the manager, the LED or the clock. *)
Definition setup (s : System) : option System :=
  let s := mkSystem (wifiManager s) (led s) (world_delay 1000 (platform s)) in
  let s := led_call Utils.begin s in
  let s := mkSystem (wifiManager s) (Utils.setPattern Utils.BLINK_SLOW (led s))
                    (platform s) in
  match call (WiFi.setStateCallback (Some onWiFiStateChange_slot)) s with
  | Some (_, s) =>
      match call (WiFi.begin adapter (Some WIFI_SSID) (Some WIFI_PASSWORD)) s with
      | Some (_, s) => Some s
      | None => None
      end
  | None => None
  end.

(** [loop] *)
Definition loop (s : System) : option System :=
  match call (WiFi.loop adapter) s with
  | Some (_, s) =>
      let s := led_call Utils.loop s in
      Some (mkSystem (wifiManager s) (led s) (world_delay 10 (platform s)))
  | None => None
  end.

(** [n] iterations of [loop]. *)
Fixpoint iterate (n : nat) (s : System) : option System :=
  match n with
  | O => Some s
  | S n' =>
      match loop s with
      | Some s' => iterate n' s'
      | None => None
      end
  end.

(** [setup] and then [n] iterations of [loop]. *)
Definition firmware (n : nat) (s : System) : option System :=
  match setup s with
  | Some s' => iterate n s'
  | None => None
  end.

End Sketch.

End Main.

(* ================================================================= *)
(** * Properties *)

(** ** Machine arithmetic *)

#[local] Arguments Z.add : simpl never.
#[local] Arguments Z.sub : simpl never.
#[local] Arguments Z.mul : simpl never.
#[local] Arguments Z.modulo : simpl never.
#[local] Arguments Z.rem : simpl never.
#[local] Arguments Z.pow : simpl never.
#[local] Arguments Z.gtb : simpl never.
#[local] Arguments Z.ltb : simpl never.
#[local] Arguments Z.eqb : simpl never.
#[local] Arguments Z.of_nat : simpl never.
#[local] Arguments Z.to_nat : simpl never.
#[local] Arguments u32 : simpl never.
#[local] Arguments wrap_int : simpl never.

Lemma u32_range (z : Z) : 0 <= u32 z < 2 ^ 32.
Proof. unfold u32. apply Z.mod_pos_bound. lia. Qed.

Lemma u32_small (z : Z) : 0 <= z < 2 ^ 32 -> u32 z = z.
Proof. intros H. unfold u32. apply Z.mod_small. exact H. Qed.

Lemma u32_sub (a b : Z) : u32 (u32 a - u32 b) = u32 (a - b).
Proof. unfold u32. symmetry. apply Zminus_mod. Qed.

Lemma u32_elapsed (c d : Z) : 0 <= d < 2 ^ 32 -> u32 (u32 (c + d) - u32 c) = d.
Proof.
  intros H. rewrite u32_sub. replace (c + d - c) with d by lia.
  apply u32_small. exact H.
Qed.

Lemma u32_le (z : Z) : 0 <= z -> u32 z <= z.
Proof. intros H. unfold u32. apply Z.mod_le; lia. Qed.

Lemma wrap_int_small (z : Z) : - 2 ^ 31 <= z < 2 ^ 31 -> wrap_int z = z.
Proof. intros H. unfold wrap_int. rewrite Z.mod_small; lia. Qed.

Lemma WiFiState_eqb_eq (a b : WiFiState) : WiFiState_eqb a b = true <-> a = b.
Proof. destruct a, b; simpl; split; intros H; congruence. Qed.

Lemma WiFiState_eqb_neq (a b : WiFiState) : WiFiState_eqb a b = false <-> a <> b.
Proof. destruct a, b; simpl; split; intros H; congruence. Qed.

Lemma WiFiState_eqb_refl (a : WiFiState) : WiFiState_eqb a a = true.
Proof. destruct a; reflexivity. Qed.

(** ** Traces *)

Lemma callback_states_app (a b : list (Z * Event)) :
  callback_states (a ++ b) = callback_states a ++ callback_states b.
Proof.
  induction a as [|[t e] a IH]; simpl; [reflexivity|].
  destruct e; simpl; rewrite IH; reflexivity.
Qed.

Lemma begin_times_app (a b : list (Z * Event)) :
  begin_times (a ++ b) = begin_times a ++ begin_times b.
Proof.
  induction a as [|[t e] a IH]; simpl; [reflexivity|].
  destruct e; simpl; rewrite IH; reflexivity.
Qed.

Lemma pin_writes_app (a b : list (Z * Event)) :
  pin_writes (a ++ b) = pin_writes a ++ pin_writes b.
Proof.
  induction a as [|[t e] a IH]; simpl; [reflexivity|].
  destruct e; simpl; rewrite IH; reflexivity.
Qed.

Lemma begin_times_nil_app (a b : list (Z * Event)) :
  begin_times a = [] -> begin_times (a ++ b) = begin_times b.
Proof. intros H. rewrite begin_times_app, H. reflexivity. Qed.

Lemma spaced_snoc (gap t2 : Z) (l : list Z) :
  spaced gap l -> Forall (fun t => gap < t2 - t) l -> spaced gap (l ++ [t2]).
Proof.
  induction l as [|a l IH]; intros Hs Hall; [exact I|].
  destruct l as [|b l].
  - cbn. split; [|exact I]. inversion Hall; assumption.
  - cbn in Hs. destruct Hs as [Hab Hs].
    change ((a :: b :: l) ++ [t2]) with (a :: (b :: l) ++ [t2]).
    change (gap < b - a /\ spaced gap ((b :: l) ++ [t2])).
    split; [exact Hab|]. apply IH; [exact Hs|]. inversion Hall; assumption.
Qed.

Lemma transitions_app (s0 s1 s2 : WiFiState) (l1 l2 : list WiFiState) :
  transitions s0 l1 s1 -> transitions s1 l2 s2 -> transitions s0 (l1 ++ l2) s2.
Proof.
  revert s0. induction l1 as [|x l1 IH]; simpl; intros s0 H1 H2.
  - subst s1. exact H2.
  - destruct H1 as [Hne H1]. split; [exact Hne | apply IH; assumption].
Qed.

(* ================================================================= *)
(** ** WiFiManager *)

Module WiFiProps.
Import WiFi.

Section Props.

Variable adapter : nat -> wl_status_t.

#[local] Arguments updateState : simpl never.
#[local] Arguments begin_wait : simpl never.
#[local] Arguments begin : simpl never.
#[local] Arguments reconnect : simpl never.
#[local] Arguments loop : simpl never.
#[local] Arguments isConnected : simpl never.
#[local] Arguments disconnect : simpl never.

(** *** updateState *)

Lemma updateState_run (s : WiFiState) (m : WiFiManager) (c : Z) (r : nat)
      (tr : list (Z * Event)) :
  updateState s (mkMachine m (mkWorld c r tr)) =
  Some (tt, mkMachine (set_state s m)
                      (mkWorld c r (tr ++ notify_change m s c))).
Proof.
  unfold updateState, notify_change, bind, get_this. cbn.
  destruct (WiFiState_eqb (_state m) s) eqn:E; cbn.
  - apply WiFiState_eqb_eq in E. subst s. rewrite app_nil_r.
    destruct m; reflexivity.
  - destruct (_stateCallback m); cbn; [reflexivity|].
    rewrite app_nil_r. reflexivity.
Qed.

Lemma notify_change_same (m : WiFiManager) (c : Z) :
  notify_change m (_state m) c = [].
Proof. unfold notify_change. rewrite WiFiState_eqb_refl. reflexivity. Qed.

Lemma notify_change_diff (m : WiFiManager) (s : WiFiState) (c : Z) :
  _state m <> s -> notify_change m s c = notify (_stateCallback m) s c.
Proof.
  intros H. unfold notify_change.
  apply WiFiState_eqb_neq in H. rewrite H. reflexivity.
Qed.

Lemma callback_states_notify (cb : option nat) (s : WiFiState) (c : Z) :
  cb <> None -> callback_states (notify cb s c) = [s].
Proof. destruct cb; [reflexivity | congruence]. Qed.

(** *** The wait loop of begin *)

Lemma begin_wait_S (fuel : nat) (startTime : Z) (st : Machine) :
  begin_wait adapter (S fuel) startTime st =
  (s <- WiFi_status adapter ;;
   if is_WL_CONNECTED s then ret true
   else
     now <- millis ;;
     if u32 (now - startTime) >? WIFI_TIMEOUT_MS then
       updateState ERROR ;;
       ret false
     else
       delay 500 ;;
       begin_wait adapter fuel startTime) st.
Proof. reflexivity. Qed.

Lemma begin_wait_connected (k : nat) :
  forall (fuel : nat) (m : WiFiManager) (c : Z) (r : nat) (tr : list (Z * Event))
         (c0 j : Z),
    (k < fuel)%nat ->
    c = c0 + 500 * j -> 0 <= j ->
    500 * (j + Z.of_nat k) <= WIFI_TIMEOUT_MS + 500 ->
    (forall i, (i < k)%nat -> is_WL_CONNECTED (adapter (r + i)) = false) ->
    is_WL_CONNECTED (adapter (r + k)) = true ->
    begin_wait adapter fuel (u32 c0) (mkMachine m (mkWorld c r tr)) =
    Some (true, mkMachine m (mkWorld (c + 500 * Z.of_nat k) (S (r + k)) tr)).
Proof.
  induction k as [|k IH]; intros fuel m c r tr c0 j Hf Hc Hj Hk Hno Hyes.
  - destruct fuel as [|fuel]; [lia|].
    rewrite begin_wait_S. unfold bind, WiFi_status. cbn.
    rewrite Nat.add_0_r in Hyes. rewrite Hyes. unfold ret, world_read. cbn.
    rewrite Nat.add_0_r. replace (c + 500 * Z.of_nat 0) with c by lia. reflexivity.
  - destruct fuel as [|fuel]; [lia|].
    rewrite begin_wait_S. unfold bind at 1. unfold WiFi_status. cbn.
    assert (H0 : is_WL_CONNECTED (adapter r) = false).
    { specialize (Hno O). rewrite Nat.add_0_r in Hno. apply Hno. lia. }
    rewrite H0. unfold bind at 1. unfold millis, world_millis. cbn.
    subst c. rewrite u32_elapsed by (unfold WIFI_TIMEOUT_MS in Hk; lia).
    assert (Hle : (500 * j >? WIFI_TIMEOUT_MS) = false).
    { rewrite Z.gtb_ltb. apply Z.ltb_ge. unfold WIFI_TIMEOUT_MS in *. lia. }
    rewrite Hle. unfold bind at 1. unfold delay, modify_world, world_delay, world_read. cbn.
    rewrite (IH fuel m (c0 + 500 * j + 500) (S r) tr c0 (j + 1)).
    + replace (c0 + 500 * j + 500 + 500 * Z.of_nat k)
        with (c0 + 500 * j + 500 * Z.of_nat (S k)) by lia.
      replace (S r + k)%nat with (r + S k)%nat by lia. reflexivity.
    + lia.
    + lia.
    + lia.
    + lia.
    + intros i Hi. replace (S r + i)%nat with (r + S i)%nat by lia. apply Hno. lia.
    + replace (S r + k)%nat with (r + S k)%nat by lia. exact Hyes.
Qed.

Lemma begin_wait_timeout (k : nat) :
  forall (fuel : nat) (m : WiFiManager) (c : Z) (r : nat) (tr : list (Z * Event))
         (c0 j : Z),
    (k < fuel)%nat ->
    c = c0 + 500 * j -> 0 <= j ->
    WIFI_TIMEOUT_MS < 500 * (j + Z.of_nat k) <= WIFI_TIMEOUT_MS + 500 ->
    (forall i, (i <= k)%nat -> is_WL_CONNECTED (adapter (r + i)) = false) ->
    begin_wait adapter fuel (u32 c0) (mkMachine m (mkWorld c r tr)) =
    Some (false,
          mkMachine (set_state ERROR m)
                    (mkWorld (c + 500 * Z.of_nat k) (S (r + k))
                             (tr ++ notify_change m ERROR (c + 500 * Z.of_nat k)))).
Proof.
  induction k as [|k IH]; intros fuel m c r tr c0 j Hf Hc Hj Hk Hno.
  - destruct fuel as [|fuel]; [lia|].
    rewrite begin_wait_S. unfold bind at 1. unfold WiFi_status. cbn.
    assert (H0 : is_WL_CONNECTED (adapter r) = false).
    { specialize (Hno O). rewrite Nat.add_0_r in Hno. apply Hno. lia. }
    rewrite H0. unfold bind at 1. unfold millis, world_millis. cbn.
    subst c. rewrite u32_elapsed by (unfold WIFI_TIMEOUT_MS in Hk; lia).
    assert (Hgt : (500 * j >? WIFI_TIMEOUT_MS) = true).
    { rewrite Z.gtb_ltb. apply Z.ltb_lt. lia. }
    rewrite Hgt. unfold bind at 1. unfold world_read. cbn.
    rewrite updateState_run. unfold ret.
    rewrite Nat.add_0_r. replace (c0 + 500 * j + 500 * Z.of_nat 0) with (c0 + 500 * j) by lia.
    reflexivity.
  - destruct fuel as [|fuel]; [lia|].
    rewrite begin_wait_S. unfold bind at 1. unfold WiFi_status. cbn.
    assert (H0 : is_WL_CONNECTED (adapter r) = false).
    { specialize (Hno O). rewrite Nat.add_0_r in Hno. apply Hno. lia. }
    rewrite H0. unfold bind at 1. unfold millis, world_millis. cbn.
    subst c. rewrite u32_elapsed by (unfold WIFI_TIMEOUT_MS in Hk; lia).
    assert (Hle : (500 * j >? WIFI_TIMEOUT_MS) = false).
    { rewrite Z.gtb_ltb. apply Z.ltb_ge. unfold WIFI_TIMEOUT_MS in *. lia. }
    rewrite Hle. unfold bind at 1. unfold delay, modify_world, world_delay, world_read. cbn.
    rewrite (IH fuel m (c0 + 500 * j + 500) (S r) tr c0 (j + 1)).
    + replace (c0 + 500 * j + 500 + 500 * Z.of_nat k)
        with (c0 + 500 * j + 500 * Z.of_nat (S k)) by lia.
      replace (S r + k)%nat with (r + S k)%nat by lia. reflexivity.
    + lia.
    + lia.
    + lia.
    + lia.
    + intros i Hi. replace (S r + i)%nat with (r + S i)%nat by lia. apply Hno. lia.
Qed.

(** The adapter either stays unconnected for the first [n + 1] reads from
    [r] on, or there is a first read among them that finds it connected. *)
Lemma first_connected (r n : nat) :
  (forall i, (i <= n)%nat -> is_WL_CONNECTED (adapter (r + i)) = false) \/
  (exists k, (k <= n)%nat /\
             (forall i, (i < k)%nat -> is_WL_CONNECTED (adapter (r + i)) = false) /\
             is_WL_CONNECTED (adapter (r + k)) = true).
Proof.
  induction n as [|n IH].
  - destruct (is_WL_CONNECTED (adapter (r + 0))) eqn:E.
    + right. exists O. split; [lia|]. split; [intros i Hi; lia | exact E].
    + left. intros i Hi. replace i with O by lia. exact E.
  - destruct IH as [IH | (k & Hk & Hno & Hyes)].
    + destruct (is_WL_CONNECTED (adapter (r + S n))) eqn:E.
      * right. exists (S n). split; [lia|]. split; [|exact E].
        intros i Hi. apply IH. lia.
      * left. intros i Hi.
        destruct (Nat.eq_dec i (S n)) as [->|Hne]; [exact E | apply IH; lia].
    + right. exists k. split; [lia|]. split; assumption.
Qed.

(** *** begin *)

Lemma begin_fuel_eq : begin_fuel = 62%nat.
Proof. reflexivity. Qed.

Lemma begin_connects (k : nat) (ssid password : option string) (m : WiFiManager)
      (c : Z) (r : nat) (tr : list (Z * Event)) :
  500 * Z.of_nat k <= WIFI_TIMEOUT_MS + 500 ->
  (forall i, (i < k)%nat -> is_WL_CONNECTED (adapter (r + i)) = false) ->
  is_WL_CONNECTED (adapter (r + k)) = true ->
  begin adapter ssid password (mkMachine m (mkWorld c r tr)) =
  Some (true,
        mkMachine
          (set_reconnectAttempts 0 (set_state CONNECTED (set_credentials ssid password m)))
          (mkWorld (c + 500 * Z.of_nat k) (S (r + k))
             (tr ++ notify_change m CONNECTING c
                 ++ [(c, EvWiFiMode); (c, EvWiFiBegin ssid password)]
                 ++ notify (_stateCallback m) CONNECTED (c + 500 * Z.of_nat k)))).
Proof.
  intros Hk Hno Hyes.
  unfold begin, bind, modify_this, emit, modify_world, millis, world_millis, world_emit.
  cbn. rewrite updateState_run. cbn.
  rewrite (begin_wait_connected k begin_fuel _ c r _ c 0); try assumption; try lia.
  - rewrite updateState_run. cbn.
    unfold notify_change, ret. cbn.
    repeat rewrite <- app_assoc. reflexivity.
  - rewrite begin_fuel_eq. unfold WIFI_TIMEOUT_MS in Hk. lia.
Qed.

Lemma begin_times_out (ssid password : option string) (m : WiFiManager)
      (c : Z) (r : nat) (tr : list (Z * Event)) :
  (forall i, (i <= 61)%nat -> is_WL_CONNECTED (adapter (r + i)) = false) ->
  begin adapter ssid password (mkMachine m (mkWorld c r tr)) =
  Some (false,
        mkMachine
          (set_state ERROR (set_credentials ssid password m))
          (mkWorld (c + 30500) (r + 62)
             (tr ++ notify_change m CONNECTING c
                 ++ [(c, EvWiFiMode); (c, EvWiFiBegin ssid password)]
                 ++ notify (_stateCallback m) ERROR (c + 30500)))).
Proof.
  intros Hno.
  unfold begin, bind, modify_this, emit, modify_world, millis, world_millis, world_emit.
  cbn. rewrite updateState_run. cbn.
  rewrite (begin_wait_timeout 61 begin_fuel _ c r _ c 0); try assumption; try lia.
  - cbn. unfold notify_change, ret. cbn.
    replace (c + 500 * Z.of_nat 61) with (c + 30500) by lia.
    replace (S (r + 61)) with (r + 62)%nat by lia.
    repeat rewrite <- app_assoc. reflexivity.
  - rewrite begin_fuel_eq. lia.
  - unfold WIFI_TIMEOUT_MS. lia.
Qed.

(** [begin] always returns, in one of two ways. *)
Lemma begin_cases (ssid password : option string) (m : WiFiManager)
      (c : Z) (r : nat) (tr : list (Z * Event)) :
  (exists k, (k <= 61)%nat /\
     (forall i, (i < k)%nat -> is_WL_CONNECTED (adapter (r + i)) = false) /\
     is_WL_CONNECTED (adapter (r + k)) = true /\
     begin adapter ssid password (mkMachine m (mkWorld c r tr)) =
     Some (true,
        mkMachine
          (set_reconnectAttempts 0 (set_state CONNECTED (set_credentials ssid password m)))
          (mkWorld (c + 500 * Z.of_nat k) (S (r + k))
             (tr ++ notify_change m CONNECTING c
                 ++ [(c, EvWiFiMode); (c, EvWiFiBegin ssid password)]
                 ++ notify (_stateCallback m) CONNECTED (c + 500 * Z.of_nat k)))))
  \/
  ((forall i, (i <= 61)%nat -> is_WL_CONNECTED (adapter (r + i)) = false) /\
   begin adapter ssid password (mkMachine m (mkWorld c r tr)) =
   Some (false,
        mkMachine
          (set_state ERROR (set_credentials ssid password m))
          (mkWorld (c + 30500) (r + 62)
             (tr ++ notify_change m CONNECTING c
                 ++ [(c, EvWiFiMode); (c, EvWiFiBegin ssid password)]
                 ++ notify (_stateCallback m) ERROR (c + 30500))))).
Proof.
  destruct (first_connected r 61) as [Hno | (k & Hk & Hno & Hyes)].
  - right. split; [exact Hno | apply begin_times_out; exact Hno].
  - left. exists k. repeat split; try assumption.
    apply begin_connects; try assumption. unfold WIFI_TIMEOUT_MS. lia.
Qed.

(** *** loop, case by case *)

Lemma loop_still_connected (m : WiFiManager) (c : Z) (r : nat) (tr : list (Z * Event)) :
  _state m = CONNECTED ->
  is_WL_CONNECTED (adapter r) = true ->
  loop adapter (mkMachine m (mkWorld c r tr)) =
  Some (tt, mkMachine m (mkWorld c (S r) tr)).
Proof.
  intros Hs Ha. unfold loop, bind, get_this, WiFi_status. cbn.
  rewrite Hs. cbn. rewrite Ha. cbn. rewrite Hs. reflexivity.
Qed.

Lemma loop_connecting (m : WiFiManager) (w : World) :
  _state m = CONNECTING ->
  loop adapter (mkMachine m w) = Some (tt, mkMachine m w).
Proof.
  intros Hs. unfold loop, bind, get_this. cbn. rewrite Hs. cbn. rewrite Hs. reflexivity.
Qed.

Lemma loop_backoff (m : WiFiManager) (w : World) :
  _state m = DISCONNECTED \/ _state m = ERROR ->
  u32 (world_millis w - _lastConnectAttempt m) <= RECONNECT_DELAY_MS ->
  loop adapter (mkMachine m w) = Some (tt, mkMachine m w).
Proof.
  intros Hs Hd. unfold loop, bind, get_this, millis. cbn.
  assert (E : (u32 (world_millis w - _lastConnectAttempt m) >? RECONNECT_DELAY_MS) = false).
  { rewrite Z.gtb_ltb. apply Z.ltb_ge. exact Hd. }
  destruct Hs as [Hs | Hs]; rewrite Hs; cbn; rewrite Hs; cbn; rewrite E; reflexivity.
Qed.

Lemma loop_no_credentials (m : WiFiManager) (w : World) :
  _state m = DISCONNECTED \/ _state m = ERROR ->
  RECONNECT_DELAY_MS < u32 (world_millis w - _lastConnectAttempt m) ->
  _ssid m = None ->
  loop adapter (mkMachine m w) =
  Some (tt, mkMachine (set_lastConnectAttempt (world_millis w) m) w).
Proof.
  intros Hs Hd Hn. unfold loop, reconnect, bind, get_this, millis, modify_this. cbn.
  assert (E : (u32 (world_millis w - _lastConnectAttempt m) >? RECONNECT_DELAY_MS) = true).
  { rewrite Z.gtb_ltb. apply Z.ltb_lt. exact Hd. }
  destruct Hs as [Hs | Hs]; rewrite Hs; cbn; rewrite Hs; cbn; rewrite E; cbn;
    rewrite Hn; reflexivity.
Qed.

Lemma loop_retry (m : WiFiManager) (w : World) :
  _state m = DISCONNECTED \/ _state m = ERROR ->
  RECONNECT_DELAY_MS < u32 (world_millis w - _lastConnectAttempt m) ->
  _ssid m <> None ->
  loop adapter (mkMachine m w) =
  match begin adapter (_ssid m) (_password m)
          (mkMachine (set_reconnectAttempts (wrap_int (_reconnectAttempts m + 1))
                        (set_lastConnectAttempt (world_millis w) m)) w) with
  | Some (_, st') => Some (tt, st')
  | None => None
  end.
Proof.
  intros Hs Hd Hn. unfold loop, reconnect, bind, get_this, millis, modify_this. cbn.
  assert (E : (u32 (world_millis w - _lastConnectAttempt m) >? RECONNECT_DELAY_MS) = true).
  { rewrite Z.gtb_ltb. apply Z.ltb_lt. exact Hd. }
  destruct (_ssid m) as [ssid|] eqn:Hssid; [|congruence].
  destruct Hs as [Hs | Hs]; rewrite Hs; cbn; rewrite Hs; cbn; rewrite E; cbn;
    rewrite Hssid; reflexivity.
Qed.

Lemma loop_link_lost (m : WiFiManager) (c : Z) (r : nat) (tr : list (Z * Event)) :
  _state m = CONNECTED ->
  is_WL_CONNECTED (adapter r) = false ->
  loop adapter (mkMachine m (mkWorld c r tr)) =
  loop adapter (mkMachine (set_state DISCONNECTED m)
                          (mkWorld c (S r) (tr ++ notify (_stateCallback m) DISCONNECTED c))).
Proof.
  intros Hs Ha. unfold loop, bind, get_this, WiFi_status, handleDisconnect. cbn.
  rewrite Hs. cbn. rewrite Ha. cbn. unfold world_read. cbn. rewrite updateState_run. cbn.
  rewrite notify_change_diff by congruence. reflexivity.
Qed.

(** *** Every method keeps the callback log in step with the state *)

Lemma evolves_refl (st : Machine) : evolves st st.
Proof.
  split; [reflexivity|]. split; [tauto|]. exists []. rewrite app_nil_r.
  split; [reflexivity|]. intros _. reflexivity.
Qed.

Lemma evolves_trans (a b c : Machine) : evolves a b -> evolves b c -> evolves a c.
Proof.
  intros (Hcb1 & Hs1 & e1 & Ht1 & Hc1) (Hcb2 & Hs2 & e2 & Ht2 & Hc2).
  split; [congruence|]. split; [tauto|]. exists (e1 ++ e2). split.
  - rewrite Ht2, Ht1, app_assoc. reflexivity.
  - intros Hreg. rewrite callback_states_app.
    apply transitions_app with (s1 := _state (this b)).
    + apply Hc1, Hreg.
    + apply Hc2. rewrite Hcb1. exact Hreg.
Qed.

Lemma evolves_view (m m' : WiFiManager) (w : World) (st' : Machine) :
  _state m' = _state m -> _stateCallback m' = _stateCallback m ->
  evolves (mkMachine m' w) st' -> evolves (mkMachine m w) st'.
Proof.
  intros Hs Hcb (H1 & H2 & evs & Ht & Hc). cbn in *. split; [|split]; cbn.
  - congruence.
  - rewrite <- Hs. exact H2.
  - exists evs. split; [exact Ht|]. rewrite <- Hs, <- Hcb. exact Hc.
Qed.

Lemma evolves_read (m : WiFiManager) (c : Z) (r : nat) (tr : list (Z * Event)) :
  evolves (mkMachine m (mkWorld c r tr)) (mkMachine m (mkWorld c (S r) tr)).
Proof.
  split; [reflexivity|]. split; [tauto|]. exists []. cbn. rewrite app_nil_r.
  split; [reflexivity|]. intros _. reflexivity.
Qed.

Lemma evolves_updateState (s : WiFiState) (m : WiFiManager) (c : Z) (r : nat)
      (tr : list (Z * Event)) :
  s <> CONNECTING ->
  evolves (mkMachine m (mkWorld c r tr))
          (mkMachine (set_state s m) (mkWorld c r (tr ++ notify_change m s c))).
Proof.
  intros Hns.
  split; [reflexivity|]. split; [intros _; exact Hns|].
  exists (notify_change m s c). cbn.
  split; [reflexivity|]. intros Hreg. unfold notify_change.
  destruct (WiFiState_eqb (_state m) s) eqn:E.
  - apply WiFiState_eqb_eq in E. cbn. exact E.
  - apply WiFiState_eqb_neq in E. rewrite callback_states_notify by exact Hreg.
    cbn. split; [exact E | reflexivity].
Qed.

Lemma begin_evolves (ssid password : option string) (m : WiFiManager) (w : World) :
  exists b st',
    begin adapter ssid password (mkMachine m w) = Some (b, st') /\
    evolves (mkMachine m w) st'.
Proof.
  destruct w as [c r tr].
  destruct (begin_cases ssid password m c r tr)
    as [(k & _ & _ & _ & E) | [_ E]]; rewrite E; eexists; eexists;
    (split; [reflexivity|]); (split; [reflexivity|]); cbn;
    (split; [intros _; congruence|]);
    eexists; (split; [reflexivity|]); intros Hreg;
    rewrite !callback_states_app; cbn;
    rewrite callback_states_notify by exact Hreg;
    unfold notify_change;
    destruct (_state m); cbn; try rewrite callback_states_notify by exact Hreg;
    cbn; repeat split; congruence.
Qed.

Lemma loop_idle_evolves (m : WiFiManager) (w : World) :
  _state m = DISCONNECTED \/ _state m = ERROR ->
  exists st', loop adapter (mkMachine m w) = Some (tt, st') /\
              evolves (mkMachine m w) st'.
Proof.
  intros Hs.
  destruct (Z_lt_le_dec RECONNECT_DELAY_MS
              (u32 (world_millis w - _lastConnectAttempt m))) as [Hd | Hd].
  - destruct (_ssid m) as [ssid|] eqn:Hssid.
    + rewrite loop_retry; [|exact Hs|exact Hd|congruence].
      match goal with
      | |- context [begin adapter ?a ?b (mkMachine ?m' ?w')] =>
          destruct (begin_evolves a b m' w') as (b' & st' & E & Hev)
      end.
      rewrite E. exists st'. split; [reflexivity|].
      eapply evolves_view; [| |exact Hev]; reflexivity.
    + rewrite loop_no_credentials by assumption. eexists. split; [reflexivity|].
      eapply evolves_view; [| |apply evolves_refl]; reflexivity.
  - rewrite loop_backoff by assumption. eexists. split; [reflexivity|].
    apply evolves_refl.
Qed.

Lemma loop_evolves (st : Machine) :
  exists st', loop adapter st = Some (tt, st') /\ evolves st st'.
Proof.
  destruct st as [m [c r tr]].
  destruct (_state m) eqn:Hs.
  - apply loop_idle_evolves. left. exact Hs.
  - rewrite loop_connecting by exact Hs. eexists. split; [reflexivity|].
    apply evolves_refl.
  - destruct (is_WL_CONNECTED (adapter r)) eqn:Ha.
    + rewrite loop_still_connected by assumption. eexists. split; [reflexivity|].
      apply evolves_read.
    + rewrite loop_link_lost by assumption.
      match goal with
      | |- context [loop adapter (mkMachine ?m' ?w')] =>
          destruct (loop_idle_evolves m' w') as (st' & E & Hev); [left; reflexivity|]
      end.
      rewrite E. exists st'. split; [reflexivity|].
      eapply evolves_trans; [|exact Hev].
      eapply evolves_trans; [apply evolves_read|].
      rewrite <- (notify_change_diff m DISCONNECTED c) by congruence.
      apply evolves_updateState. congruence.
  - apply loop_idle_evolves. right. exact Hs.
Qed.

Lemma do_op_evolves (o : Op) (st : Machine) :
  exists st', do_op adapter o st = Some (tt, st') /\ evolves st st'.
Proof.
  destruct o as [ssid password| | | | |ms]; cbn [do_op].
  - destruct st as [m w].
    destruct (begin_evolves ssid password m w) as (b & st' & E & Hev).
    unfold bind. rewrite E. exists st'. split; [reflexivity | exact Hev].
  - apply loop_evolves.
  - destruct st as [m [c r tr]]. unfold isConnected, bind, get_this, WiFi_status. cbn.
    destruct (WiFiState_eqb (_state m) CONNECTED); cbn; eexists;
      (split; [reflexivity|]); [apply evolves_read | apply evolves_refl].
  - destruct st as [m [c r tr]]. unfold disconnect, bind, emit, modify_world, world_emit.
    cbn. rewrite updateState_run. eexists. split; [reflexivity|].
    eapply evolves_trans; [|apply evolves_updateState; congruence].
    split; [reflexivity|]. split; [tauto|].
    eexists. cbn. split; [reflexivity|]. intros _. reflexivity.
  - destruct st as [m w]. unfold reconnect, bind, get_this, modify_this. cbn.
    destruct (_ssid m) as [ssid|] eqn:Hssid.
    + cbn.
      match goal with
      | |- context [begin adapter ?a ?b (mkMachine ?m' ?w')] =>
          destruct (begin_evolves a b m' w') as (b' & st' & E & Hev)
      end.
      rewrite E. exists st'. split; [reflexivity|].
      eapply evolves_view; [| |exact Hev]; reflexivity.
    + eexists. split; [reflexivity | apply evolves_refl].
  - destruct st as [m [c r tr]]. unfold delay, modify_world. cbn.
    eexists. split; [reflexivity|]. split; [reflexivity|]. split; [tauto|].
    exists []. cbn. rewrite app_nil_r. split; [reflexivity|]. intros _. reflexivity.
Qed.

Lemma run_evolves (ops : list Op) :
  forall st, exists st', run adapter ops st = Some (tt, st') /\ evolves st st'.
Proof.
  induction ops as [|o ops IH]; intros st; cbn [run].
  - exists st. split; [reflexivity | apply evolves_refl].
  - destruct (do_op_evolves o st) as (st1 & E1 & H1).
    destruct (IH st1) as (st2 & E2 & H2).
    exists st2. unfold bind. rewrite E1. split; [exact E2|].
    eapply evolves_trans; eassumption.
Qed.

(** *** Pacing of the connect attempts *)

Lemma begin_times_notify (cb : option nat) (s : WiFiState) (t : Z) :
  begin_times (notify cb s t) = [].
Proof. destruct cb; reflexivity. Qed.

Lemma begin_times_notify_change (m : WiFiManager) (s : WiFiState) (t : Z) :
  begin_times (notify_change m s t) = [].
Proof.
  unfold notify_change. destruct (WiFiState_eqb (_state m) s);
    [reflexivity | apply begin_times_notify].
Qed.

Lemma begin_attempt (ssid password : option string) (m : WiFiManager) (w : World) :
  exists b st',
    begin adapter ssid password (mkMachine m w) = Some (b, st') /\
    w_clock w <= w_clock (world st') /\
    _lastConnectAttempt (this st') = _lastConnectAttempt m /\
    exists evs, w_trace (world st') = w_trace w ++ evs /\
                begin_times evs = [w_clock w].
Proof.
  destruct w as [c r tr].
  destruct (begin_cases ssid password m c r tr)
    as [(k & _ & _ & _ & E) | [_ E]]; rewrite E; eexists; eexists;
    (split; [reflexivity|]); cbn; (split; [lia|]); (split; [reflexivity|]);
    eexists; (split; [reflexivity|]);
    rewrite begin_times_app, begin_times_notify_change; cbn;
    rewrite begin_times_notify; reflexivity.
Qed.

Lemma paced_quiet (m m' : WiFiManager) (c c' : Z) (r r' : nat)
      (tr evs : list (Z * Event)) :
  c <= c' -> begin_times evs = [] ->
  _lastConnectAttempt m' = _lastConnectAttempt m ->
  paced (mkMachine m (mkWorld c r tr)) (mkMachine m' (mkWorld c' r' (tr ++ evs))).
Proof.
  intros Hc Hb Hl. split; [exact Hc|]. exists evs. cbn.
  split; [reflexivity|]. left. split; [exact Hb | left; exact Hl].
Qed.

Lemma loop_idle_paced (m : WiFiManager) (w : World) :
  _state m = DISCONNECTED \/ _state m = ERROR ->
  exists st', loop adapter (mkMachine m w) = Some (tt, st') /\
              paced (mkMachine m w) st'.
Proof.
  intros Hs.
  destruct (Z_lt_le_dec RECONNECT_DELAY_MS
              (u32 (world_millis w - _lastConnectAttempt m))) as [Hd | Hd].
  - destruct (_ssid m) as [ssid|] eqn:Hssid.
    + rewrite loop_retry; [|exact Hs|exact Hd|congruence].
      match goal with
      | |- context [begin adapter ?a ?b (mkMachine ?m' ?w')] =>
          destruct (begin_attempt a b m' w') as (b' & st' & E & Hc & Hl & evs & Ht & Hb)
      end.
      rewrite E. exists st'. split; [reflexivity|].
      split; [exact Hc|]. exists evs. cbn. split; [exact Ht|].
      right. split; [exact Hb|]. split; [exact Hd | exact Hl].
    + rewrite loop_no_credentials by assumption. eexists. split; [reflexivity|].
      split; [cbn; lia|]. exists []. cbn. rewrite app_nil_r.
      split; [reflexivity|]. left. split; [reflexivity | right; reflexivity].
  - rewrite loop_backoff by assumption. eexists. split; [reflexivity|].
    split; [lia|]. exists []. rewrite app_nil_r.
    split; [reflexivity|]. left. split; [reflexivity | left; reflexivity].
Qed.

Lemma loop_paced (st : Machine) :
  exists st', loop adapter st = Some (tt, st') /\ paced st st'.
Proof.
  destruct st as [m [c r tr]].
  destruct (_state m) eqn:Hs.
  - apply loop_idle_paced. left. exact Hs.
  - rewrite loop_connecting by exact Hs. eexists. split; [reflexivity|].
    rewrite <- (app_nil_r tr) at 2. apply paced_quiet; [lia|reflexivity|reflexivity].
  - destruct (is_WL_CONNECTED (adapter r)) eqn:Ha.
    + rewrite loop_still_connected by assumption. eexists. split; [reflexivity|].
      rewrite <- (app_nil_r tr) at 2. apply paced_quiet; [lia|reflexivity|reflexivity].
    + rewrite loop_link_lost by assumption.
      match goal with
      | |- context [loop adapter (mkMachine ?m' ?w')] =>
          destruct (loop_idle_paced m' w') as (st' & E & Hc & evs & Ht & Hev);
            [left; reflexivity|]
      end.
      rewrite E. exists st'. split; [reflexivity|]. cbn in Hc, Ht, Hev.
      split; [exact Hc|].
      exists (notify (_stateCallback m) DISCONNECTED c ++ evs). cbn.
      split; [rewrite Ht, app_assoc; reflexivity|].
      rewrite begin_times_nil_app by apply begin_times_notify.
      exact Hev.
  - apply loop_idle_paced. right. exact Hs.
Qed.

Lemma do_op_paced (o : Op) (st : Machine) :
  is_poll o = true ->
  exists st', do_op adapter o st = Some (tt, st') /\ paced st st'.
Proof.
  destruct o as [ssid password| | | | |ms]; cbn [do_op is_poll]; intros Hp;
    try discriminate.
  - apply loop_paced.
  - destruct st as [m [c r tr]]. unfold isConnected, bind, get_this, WiFi_status. cbn.
    destruct (WiFiState_eqb (_state m) CONNECTED); cbn; eexists;
      (split; [reflexivity|]); rewrite <- (app_nil_r tr) at 2;
      apply paced_quiet; try reflexivity; lia.
  - destruct st as [m [c r tr]]. unfold disconnect, bind, emit, modify_world, world_emit.
    cbn. rewrite updateState_run. eexists. split; [reflexivity|].
    rewrite <- app_assoc. apply paced_quiet; [lia| |reflexivity].
    cbn. apply begin_times_notify_change.
  - destruct st as [m [c r tr]]. unfold delay, modify_world, world_delay. cbn.
    eexists. split; [reflexivity|].
    rewrite <- (app_nil_r tr) at 2. apply paced_quiet; [|reflexivity|reflexivity].
    apply Z.leb_le in Hp. lia.
Qed.

Lemma run_paced (ops : list Op) :
  forallb is_poll ops = true ->
  forall (st : Machine) (bt : list Z),
    spaced RECONNECT_DELAY_MS bt ->
    (bt = [] \/
     exists t', _lastConnectAttempt (this st) = u32 t' /\
                t' <= w_clock (world st) /\
                Forall (fun t => t <= t') bt) ->
    exists st' evs,
      run adapter ops st = Some (tt, st') /\
      w_trace (world st') = w_trace (world st) ++ evs /\
      spaced RECONNECT_DELAY_MS (bt ++ begin_times evs).
Proof.
  induction ops as [|o ops IH]; intros Hp st bt Hsp Hbt.
  - exists st, []. cbn. rewrite !app_nil_r. split; [reflexivity|].
    split; [reflexivity | exact Hsp].
  - cbn in Hp. apply andb_prop in Hp. destruct Hp as [Ho Hp].
    destruct (do_op_paced o st Ho) as (st1 & E1 & Hc & evs1 & Ht1 & Hcase).
    cbn [run]. unfold bind. rewrite E1.
    destruct Hcase as [[Hb Hl] | (Hb & Hd & Hl)].
    + destruct (IH Hp st1 bt Hsp) as (st2 & evs2 & E2 & Ht2 & Hsp2).
      { destruct Hbt as [Hbt | (t' & Ht' & Hle & Hall)]; [left; exact Hbt|].
        right. destruct Hl as [Hl | Hl].
        - exists t'. split; [congruence|]. split; [lia | exact Hall].
        - exists (w_clock (world st)). split; [exact Hl|]. split; [exact Hc|].
          eapply Forall_impl; [|exact Hall]. cbn. intros t Ht. lia. }
      exists st2, (evs1 ++ evs2). split; [exact E2|].
      split; [rewrite Ht2, Ht1, app_assoc; reflexivity|].
      rewrite begin_times_nil_app by exact Hb. exact Hsp2.
    + assert (Hnew : spaced RECONNECT_DELAY_MS (bt ++ [w_clock (world st)])).
      { apply spaced_snoc; [exact Hsp|].
        destruct Hbt as [-> | (t' & Ht' & Hle & Hall)]; [constructor|].
        eapply Forall_impl; [|exact Hall]. cbn. intros t Ht.
        rewrite Ht' in Hd. unfold world_millis in Hd. rewrite u32_sub in Hd.
        pose proof (u32_le (w_clock (world st) - t')) as Hu. lia. }
      destruct (IH Hp st1 (bt ++ [w_clock (world st)]) Hnew) as (st2 & evs2 & E2 & Ht2 & Hsp2).
      { right. exists (w_clock (world st)). split; [exact Hl|]. split; [exact Hc|].
        apply Forall_app. split; [|constructor; [lia | constructor]].
        destruct Hbt as [-> | (t' & Ht' & Hle & Hall)]; [constructor|].
        eapply Forall_impl; [|exact Hall]. cbn. intros t Ht. lia. }
      exists st2, (evs1 ++ evs2). split; [exact E2|].
      split; [rewrite Ht2, Ht1, app_assoc; reflexivity|].
      rewrite begin_times_app, Hb, app_assoc. exact Hsp2.
Qed.

(** Between two calls the manager is never in [CONNECTING]: the state is
    entered and left inside [begin]. *)
Lemma run_settled (ops : list Op) (w : World) :
  exists st', run adapter ops (mkMachine WiFiManager_new w) = Some (tt, st') /\
              _state (this st') <> CONNECTING.
Proof.
  destruct (run_evolves ops (mkMachine WiFiManager_new w)) as (st' & E & _ & Hs & _).
  exists st'. split; [exact E|]. apply Hs. cbn. congruence.
Qed.

(** *** State changes and notifications *)

(** C1: for every sequence of operations and every sequence of adapter
    status values, the state changes only through [updateState], which
    leaves everything as it is when the new state is the one already held
    and otherwise stores the new state and invokes the registered callback
    once; over a whole run the callback invocations are exactly the states
    entered, each different from the state it replaces. *)
Theorem C1_handler_once_per_transition
        (ops : list Op) (m : WiFiManager) (w : World) (h : nat) (s : WiFiState) :
  _stateCallback m = Some h ->
  updateState s (mkMachine m w) =
    Some (tt, if WiFiState_eqb (_state m) s
              then mkMachine m w
              else mkMachine (set_state s m) (world_emit (EvCallback h s) w))
  /\
  exists st' evs,
    run adapter ops (mkMachine m w) = Some (tt, st') /\
    w_trace (world st') = w_trace w ++ evs /\
    transitions (_state m) (callback_states evs) (_state (this st')).
Proof.
  intros Hcb. split.
  - destruct w as [c r tr]. rewrite updateState_run. unfold notify_change.
    destruct (WiFiState_eqb (_state m) s) eqn:E.
    + apply WiFiState_eqb_eq in E. subst s. rewrite app_nil_r.
      destruct m; reflexivity.
    + rewrite Hcb. reflexivity.
  - destruct (run_evolves ops (mkMachine m w)) as (st' & E & _ & _ & evs & Ht & Hc).
    exists st', evs. split; [exact E|]. split; [exact Ht|].
    apply Hc. cbn. congruence.
Qed.

(** C2 (amended): [begin] first enters [CONNECTING].  The loop reads the
    adapter status at 0, 500, 1000, ... ms after the start and tests the
    timeout, strictly, only after a read that found the adapter
    unconnected, so the last read is the one at [WIFI_TIMEOUT_MS + 500],
    after the timeout has elapsed.  If one of these reads, the last one
    included, finds the adapter connected, [begin] returns [true] in state
    [CONNECTED] with the attempt counter 0; if none does, [begin] returns
    [false] in state [ERROR] at [WIFI_TIMEOUT_MS + 500], and the callback
    was invoked with [CONNECTING] and then [ERROR]. *)
Theorem C2_begin_outcomes
        (ssid password : option string) (m : WiFiManager) (w : World) (h : nat) :
  _stateCallback m = Some h ->
  _state m <> CONNECTING ->
  (forall k : nat,
      500 * Z.of_nat k <= WIFI_TIMEOUT_MS + 500 ->
      is_WL_CONNECTED (adapter (w_reads w + k)) = true ->
      exists st' evs,
        begin adapter ssid password (mkMachine m w) = Some (true, st') /\
        _state (this st') = CONNECTED /\
        _reconnectAttempts (this st') = 0 /\
        w_trace (world st') = w_trace w ++ evs /\
        callback_states evs = [CONNECTING; CONNECTED])
  /\
  ((forall k : nat,
       500 * Z.of_nat k <= WIFI_TIMEOUT_MS + 500 ->
       is_WL_CONNECTED (adapter (w_reads w + k)) = false) ->
   exists st' evs,
     begin adapter ssid password (mkMachine m w) = Some (false, st') /\
     _state (this st') = ERROR /\
     _reconnectAttempts (this st') = _reconnectAttempts m /\
     w_clock (world st') = w_clock w + WIFI_TIMEOUT_MS + 500 /\
     w_trace (world st') = w_trace w ++ evs /\
     callback_states evs = [CONNECTING; ERROR]).
Proof.
  intros Hcb Hs. destruct w as [c r tr]. cbn [w_reads w_trace w_clock].
  assert (Hnc : notify_change m CONNECTING c = [(c, EvCallback h CONNECTING)]).
  { rewrite notify_change_diff by exact Hs. rewrite Hcb. reflexivity. }
  split.
  - intros k Hk Hyes.
    destruct (begin_cases ssid password m c r tr)
      as [(k' & _ & _ & _ & E) | [Hno _]].
    + rewrite E. eexists. eexists. split; [reflexivity|]. cbn.
      split; [reflexivity|]. split; [reflexivity|]. split; [reflexivity|].
      rewrite Hnc, Hcb. reflexivity.
    + rewrite Hno in Hyes; [discriminate|]. unfold WIFI_TIMEOUT_MS in Hk. lia.
  - intros Hno.
    destruct (begin_cases ssid password m c r tr)
      as [(k' & Hk' & _ & Hyes & _) | [_ E]].
    + rewrite Hno in Hyes; [discriminate|]. unfold WIFI_TIMEOUT_MS. lia.
    + rewrite E. eexists. eexists. split; [reflexivity|]. cbn.
      split; [reflexivity|]. split; [reflexivity|].
      split; [unfold WIFI_TIMEOUT_MS; lia|]. split; [reflexivity|].
      rewrite Hnc, Hcb. reflexivity.
Qed.

(** C5 (amended): a poll in [CONNECTED] that finds the link lost enters
    [DISCONNECTED] and invokes the callback with [DISCONNECTED] once.  When
    the backoff since [_lastConnectAttempt] has not elapsed, or no
    credentials are stored, the poll ends there.  Otherwise the same poll
    goes on with a reconnect attempt and ends in [CONNECTED] or [ERROR],
    the callback having been invoked with [DISCONNECTED], [CONNECTING] and
    the final state.  A poll in [CONNECTED] that finds the adapter still
    connected changes nothing but the number of status reads. *)
Theorem C5_poll_detects_link_loss
        (m : WiFiManager) (c : Z) (r : nat) (tr : list (Z * Event)) (h : nat) :
  _stateCallback m = Some h ->
  _state m = CONNECTED ->
  (is_WL_CONNECTED (adapter r) = false ->
   u32 (u32 c - _lastConnectAttempt m) <= RECONNECT_DELAY_MS \/ _ssid m = None ->
   exists st',
     loop adapter (mkMachine m (mkWorld c r tr)) = Some (tt, st') /\
     _state (this st') = DISCONNECTED /\
     w_trace (world st') = tr ++ [(c, EvCallback h DISCONNECTED)])
  /\
  (is_WL_CONNECTED (adapter r) = false ->
   RECONNECT_DELAY_MS < u32 (u32 c - _lastConnectAttempt m) ->
   _ssid m <> None ->
   exists st' evs,
     loop adapter (mkMachine m (mkWorld c r tr)) = Some (tt, st') /\
     (_state (this st') = CONNECTED \/ _state (this st') = ERROR) /\
     w_trace (world st') = tr ++ (c, EvCallback h DISCONNECTED) :: evs /\
     callback_states evs = [CONNECTING; _state (this st')])
  /\
  (is_WL_CONNECTED (adapter r) = true ->
   loop adapter (mkMachine m (mkWorld c r tr)) =
   Some (tt, mkMachine m (mkWorld c (S r) tr))).
Proof.
  intros Hcb Hs. split; [|split].
  - intros Ha Hidle. rewrite loop_link_lost by assumption. rewrite Hcb. cbn [notify].
    destruct (Z_lt_le_dec RECONNECT_DELAY_MS (u32 (u32 c - _lastConnectAttempt m)))
      as [Hd | Hd].
    + destruct Hidle as [Hidle | Hn]; [lia|].
      rewrite loop_no_credentials; [|left; reflexivity|exact Hd|exact Hn].
      eexists. split; [reflexivity|]. split; reflexivity.
    + rewrite loop_backoff; [|left; reflexivity|exact Hd].
      eexists. split; [reflexivity|]. split; reflexivity.
  - intros Ha Hd Hn. rewrite loop_link_lost by assumption. rewrite Hcb. cbn [notify].
    rewrite loop_retry; [|left; reflexivity|exact Hd|exact Hn].
    match goal with
    | |- context [begin adapter ?a ?b (mkMachine ?m' (mkWorld ?c' ?r' ?tr'))] =>
        destruct (begin_cases a b m' c' r' tr') as [(k & _ & _ & _ & E) | [_ E]]
    end; rewrite E; eexists; eexists; (split; [reflexivity|]); cbn;
      (split; [auto|]); (split; [rewrite <- app_assoc; reflexivity|]);
      rewrite Hcb; reflexivity.
  - intros Ha. apply loop_still_connected; assumption.
Qed.

(** C6: a poll starts a connect attempt only when more than
    [RECONNECT_DELAY_MS] have passed since [_lastConnectAttempt], and then
    stores the time of the attempt in [_lastConnectAttempt]; so over every
    sequence of polls (with queries, disconnects and time passing in
    between) consecutive attempts are more than [RECONNECT_DELAY_MS] of
    clock time apart. *)
Theorem C6_reconnect_attempts_spaced (ops : list Op) (m : WiFiManager) (w : World) :
  forallb is_poll ops = true ->
  (exists st' evs,
     loop adapter (mkMachine m w) = Some (tt, st') /\
     w_trace (world st') = w_trace w ++ evs /\
     (begin_times evs = [] \/
      (begin_times evs = [w_clock w] /\
       RECONNECT_DELAY_MS < u32 (world_millis w - _lastConnectAttempt m) /\
       _lastConnectAttempt (this st') = world_millis w)))
  /\
  (exists st' evs,
     run adapter ops (mkMachine m w) = Some (tt, st') /\
     w_trace (world st') = w_trace w ++ evs /\
     spaced RECONNECT_DELAY_MS (begin_times evs)).
Proof.
  intros Hp. split.
  - destruct (loop_paced (mkMachine m w)) as (st' & E & _ & evs & Ht & Hcase).
    exists st', evs. split; [exact E|]. split; [exact Ht|].
    destruct Hcase as [[Hb _] | Hatt]; [left; exact Hb | right; exact Hatt].
  - destruct (run_paced ops Hp (mkMachine m w) [] I) as (st' & evs & E & Ht & Hsp).
    + left. reflexivity.
    + exists st', evs. split; [exact E|]. split; [exact Ht | exact Hsp].
Qed.

(** *** The attempt counter *)

Lemma loop_idle_counter (m : WiFiManager) (c : Z) (r : nat) (tr : list (Z * Event)) :
  - 2 ^ 31 <= _reconnectAttempts m < INT_MAX ->
  _state m = DISCONNECTED \/ _state m = ERROR ->
  exists st',
    loop adapter (mkMachine m (mkWorld c r tr)) = Some (tt, st') /\
    (_reconnectAttempts (this st') = _reconnectAttempts m /\ _state (this st') = _state m \/
     _state (this st') = ERROR /\
       _reconnectAttempts (this st') = _reconnectAttempts m + 1 \/
     _state (this st') = CONNECTED /\ _reconnectAttempts (this st') = 0) /\
    (RECONNECT_DELAY_MS < u32 (u32 c - _lastConnectAttempt m) ->
     _ssid m <> None ->
     ((exists k, (k <= 61)%nat /\ is_WL_CONNECTED (adapter (r + k)) = true) /\
      _state (this st') = CONNECTED /\ _reconnectAttempts (this st') = 0)
     \/
     ((forall k, (k <= 61)%nat -> is_WL_CONNECTED (adapter (r + k)) = false) /\
      _state (this st') = ERROR /\
      _reconnectAttempts (this st') = _reconnectAttempts m + 1)).
Proof.
  intros Hn Hs.
  destruct (Z_lt_le_dec RECONNECT_DELAY_MS (u32 (u32 c - _lastConnectAttempt m)))
    as [Hd | Hd].
  - destruct (_ssid m) as [ssid|] eqn:Hssid.
    + rewrite loop_retry; [|exact Hs|exact Hd|congruence].
      match goal with
      | |- context [begin adapter ?a ?b (mkMachine ?m' (mkWorld ?c' ?r' ?tr'))] =>
          destruct (begin_cases a b m' c' r' tr')
            as [(k & Hk & _ & Hyes & E) | [Hno E]]
      end; rewrite E; eexists; (split; [reflexivity|]); cbn.
      * split; [right; right; split; reflexivity|].
        intros _ _. left. split; [exists k; split; assumption|]. split; reflexivity.
      * rewrite wrap_int_small by (unfold INT_MAX in Hn; lia).
        split; [right; left; split; reflexivity|].
        intros _ _. right. split; [exact Hno|]. split; reflexivity.
    + rewrite loop_no_credentials; [|exact Hs|exact Hd|exact Hssid].
      eexists. split; [reflexivity|]. cbn.
      split; [left; split; reflexivity|]. intros _ Hne. congruence.
  - rewrite loop_backoff; [|exact Hs|exact Hd].
    eexists. split; [reflexivity|]. cbn.
    split; [left; split; reflexivity|]. intros Hd'. unfold world_millis in Hd. cbn in Hd. lia.
Qed.

(** C9: a reconnect attempt started by a poll in [DISCONNECTED] or [ERROR]
    (backoff elapsed, credentials stored) adds one to the attempt counter,
    and the counter is set back to 0 when, and only when, the connect
    succeeds: the poll ends either in [CONNECTED] with the counter 0, or in
    [ERROR] with the counter one more than before.  No poll changes the
    counter in any other way. *)
Theorem C9_reconnect_attempt_counter
        (m : WiFiManager) (c : Z) (r : nat) (tr : list (Z * Event)) :
  - 2 ^ 31 <= _reconnectAttempts m < INT_MAX ->
  exists st',
    loop adapter (mkMachine m (mkWorld c r tr)) = Some (tt, st') /\
    (_reconnectAttempts (this st') = _reconnectAttempts m \/
     _state (this st') = ERROR /\
       _reconnectAttempts (this st') = _reconnectAttempts m + 1 \/
     _state (this st') = CONNECTED /\ _reconnectAttempts (this st') = 0) /\
    (_state m = DISCONNECTED \/ _state m = ERROR ->
     RECONNECT_DELAY_MS < u32 (u32 c - _lastConnectAttempt m) ->
     _ssid m <> None ->
     ((exists k, (k <= 61)%nat /\ is_WL_CONNECTED (adapter (r + k)) = true) /\
      _state (this st') = CONNECTED /\ _reconnectAttempts (this st') = 0)
     \/
     ((forall k, (k <= 61)%nat -> is_WL_CONNECTED (adapter (r + k)) = false) /\
      _state (this st') = ERROR /\
      _reconnectAttempts (this st') = _reconnectAttempts m + 1)).
Proof.
  intros Hn. destruct (_state m) eqn:Hs.
  - destruct (loop_idle_counter m c r tr Hn) as (st' & E & H1 & H2); [left; exact Hs|].
    exists st'. split; [exact E|]. split; [tauto|]. intros _. exact H2.
  - rewrite loop_connecting by exact Hs. eexists. split; [reflexivity|]. cbn.
    split; [left; reflexivity|]. intros [H | H]; congruence.
  - destruct (is_WL_CONNECTED (adapter r)) eqn:Ha.
    + rewrite loop_still_connected by assumption. eexists. split; [reflexivity|]. cbn.
      split; [left; reflexivity|]. intros [H | H]; congruence.
    + rewrite loop_link_lost by assumption.
      match goal with
      | |- context [loop adapter (mkMachine ?m' (mkWorld ?c' ?r' ?tr'))] =>
          destruct (loop_idle_counter m' c' r' tr') as (st' & E & H1 & _);
            [exact Hn | left; reflexivity|]
      end.
      exists st'. split; [exact E|]. cbn in H1.
      split; [tauto|]. intros [H | H]; congruence.
  - destruct (loop_idle_counter m c r tr Hn) as (st' & E & H1 & H2); [right; exact Hs|].
    exists st'. split; [exact E|]. split; [tauto|]. intros _. exact H2.
Qed.

End Props.

Lemma C1_handler_once_per_transition_witness :
  let m := set_stateCallback (Some 7%nat) WiFiManager_new in
  let w := mkWorld 1000 0 [] in
  let ops := [OpBegin (Some "net"%string) (Some "key"%string);
              OpDelay 10; OpLoop; OpDisconnect; OpDelay 6000; OpLoop] in
  _stateCallback m = Some 7%nat /\
  (updateState CONNECTED (mkMachine m w) =
     Some (tt, if WiFiState_eqb (_state m) CONNECTED
               then mkMachine m w
               else mkMachine (set_state CONNECTED m)
                              (world_emit (EvCallback 7%nat CONNECTED) w))
   /\
   exists st' evs,
     run slow_adapter ops (mkMachine m w) = Some (tt, st') /\
     w_trace (world st') = w_trace w ++ evs /\
     transitions (_state m) (callback_states evs) (_state (this st'))).
Proof.
  cbv zeta. split; [reflexivity|].
  apply (C1_handler_once_per_transition slow_adapter). reflexivity.
Defined.

Lemma C2_begin_outcomes_witness :
  let m := set_stateCallback (Some 7%nat) WiFiManager_new in
  let w := mkWorld 1000 0 [] in
  (exists st' evs,
     begin slow_adapter (Some "net"%string) (Some "key"%string) (mkMachine m w)
       = Some (true, st') /\
     _state (this st') = CONNECTED /\
     _reconnectAttempts (this st') = 0 /\
     w_trace (world st') = w_trace w ++ evs /\
     callback_states evs = [CONNECTING; CONNECTED])
  /\
  (exists st' evs,
     begin dead_adapter (Some "net"%string) (Some "key"%string) (mkMachine m w)
       = Some (false, st') /\
     _state (this st') = ERROR /\
     _reconnectAttempts (this st') = _reconnectAttempts m /\
     w_clock (world st') = w_clock w + WIFI_TIMEOUT_MS + 500 /\
     w_trace (world st') = w_trace w ++ evs /\
     callback_states evs = [CONNECTING; ERROR]).
Proof.
  cbv zeta. split.
  - apply (proj1 (C2_begin_outcomes slow_adapter (Some "net"%string) (Some "key"%string)
                    (set_stateCallback (Some 7%nat) WiFiManager_new)
                    (mkWorld 1000 0 []) 7%nat eq_refl
                    ltac:(discriminate)) 3%nat).
    + vm_compute. discriminate.
    + reflexivity.
  - apply (proj2 (C2_begin_outcomes dead_adapter (Some "net"%string) (Some "key"%string)
                    (set_stateCallback (Some 7%nat) WiFiManager_new)
                    (mkWorld 1000 0 []) 7%nat eq_refl
                    ltac:(discriminate))).
    intros k _. reflexivity.
Defined.

(** C2 as stated fails: the adapter is unconnected at every status read
    up to [WIFI_TIMEOUT_MS] after the start, so the timeout elapses without
    the adapter connecting; the read 500 ms later finds it connected and
    [begin] returns [true] in [CONNECTED], [WIFI_TIMEOUT_MS + 500] ms after
    the start, the callback having been invoked with [CONNECTING] and
    [CONNECTED]. *)
Lemma C2_begin_outcomes_counterexample :
  let m := set_stateCallback (Some 7%nat) WiFiManager_new in
  let w := mkWorld 1000 0 [] in
  (forall k : nat,
      500 * Z.of_nat k <= WIFI_TIMEOUT_MS ->
      is_WL_CONNECTED (late_adapter (w_reads w + k)) = false) /\
  exists st',
    begin late_adapter (Some "net"%string) (Some "key"%string) (mkMachine m w)
      = Some (true, st') /\
    _state (this st') = CONNECTED /\
    _reconnectAttempts (this st') = 0 /\
    w_clock (world st') = w_clock w + WIFI_TIMEOUT_MS + 500 /\
    callback_states (w_trace (world st')) = [CONNECTING; CONNECTED].
Proof.
  cbv zeta. split.
  - intros k Hk. cbn [w_reads Nat.add]. unfold late_adapter.
    destruct (Nat.ltb_spec k 61) as [_ | Hge]; [reflexivity|].
    unfold WIFI_TIMEOUT_MS in Hk. lia.
  - eexists. split; [vm_compute; reflexivity|]. repeat split.
Qed.

(** The state [run] reaches when the link comes up at once and 6 s pass. *)
Example link_up_then_idle :
  option_map (fun r => (this (snd r), w_clock (world (snd r)), w_reads (world (snd r))))
    (run flaky_adapter [OpBegin (Some "net"%string) (Some "key"%string); OpDelay 6000]
         (mkMachine (set_stateCallback (Some 7%nat) WiFiManager_new) (mkWorld 1000 0 [])))
  = Some (mkWiFiManager (Some "net"%string) (Some "key"%string) CONNECTED (Some 7%nat) 0 0,
          7000, 1%nat).
Proof. vm_compute. reflexivity. Qed.

(** C5 as stated fails: the manager connected at boot, the link is lost,
    and the poll at 7000 ms finds the backoff (counted from
    [_lastConnectAttempt = 0]) elapsed; the same poll goes through
    [DISCONNECTED] and [CONNECTING] and returns in [ERROR] after three
    callback invocations. *)
Lemma C5_poll_detects_link_loss_counterexample :
  let m := mkWiFiManager (Some "net"%string) (Some "key"%string) CONNECTED (Some 7%nat) 0 0 in
  let w := mkWorld 7000 1 [] in
  _state m = CONNECTED /\
  is_WL_CONNECTED (flaky_adapter (w_reads w)) = false /\
  exists st',
    loop flaky_adapter (mkMachine m w) = Some (tt, st') /\
    _state (this st') = ERROR /\
    callback_states (w_trace (world st')) = [DISCONNECTED; CONNECTING; ERROR].
Proof.
  cbv zeta. split; [reflexivity|]. split; [reflexivity|].
  eexists. split; [vm_compute; reflexivity|]. split; reflexivity.
Qed.

Lemma C5_poll_detects_link_loss_witness :
  let m := mkWiFiManager (Some "net"%string) (Some "key"%string) CONNECTED (Some 7%nat) 0 0 in
  (exists st',
     loop flaky_adapter (mkMachine m (mkWorld 3000 1 [])) = Some (tt, st') /\
     _state (this st') = DISCONNECTED /\
     w_trace (world st') = [] ++ [(3000, EvCallback 7%nat DISCONNECTED)])
  /\
  (exists st' evs,
     loop flaky_adapter (mkMachine m (mkWorld 7000 1 [])) = Some (tt, st') /\
     (_state (this st') = CONNECTED \/ _state (this st') = ERROR) /\
     w_trace (world st') = [] ++ (7000, EvCallback 7%nat DISCONNECTED) :: evs /\
     callback_states evs = [CONNECTING; _state (this st')])
  /\
  loop flaky_adapter (mkMachine m (mkWorld 3000 0 [])) =
  Some (tt, mkMachine m (mkWorld 3000 1 [])).
Proof.
  cbv zeta. split; [|split].
  - apply (proj1 (C5_poll_detects_link_loss flaky_adapter
                    (mkWiFiManager (Some "net"%string) (Some "key"%string)
                                   CONNECTED (Some 7%nat) 0 0)
                    3000 1%nat [] 7%nat eq_refl eq_refl)).
    + reflexivity.
    + left. vm_compute. discriminate.
  - apply (proj1 (proj2 (C5_poll_detects_link_loss flaky_adapter
                    (mkWiFiManager (Some "net"%string) (Some "key"%string)
                                   CONNECTED (Some 7%nat) 0 0)
                    7000 1%nat [] 7%nat eq_refl eq_refl))).
    + reflexivity.
    + vm_compute. reflexivity.
    + discriminate.
  - apply (proj2 (proj2 (C5_poll_detects_link_loss flaky_adapter
                    (mkWiFiManager (Some "net"%string) (Some "key"%string)
                                   CONNECTED (Some 7%nat) 0 0)
                    3000 0%nat [] 7%nat eq_refl eq_refl))).
    reflexivity.
Defined.

Lemma C6_reconnect_attempts_spaced_witness :
  let m := mkWiFiManager (Some "net"%string) (Some "key"%string) DISCONNECTED (Some 7%nat) 0 0 in
  let w := mkWorld 6000 0 [] in
  let ops := [OpLoop; OpDelay 10; OpLoop; OpDelay 10; OpLoop; OpIsConnected] in
  forallb is_poll ops = true /\
  ((exists st' evs,
      loop dead_adapter (mkMachine m w) = Some (tt, st') /\
      w_trace (world st') = w_trace w ++ evs /\
      (begin_times evs = [] \/
       (begin_times evs = [w_clock w] /\
        RECONNECT_DELAY_MS < u32 (world_millis w - _lastConnectAttempt m) /\
        _lastConnectAttempt (this st') = world_millis w)))
   /\
   (exists st' evs,
      run dead_adapter ops (mkMachine m w) = Some (tt, st') /\
      w_trace (world st') = w_trace w ++ evs /\
      spaced RECONNECT_DELAY_MS (begin_times evs))).
Proof.
  cbv zeta. split; [reflexivity|].
  apply (C6_reconnect_attempts_spaced dead_adapter). reflexivity.
Defined.

(** The attempts of the run above start at 6000, 36510 and 67020 ms. *)
Example attempts_of_failing_polls :
  option_map (fun r => begin_times (w_trace (world (snd r))))
    (run dead_adapter [OpLoop; OpDelay 10; OpLoop; OpDelay 10; OpLoop; OpIsConnected]
         (mkMachine (mkWiFiManager (Some "net"%string) (Some "key"%string)
                                   DISCONNECTED (Some 7%nat) 0 0)
                    (mkWorld 6000 0 [])))
  = Some [6000; 36510; 67020].
Proof. vm_compute. reflexivity. Qed.

Lemma C9_reconnect_attempt_counter_witness :
  let m := mkWiFiManager (Some "net"%string) (Some "key"%string) ERROR (Some 7%nat) 0 4 in
  - 2 ^ 31 <= _reconnectAttempts m < INT_MAX /\
  exists st',
    loop dead_adapter (mkMachine m (mkWorld 6000 0 [])) = Some (tt, st') /\
    (_reconnectAttempts (this st') = _reconnectAttempts m \/
     _state (this st') = ERROR /\
       _reconnectAttempts (this st') = _reconnectAttempts m + 1 \/
     _state (this st') = CONNECTED /\ _reconnectAttempts (this st') = 0) /\
    (_state m = DISCONNECTED \/ _state m = ERROR ->
     RECONNECT_DELAY_MS < u32 (u32 6000 - _lastConnectAttempt m) ->
     _ssid m <> None ->
     ((exists k, (k <= 61)%nat /\ is_WL_CONNECTED (dead_adapter (0 + k)) = true) /\
      _state (this st') = CONNECTED /\ _reconnectAttempts (this st') = 0)
     \/
     ((forall k, (k <= 61)%nat -> is_WL_CONNECTED (dead_adapter (0 + k)) = false) /\
      _state (this st') = ERROR /\
      _reconnectAttempts (this st') = _reconnectAttempts m + 1)).
Proof.
  cbv zeta. split; [unfold INT_MAX; cbn; lia|].
  apply (C9_reconnect_attempt_counter dead_adapter).
  unfold INT_MAX; cbn; lia.
Defined.

(** Failed attempts add up, and a successful one sets the counter back. *)
Example counter_over_three_attempts :
  option_map (fun r => _reconnectAttempts (this (snd r)))
    (run dead_adapter [OpLoop; OpLoop; OpLoop]
         (mkMachine (mkWiFiManager (Some "net"%string) (Some "key"%string)
                                   DISCONNECTED None 0 0)
                    (mkWorld 6000 0 [])))
  = Some 3 /\
  option_map (fun r => _reconnectAttempts (this (snd r)))
    (run slow_adapter [OpLoop]
         (mkMachine (mkWiFiManager (Some "net"%string) (Some "key"%string)
                                   ERROR None 0 3)
                    (mkWorld 6000 0 [])))
  = Some 0.
Proof. split; vm_compute; reflexivity. Qed.

(** C10: [isConnected] returns [true] exactly when the stored state is
    [CONNECTED] and the adapter reports connected at that moment; so it
    implies [getState () = CONNECTED], while [getState] can still return
    [CONNECTED] when [isConnected] already returns [false]. *)
Theorem C10_isConnected_iff :
  (forall (adapter : nat -> wl_status_t) (m : WiFiManager) (w : World),
      exists b w',
        isConnected adapter (mkMachine m w) = Some (b, mkMachine m w') /\
        (b = true <->
         _state m = CONNECTED /\ is_WL_CONNECTED (adapter (w_reads w)) = true) /\
        (b = true -> getState (mkMachine m w) = Some (CONNECTED, mkMachine m w)))
  /\
  (exists (adapter : nat -> wl_status_t) (m : WiFiManager) (w w' : World),
      isConnected adapter (mkMachine m w) = Some (false, mkMachine m w') /\
      getState (mkMachine m w') = Some (CONNECTED, mkMachine m w')).
Proof.
  split.
  - intros adapter m w. unfold isConnected, getState, bind, get_this, WiFi_status, ret.
    cbn. destruct (WiFiState_eqb (_state m) CONNECTED) eqn:E.
    + apply WiFiState_eqb_eq in E. eexists. eexists. split; [reflexivity|].
      split; [|intros _; rewrite E; reflexivity].
      split; [intros H; split; assumption | intros [_ H]; exact H].
    + apply WiFiState_eqb_neq in E. exists false, w. split; [reflexivity|].
      split; [|discriminate].
      split; [discriminate | intros [H _]; contradiction].
  - exists flaky_adapter,
      (mkWiFiManager (Some "net"%string) (Some "key"%string) CONNECTED None 0 0),
      (mkWorld 2000 1 []), (mkWorld 2000 2 []).
    split; reflexivity.
Qed.

End WiFiProps.

(* ================================================================= *)
(** ** LEDIndicator *)

Module UtilsProps.
Import Utils.

Lemma write_times_app (a b : list (Z * Event)) :
  write_times (a ++ b) = write_times a ++ write_times b.
Proof.
  induction a as [|[t e] a IH]; simpl; [reflexivity|].
  destruct e; simpl; rewrite IH; reflexivity.
Qed.

(** *** The timed patterns *)

Lemma toggle_run (l : LEDIndicator) (w : World) :
  toggle l w =
  (set_ledState (negb (_ledState l)) l,
   world_emit (EvDigitalWrite (_pin l)
                 (if _activeLow l then negb (negb (_ledState l)) else negb (_ledState l))) w).
Proof. reflexivity. Qed.

Lemma blink_run (period now : Z) (l : LEDIndicator) (w : World) :
  blink period now l w =
  if u32 (now - _lastUpdate l) >? period
  then (mkLEDIndicator (_pin l) (_activeLow l) (_pattern l)
                       (negb (_ledState l)) now (_blinkPhase l),
        world_emit (EvDigitalWrite (_pin l)
                      (if _activeLow l then negb (negb (_ledState l))
                       else negb (_ledState l))) w)
  else (l, w).
Proof.
  unfold blink. destruct (u32 (now - _lastUpdate l) >? period); reflexivity.
Qed.

Lemma loop_double_blink (l : LEDIndicator) (w : World) :
  _pattern l = DOUBLE_BLINK ->
  loop l w =
  if u32 (world_millis w - _lastUpdate l) >? (if _blinkPhase l <? 4 then 100 else 500)
  then (mkLEDIndicator (_pin l) (_activeLow l) DOUBLE_BLINK
                       (negb (_ledState l)) (world_millis w)
                       (Z.rem (wrap_int (_blinkPhase l + 1)) 6),
        world_emit (EvDigitalWrite (_pin l)
                      (if _activeLow l then negb (negb (_ledState l))
                       else negb (_ledState l))) w)
  else (l, w).
Proof.
  intros Hp. unfold loop. rewrite Hp.
  destruct (u32 (world_millis w - _lastUpdate l) >?
            (if _blinkPhase l <? 4 then 100 else 500)); [|reflexivity].
  rewrite toggle_run. unfold set_blinkPhase, set_ledState, set_lastUpdate. cbn.
  rewrite Hp. reflexivity.
Qed.

Lemma next_phase (p : Z) :
  0 <= p < 6 -> Z.rem (wrap_int (p + 1)) 6 = (p + 1) mod 6.
Proof.
  intros H. rewrite wrap_int_small by lia.
  apply Z.rem_mod_nonneg; lia.
Qed.

(** C7: [setPattern p] stores [p], sets [_lastUpdate] and [_blinkPhase] to
    0 and leaves the pin, the polarity, the logical level and the output
    line as they are. *)
Theorem C7_setPattern_frame (p : LEDPattern) (l : LEDIndicator) (w : World) :
  do_op (OpSetPattern p) l w = (setPattern p l, w) /\
  setPattern p l =
    mkLEDIndicator (_pin l) (_activeLow l) p (_ledState l) 0 0 /\
  _pattern (setPattern p l) = p /\
  _lastUpdate (setPattern p l) = 0 /\
  _blinkPhase (setPattern p l) = 0 /\
  _ledState (setPattern p l) = _ledState l /\
  _pin (setPattern p l) = _pin l /\
  _activeLow (setPattern p l) = _activeLow l.
Proof. repeat split. Qed.

Lemma world_millis_sub_0 (w : World) : u32 (world_millis w - 0) = world_millis w.
Proof.
  unfold world_millis. rewrite Z.sub_0_r. unfold u32. apply Z.mod_mod. lia.
Qed.

(** *** Polarity *)

Lemma driven_frame (l l' : LEDIndicator) (v : bool) :
  _pin l' = _pin l -> _activeLow l' = _activeLow l -> driven l' v = driven l v.
Proof. intros Hp Ha. unfold driven. rewrite Hp, Ha. reflexivity. Qed.

(** Each call writes the pin at most once, and what it writes is the
    polarity-corrected logical level it leaves behind. *)
Lemma do_op_single_write (o : Op) (l : LEDIndicator) (w : World) :
  _pin (fst (do_op o l w)) = _pin l /\
  _activeLow (fst (do_op o l w)) = _activeLow l /\
  exists evs,
    w_trace (snd (do_op o l w)) = w_trace w ++ evs /\
    (pin_writes evs = [] /\ _ledState (fst (do_op o l w)) = _ledState l \/
     pin_writes evs = [driven l (_ledState (fst (do_op o l w)))]).
Proof.
  destruct o as [| |p| | | |ms]; cbn [do_op].
  - cbn. split; [reflexivity|]. split; [reflexivity|].
    eexists. rewrite <- app_assoc. split; [reflexivity|]. right. reflexivity.
  - unfold loop. destruct (_pattern l) eqn:Hp;
      try (rewrite blink_run;
           match goal with |- context [?a >? ?b] => destruct (a >? b) end);
      try (cbn; split; [reflexivity|]; split; [reflexivity|];
           eexists; split; [reflexivity|]; right; reflexivity);
      try (cbn; split; [reflexivity|]; split; [reflexivity|];
           exists []; rewrite app_nil_r; split; [reflexivity|]; left;
           split; reflexivity).
    match goal with |- context [?a >? ?b] => destruct (a >? b) end.
    + rewrite toggle_run. cbn. split; [reflexivity|]. split; [reflexivity|].
      eexists. split; [reflexivity|]. right. reflexivity.
    + cbn. split; [reflexivity|]. split; [reflexivity|].
      exists []. rewrite app_nil_r. split; [reflexivity|]. left. split; reflexivity.
  - cbn. split; [reflexivity|]. split; [reflexivity|].
    exists []. rewrite app_nil_r. split; [reflexivity|]. left. split; reflexivity.
  - cbn. split; [reflexivity|]. split; [reflexivity|].
    eexists. split; [reflexivity|]. right. reflexivity.
  - cbn. split; [reflexivity|]. split; [reflexivity|].
    eexists. split; [reflexivity|]. right. reflexivity.
  - cbn. split; [reflexivity|]. split; [reflexivity|].
    eexists. split; [reflexivity|]. right. reflexivity.
  - cbn. split; [reflexivity|]. split; [reflexivity|].
    exists []. rewrite app_nil_r. split; [reflexivity|]. left. split; reflexivity.
Qed.

Lemma writes_corrected_refl (l : LEDIndicator) (w : World) : writes_corrected l w l w.
Proof.
  split; [reflexivity|]. split; [reflexivity|]. exists []. rewrite app_nil_r.
  split; [reflexivity|]. split; [constructor|]. left. split; reflexivity.
Qed.

Lemma writes_corrected_trans (l0 l1 l2 : LEDIndicator) (w0 w1 w2 : World) :
  writes_corrected l0 w0 l1 w1 -> writes_corrected l1 w1 l2 w2 ->
  writes_corrected l0 w0 l2 w2.
Proof.
  intros (Hp1 & Ha1 & e1 & Ht1 & Hf1 & Hw1) (Hp2 & Ha2 & e2 & Ht2 & Hf2 & Hw2).
  split; [congruence|]. split; [congruence|].
  exists (e1 ++ e2). split; [rewrite Ht2, Ht1, app_assoc; reflexivity|].
  rewrite pin_writes_app. split.
  - apply Forall_app. split; [exact Hf1|].
    eapply Forall_impl; [|exact Hf2]. cbn. intros pv H. congruence.
  - destruct Hw2 as [[Hn2 Hs2] | (pre2 & Hpre2)].
    + rewrite Hn2, app_nil_r. destruct Hw1 as [[Hn1 Hs1] | (pre1 & Hpre1)].
      * left. split; [exact Hn1 | congruence].
      * right. exists pre1. rewrite Hs2. exact Hpre1.
    + right. exists (pin_writes e1 ++ pre2). rewrite Hpre2, app_assoc.
      rewrite (driven_frame l0 l1) by assumption. reflexivity.
Qed.

Lemma do_op_writes_corrected (o : Op) (l : LEDIndicator) (w : World) :
  writes_corrected l w (fst (do_op o l w)) (snd (do_op o l w)).
Proof.
  destruct (do_op_single_write o l w) as (Hp & Ha & evs & Ht & Hw).
  split; [exact Hp|]. split; [exact Ha|]. exists evs. split; [exact Ht|].
  destruct Hw as [[Hn Hs] | H1].
  - split; [rewrite Hn; constructor|]. left. split; assumption.
  - split; [rewrite H1; constructor; [reflexivity | constructor]|].
    right. exists []. exact H1.
Qed.

Lemma run_writes_corrected (ops : list Op) :
  forall (l : LEDIndicator) (w : World),
    writes_corrected l w (fst (run ops l w)) (snd (run ops l w)).
Proof.
  induction ops as [|o ops IH]; intros l w; cbn [run].
  - apply writes_corrected_refl.
  - pose proof (do_op_writes_corrected o l w) as H1.
    destruct (do_op o l w) as [l1 w1]. cbn [fst snd] in H1.
    eapply writes_corrected_trans; [exact H1 | apply IH].
Qed.

(** C8: the pin is written by [applyState] only, which drives it to [!v]
    for the logical level [v] when [_activeLow] is set and to [v] otherwise.
    Every call ([begin], [loop], [on], [off], [toggle]) writes at most once,
    the corrected level it leaves as logical level; over every run the
    last level written is the corrected logical level.  With
    [_activeLow = true], logical on is written as low and logical off as
    high. *)
Theorem C8_polarity_on_every_write
        (ops : list Op) (o : Op) (l : LEDIndicator) (w : World) (v : bool)
        (pin : Z) (p : LEDPattern) (st : bool) (t ph : Z) :
  applyState v l w =
    (set_ledState v l,
     world_emit (EvDigitalWrite (_pin l) (if _activeLow l then negb v else v)) w)
  /\
  (exists evs,
     w_trace (snd (do_op o l w)) = w_trace w ++ evs /\
     (pin_writes evs = [] /\ _ledState (fst (do_op o l w)) = _ledState l \/
      pin_writes evs = [driven l (_ledState (fst (do_op o l w)))]))
  /\
  writes_corrected l w (fst (run ops l w)) (snd (run ops l w))
  /\
  on (mkLEDIndicator pin true p st t ph) w =
    (mkLEDIndicator pin true ON true t ph, world_emit (EvDigitalWrite pin false) w)
  /\
  off (mkLEDIndicator pin true p st t ph) w =
    (mkLEDIndicator pin true OFF false t ph, world_emit (EvDigitalWrite pin true) w)
  /\
  loop (mkLEDIndicator pin true ON st t ph) w =
    (mkLEDIndicator pin true ON true t ph, world_emit (EvDigitalWrite pin false) w)
  /\
  loop (mkLEDIndicator pin true OFF st t ph) w =
    (mkLEDIndicator pin true OFF false t ph, world_emit (EvDigitalWrite pin true) w)
  /\
  toggle (mkLEDIndicator pin true p st t ph) w =
    (mkLEDIndicator pin true p (negb st) t ph, world_emit (EvDigitalWrite pin st) w)
  /\
  begin (mkLEDIndicator pin true p st t ph) w =
    (mkLEDIndicator pin true p false t ph,
     world_emit (EvDigitalWrite pin true) (world_emit (EvPinMode pin) w)).
Proof.
  split; [reflexivity|].
  split; [destruct (do_op_single_write o l w) as (_ & _ & H); exact H|].
  split; [apply run_writes_corrected|].
  repeat split. rewrite toggle_run. cbn. rewrite negb_involutive. reflexivity.
Qed.

(** *** The DOUBLE_BLINK schedule *)

Lemma double_blink_threshold_phase (k : Z) :
  double_blink_threshold k = if k mod 6 <? 4 then 100 else 500.
Proof. reflexivity. Qed.

(** Polls after a toggle at [tprev], in phase [k mod 6]. *)
Lemma poll_at_spaced_from (times : list Z) :
  forall (l : LEDIndicator) (w : World) (tprev k : Z),
    _pattern l = DOUBLE_BLINK ->
    _blinkPhase l = k mod 6 ->
    _lastUpdate l = u32 tprev ->
    ascending tprev times ->
    exists evs,
      w_trace (snd (poll_at times l w)) = w_trace w ++ evs /\
      spaced_by double_blink_threshold k (tprev :: write_times evs).
Proof.
  induction times as [|t times IH]; intros l w tprev k Hp Hph Hl Hasc; cbn [poll_at].
  - exists []. rewrite app_nil_r. split; [reflexivity | exact I].
  - destruct Hasc as [Hle Hasc].
    rewrite (loop_double_blink l _ Hp). unfold world_millis. cbn [w_clock].
    rewrite Hl, u32_sub, Hph.
    assert (Hr : 0 <= k mod 6 < 6) by (apply Z.mod_pos_bound; lia).
    destruct (u32 (t - tprev) >? (if k mod 6 <? 4 then 100 else 500)) eqn:E.
    + rewrite Z.gtb_ltb in E. apply Z.ltb_lt in E.
      assert (Hnext : Z.rem (wrap_int (k mod 6 + 1)) 6 = (k + 1) mod 6).
      { rewrite next_phase by exact Hr. rewrite Zplus_mod_idemp_l. reflexivity. }
      match goal with
      | |- context [poll_at times ?l1 ?w1] =>
          destruct (IH l1 w1 t (k + 1) eq_refl Hnext eq_refl Hasc) as (evs & Ht & Hsp)
      end.
      exists ((t, EvDigitalWrite (_pin l)
                   (if _activeLow l then negb (negb (_ledState l))
                    else negb (_ledState l))) :: evs).
      split.
      * rewrite Ht. cbn. rewrite <- app_assoc. reflexivity.
      * cbn [write_times]. cbn [spaced_by]. split; [|exact Hsp].
        rewrite double_blink_threshold_phase.
        pose proof (u32_le (t - tprev)) as Hu. lia.
    + assert (Hasc' : ascending tprev times).
      { clear - Hle Hasc. destruct times as [|t' times]; [exact I|].
        cbn in *. split; [lia | tauto]. }
      match goal with
      | |- context [poll_at times ?l1 ?w1] =>
          destruct (IH l1 w1 tprev k Hp Hph Hl Hasc') as (evs & Ht & Hsp)
      end.
      exists evs. split; [exact Ht | exact Hsp].
Qed.

(** Polls before the first toggle. *)
Lemma poll_at_spaced (times : list Z) :
  forall (l : LEDIndicator) (w : World) (t0 : Z),
    _pattern l = DOUBLE_BLINK ->
    0 <= _blinkPhase l < 6 ->
    ascending t0 times ->
    exists evs,
      w_trace (snd (poll_at times l w)) = w_trace w ++ evs /\
      spaced_by double_blink_threshold (_blinkPhase l + 1) (write_times evs).
Proof.
  induction times as [|t times IH]; intros l w t0 Hp Hph Hasc; cbn [poll_at].
  - exists []. rewrite app_nil_r. split; [reflexivity | exact I].
  - destruct Hasc as [Hle Hasc].
    rewrite (loop_double_blink l _ Hp).
    match goal with |- context [?a >? ?b] => destruct (a >? b) end.
    + assert (Hnext : Z.rem (wrap_int (_blinkPhase l + 1)) 6 = (_blinkPhase l + 1) mod 6)
        by (apply next_phase; exact Hph).
      match goal with
      | |- context [poll_at times ?l1 ?w1] =>
          destruct (poll_at_spaced_from times l1 w1 t (_blinkPhase l + 1)
                      eq_refl Hnext eq_refl Hasc)
            as (evs & Ht & Hsp)
      end.
      eexists. split; [rewrite Ht; cbn; rewrite <- app_assoc; reflexivity|].
      cbn [write_times]. exact Hsp.
    + destruct (IH l (mkWorld t (w_reads w) (w_trace w)) t Hp Hph Hasc)
        as (evs & Ht & Hsp).
      exists evs. split; [exact Ht | exact Hsp].
Qed.

(** C3 (amended): [setPattern] sets [_lastUpdate] to 0, not to the time of
    the call.  The first poll after [setPattern (BLINK_FAST)] toggles the
    line exactly when the clock reads more than 200 ms, whatever time has
    passed since the call; the same holds for the other timed patterns
    with their first thresholds.  From then on a poll toggles when more
    than 200 ms have passed since [_lastUpdate], the time of the last
    toggle. *)
Theorem C3_setPattern_times_from_zero (l : LEDIndicator) (w : World) :
  loop (setPattern BLINK_FAST l) w =
    (if world_millis w >? 200
     then (mkLEDIndicator (_pin l) (_activeLow l) BLINK_FAST
                          (negb (_ledState l)) (world_millis w) 0,
           world_emit (EvDigitalWrite (_pin l)
                         (if _activeLow l then negb (negb (_ledState l))
                          else negb (_ledState l))) w)
     else (setPattern BLINK_FAST l, w))
  /\
  loop (set_pattern BLINK_FAST l) w =
    (if u32 (world_millis w - _lastUpdate l) >? 200
     then (mkLEDIndicator (_pin l) (_activeLow l) BLINK_FAST
                          (negb (_ledState l)) (world_millis w) (_blinkPhase l),
           world_emit (EvDigitalWrite (_pin l)
                         (if _activeLow l then negb (negb (_ledState l))
                          else negb (_ledState l))) w)
     else (set_pattern BLINK_FAST l, w))
  /\
  _ledState (fst (loop (setPattern BLINK_SLOW l) w)) =
    xorb (_ledState l) (world_millis w >? 1000)
  /\
  _ledState (fst (loop (setPattern PULSE l) w)) =
    xorb (_ledState l) (world_millis w >? 50)
  /\
  _ledState (fst (loop (setPattern DOUBLE_BLINK l) w)) =
    xorb (_ledState l) (world_millis w >? 100).
Proof.
  split; [|split; [|split; [|split]]].
  - unfold loop. cbn [_pattern setPattern set_blinkPhase set_lastUpdate set_pattern].
    rewrite blink_run. cbn [_lastUpdate]. rewrite world_millis_sub_0.
    destruct (world_millis w >? 200); reflexivity.
  - unfold loop. cbn [_pattern set_pattern]. rewrite blink_run.
    cbn. destruct (u32 (world_millis w - _lastUpdate l) >? 200); reflexivity.
  - unfold loop. cbn [_pattern setPattern set_blinkPhase set_lastUpdate set_pattern].
    rewrite blink_run. cbn [_lastUpdate]. rewrite world_millis_sub_0.
    destruct (world_millis w >? 1000); cbn; destruct (_ledState l); reflexivity.
  - unfold loop. cbn [_pattern setPattern set_blinkPhase set_lastUpdate set_pattern].
    rewrite blink_run. cbn [_lastUpdate]. rewrite world_millis_sub_0.
    destruct (world_millis w >? 50); cbn; destruct (_ledState l); reflexivity.
  - rewrite loop_double_blink by reflexivity.
    cbn [_lastUpdate _blinkPhase setPattern set_blinkPhase set_lastUpdate set_pattern].
    rewrite world_millis_sub_0. change (0 <? 4) with true. cbv iota.
    destruct (world_millis w >? 100); cbn; destruct (_ledState l); reflexivity.
Qed.

(** C3 as stated fails: [setPattern (BLINK_FAST)] is called 10 s after
    boot and the poll at the same instant toggles the line. *)
Lemma C3_setPattern_times_from_zero_counterexample :
  run [OpBegin; OpDelay 10000; OpSetPattern BLINK_FAST; OpLoop]
      (LEDIndicator_new LED_PIN LED_BUILTIN_ACTIVE_LOW) (mkWorld 0 0 []) =
  (mkLEDIndicator 2 false BLINK_FAST true 10000 0,
   mkWorld 10000 0 [(0, EvPinMode 2); (0, EvDigitalWrite 2 false);
                    (10000, EvDigitalWrite 2 true)]).
Proof. vm_compute. reflexivity. Qed.

(** C4 (amended): in [DOUBLE_BLINK] a poll toggles when more than 100 ms
    (phases 0 to 3) or more than 500 ms (phases 4 and 5) have passed since
    [_lastUpdate], and a toggle moves the phase on by one modulo 6.  So,
    counting from phase 0, four toggles come with the 100 ms threshold and
    then two with the 500 ms threshold, and the sequence repeats: whatever
    the polling times, the toggle made in phase k is more than the
    threshold of phase k after the toggle before it. *)
Theorem C4_double_blink_schedule
        (times : list Z) (t0 : Z) (l : LEDIndicator) (w : World) :
  _pattern l = DOUBLE_BLINK ->
  0 <= _blinkPhase l < 6 ->
  ascending t0 times ->
  loop l w =
    (if u32 (world_millis w - _lastUpdate l) >?
          (if _blinkPhase l <? 4 then 100 else 500)
     then (mkLEDIndicator (_pin l) (_activeLow l) DOUBLE_BLINK
                          (negb (_ledState l)) (world_millis w)
                          ((_blinkPhase l + 1) mod 6),
           world_emit (EvDigitalWrite (_pin l)
                         (if _activeLow l then negb (negb (_ledState l))
                          else negb (_ledState l))) w)
     else (l, w))
  /\
  (exists evs,
     w_trace (snd (poll_at times l w)) = w_trace w ++ evs /\
     spaced_by double_blink_threshold (_blinkPhase l + 1) (write_times evs))
  /\
  map double_blink_threshold [0; 1; 2; 3; 4; 5; 6] =
    [100; 100; 100; 100; 500; 500; 100].
Proof.
  intros Hp Hph Hasc. split; [|split].
  - rewrite (loop_double_blink l w Hp). rewrite next_phase by exact Hph. reflexivity.
  - apply (poll_at_spaced times l w t0); assumption.
  - reflexivity.
Qed.

Lemma C4_double_blink_schedule_witness :
  let l := setPattern DOUBLE_BLINK (LEDIndicator_new LED_PIN LED_BUILTIN_ACTIVE_LOW) in
  let w := mkWorld 0 0 [] in
  let times := [50; 101; 202; 303; 404; 505; 905; 1406; 1507] in
  loop l w =
    (if u32 (world_millis w - _lastUpdate l) >?
          (if _blinkPhase l <? 4 then 100 else 500)
     then (mkLEDIndicator (_pin l) (_activeLow l) DOUBLE_BLINK
                          (negb (_ledState l)) (world_millis w)
                          ((_blinkPhase l + 1) mod 6),
           world_emit (EvDigitalWrite (_pin l)
                         (if _activeLow l then negb (negb (_ledState l))
                          else negb (_ledState l))) w)
     else (l, w))
  /\
  (exists evs,
     w_trace (snd (poll_at times l w)) = w_trace w ++ evs /\
     spaced_by double_blink_threshold (_blinkPhase l + 1) (write_times evs))
  /\
  map double_blink_threshold [0; 1; 2; 3; 4; 5; 6] =
    [100; 100; 100; 100; 500; 500; 100].
Proof.
  cbv zeta.
  apply (C4_double_blink_schedule
           [50; 101; 202; 303; 404; 505; 905; 1406; 1507] 0
           (setPattern DOUBLE_BLINK (LEDIndicator_new LED_PIN LED_BUILTIN_ACTIVE_LOW))
           (mkWorld 0 0 [])).
  - reflexivity.
  - cbn. lia.
  - cbn. lia.
Defined.

(** C4 as stated fails: from phase 0 the third toggle comes 101 ms after
    the second, with the 100 ms threshold, not after 500 ms. *)
Lemma C4_double_blink_schedule_counterexample :
  let l := setPattern DOUBLE_BLINK (LEDIndicator_new LED_PIN LED_BUILTIN_ACTIVE_LOW) in
  _blinkPhase l = 0 /\
  write_times (w_trace (snd (poll_at [101; 202; 303] l (mkWorld 0 0 [])))) =
    [101; 202; 303] /\
  _blinkPhase (fst (poll_at [101; 202; 303] l (mkWorld 0 0 []))) = 3.
Proof. cbv zeta. split; [reflexivity|]. split; vm_compute; reflexivity. Qed.

(** Polled every millisecond for three seconds, [DOUBLE_BLINK] toggles at
    these times. *)
Example double_blink_dense_polling :
  write_times
    (w_trace (snd (poll_at (map Z.of_nat (seq 1 3000))
                           (setPattern DOUBLE_BLINK (LEDIndicator_new 2 false))
                           (mkWorld 0 0 [])))) =
  [101; 202; 303; 404; 905; 1406; 1507; 1608; 1709; 1810; 2311; 2812; 2913].
Proof. vm_compute. reflexivity. Qed.

End UtilsProps.

(* ================================================================= *)
(** ** WiFiManager: the calls as relations, and what follows *)

Module WiFiMore.
Import WiFi.

Section More.

Variable adapter : nat -> wl_status_t.

#[local] Arguments updateState : simpl never.
#[local] Arguments begin_wait : simpl never.
#[local] Arguments begin : simpl never.
#[local] Arguments reconnect : simpl never.
#[local] Arguments loop : simpl never.
#[local] Arguments isConnected : simpl never.
#[local] Arguments disconnect : simpl never.

(** *** The functions meet the relations *)

Lemma begin_begins (ssid password : option string) (m : WiFiManager) (w : World) :
  exists b st',
    begin adapter ssid password (mkMachine m w) = Some (b, st') /\
    begins adapter ssid password m w b st'.
Proof.
  destruct w as [c r tr].
  destruct (WiFiProps.begin_cases adapter ssid password m c r tr)
    as [(k & Hk & Hno & Hyes & E) | [Hno E]]; rewrite E; eexists; eexists;
    (split; [reflexivity|]).
  - apply (begins_connected adapter ssid password m (mkWorld c r tr) k); assumption.
  - apply (begins_timed_out adapter ssid password m (mkWorld c r tr)); assumption.
Qed.

Lemma loop_retries (m : WiFiManager) (w : World) :
  _state m = DISCONNECTED \/ _state m = ERROR ->
  exists st', loop adapter (mkMachine m w) = Some (tt, st') /\ retries adapter m w st'.
Proof.
  intros Hs.
  destruct (Z_lt_le_dec RECONNECT_DELAY_MS
              (u32 (world_millis w - _lastConnectAttempt m))) as [Hd | Hd].
  - destruct (_ssid m) as [ssid|] eqn:Hssid.
    + rewrite WiFiProps.loop_retry; [|exact Hs|exact Hd|congruence].
      match goal with
      | |- context [begin adapter ?a ?b (mkMachine ?m' ?w')] =>
          destruct (begin_begins a b m' w') as (b' & st' & E & Hb)
      end.
      rewrite E. exists st'. split; [reflexivity|].
      apply (retries_attempt adapter m w b' st'); [exact Hd | congruence|].
      exact Hb.
    + rewrite WiFiProps.loop_no_credentials by assumption.
      eexists. split; [reflexivity|]. apply retries_no_credentials; assumption.
  - rewrite WiFiProps.loop_backoff by assumption.
    eexists. split; [reflexivity|]. apply retries_wait. exact Hd.
Qed.

Lemma loop_polls (m : WiFiManager) (w : World) :
  exists st', loop adapter (mkMachine m w) = Some (tt, st') /\ polls adapter m w st'.
Proof.
  destruct (_state m) eqn:Hs.
  - destruct (loop_retries m w) as (st' & E & Hr); [left; exact Hs|].
    exists st'. split; [exact E|]. apply polls_idle; [left; exact Hs | exact Hr].
  - rewrite WiFiProps.loop_connecting by exact Hs. eexists. split; [reflexivity|].
    apply polls_connecting. exact Hs.
  - destruct w as [c r tr]. destruct (is_WL_CONNECTED (adapter r)) eqn:Ha.
    + rewrite WiFiProps.loop_still_connected by assumption.
      eexists. split; [reflexivity|].
      apply (polls_connected adapter m (mkWorld c r tr)); assumption.
    + rewrite WiFiProps.loop_link_lost by assumption.
      match goal with
      | |- context [loop adapter (mkMachine ?m' ?w')] =>
          destruct (loop_retries m' w') as (st' & E & Hr); [left; reflexivity|]
      end.
      exists st'. split; [exact E|].
      apply (polls_link_lost adapter m (mkWorld c r tr) st'); assumption.
  - destruct (loop_retries m w) as (st' & E & Hr); [right; exact Hs|].
    exists st'. split; [exact E|]. apply polls_idle; [right; exact Hs | exact Hr].
Qed.

Lemma do_op_outcome (o : Op) (st : Machine) :
  exists st', do_op adapter o st = Some (tt, st') /\ outcome adapter o st st'.
Proof.
  destruct st as [m w]. destruct o as [ssid password| | | | |ms]; cbn [do_op].
  - destruct (begin_begins ssid password m w) as (b & st' & E & Hb).
    unfold bind. rewrite E. exists st'. split; [reflexivity|].
    eapply outcome_begin. exact Hb.
  - destruct (loop_polls m w) as (st' & E & Hp).
    exists st'. split; [exact E|]. apply outcome_loop. exact Hp.
  - unfold isConnected, bind, get_this, WiFi_status. cbn.
    destruct (WiFiState_eqb (_state m) CONNECTED) eqn:E; cbn;
      eexists; (split; [reflexivity|]).
    + apply outcome_isConnected_read. apply WiFiState_eqb_eq. exact E.
    + apply outcome_isConnected_skip. apply WiFiState_eqb_neq. exact E.
  - destruct w as [c r tr].
    unfold disconnect, bind, emit, modify_world, world_emit. cbn.
    rewrite WiFiProps.updateState_run. eexists. split; [reflexivity|].
    rewrite <- app_assoc. apply (outcome_disconnect adapter m (mkWorld c r tr)).
  - unfold reconnect, bind, get_this, modify_this. cbn.
    destruct (_ssid m) as [ssid|] eqn:Hssid.
    + cbn.
      match goal with
      | |- context [begin adapter ?a ?b (mkMachine ?m' ?w')] =>
          destruct (begin_begins a b m' w') as (b' & st' & E & Hb)
      end.
      rewrite E. exists st'. split; [reflexivity|].
      apply (outcome_reconnect adapter m w b' st'); [congruence|].
      rewrite Hssid. exact Hb.
    + eexists. split; [reflexivity|]. apply outcome_reconnect_no_credentials. exact Hssid.
  - unfold delay, modify_world. cbn. eexists. split; [reflexivity|].
    apply outcome_delay.
Qed.

(** What holds of every outcome and composes holds of every run. *)
Lemma run_invariant (allowed : Op -> bool) (I : Machine -> Prop)
      (R : Machine -> Machine -> Prop) :
  (forall st, R st st) ->
  (forall a b c, R a b -> R b c -> R a c) ->
  (forall o st st',
      allowed o = true -> I st -> outcome adapter o st st' -> I st' /\ R st st') ->
  forall ops st,
    forallb allowed ops = true -> I st ->
    exists st', run adapter ops st = Some (tt, st') /\ I st' /\ R st st'.
Proof.
  intros Hrefl Htrans Hstep. induction ops as [|o ops IH]; intros st Hall HI; cbn [run].
  - exists st. split; [reflexivity|]. split; [exact HI | apply Hrefl].
  - cbn in Hall. apply andb_prop in Hall. destruct Hall as [Ho Hall].
    destruct (do_op_outcome o st) as (st1 & E1 & H1).
    destruct (Hstep o st st1 Ho HI H1) as [HI1 HR1].
    destruct (IH st1 Hall HI1) as (st2 & E2 & HI2 & HR2).
    exists st2. unfold bind. rewrite E1. split; [exact E2|].
    split; [exact HI2 | eapply Htrans; eassumption].
Qed.

(** *** Traces of the notifications *)

Lemma callback_handlers_app (a b : list (Z * Event)) :
  callback_handlers (a ++ b) = callback_handlers a ++ callback_handlers b.
Proof.
  induction a as [|[t e] a IH]; simpl; [reflexivity|].
  destruct e; simpl; rewrite IH; reflexivity.
Qed.

Lemma silent_app (a b : list (Z * Event)) : silent (a ++ b) = silent a ++ silent b.
Proof.
  induction a as [|[t e] a IH]; simpl; [reflexivity|].
  destruct e; simpl; rewrite IH; reflexivity.
Qed.

Lemma silent_notify (cb : option nat) (s : WiFiState) (t : Z) :
  silent (notify cb s t) = [].
Proof. destruct cb; reflexivity. Qed.

Lemma silent_notify_change (m : WiFiManager) (s : WiFiState) (t : Z) :
  silent (notify_change m s t) = [].
Proof.
  unfold notify_change. destruct (WiFiState_eqb (_state m) s);
    [reflexivity | apply silent_notify].
Qed.

Lemma callback_states_notify_change (m : WiFiManager) (s : WiFiState) (t : Z) (h : nat) :
  _stateCallback m = Some h ->
  callback_states (notify_change m s t) =
  if WiFiState_eqb (_state m) s then [] else [s].
Proof.
  intros Hcb. unfold notify_change.
  destruct (WiFiState_eqb (_state m) s); [reflexivity|]. rewrite Hcb. reflexivity.
Qed.

Lemma callback_handlers_notify (cb : option nat) (s : WiFiState) (t : Z) :
  Forall (fun h => cb = Some h) (callback_handlers (notify cb s t)).
Proof. destruct cb; cbn; constructor; [reflexivity | constructor]. Qed.

Lemma callback_handlers_notify_change (m : WiFiManager) (s : WiFiState) (t : Z) :
  Forall (fun h => _stateCallback m = Some h)
         (callback_handlers (notify_change m s t)).
Proof.
  unfold notify_change. destruct (WiFiState_eqb (_state m) s);
    [constructor | apply callback_handlers_notify].
Qed.

(** *** begin *)

(** X1: [begin] always returns, within [WIFI_TIMEOUT_MS + 500] ms of clock
    time and after at most 62 status reads.  It has stored the credentials
    it was given, called [WiFi.begin] once, at the time of the call, and
    left the callback slot and [_lastConnectAttempt] alone.  It returns
    [true] in [CONNECTED] with the attempt counter 0, or [false] in [ERROR]
    with the counter as it was. *)
Theorem X1_begin_bounded
        (ssid password : option string) (m : WiFiManager) (w : World) :
  exists b st' evs,
    begin adapter ssid password (mkMachine m w) = Some (b, st') /\
    _ssid (this st') = ssid /\
    _password (this st') = password /\
    _stateCallback (this st') = _stateCallback m /\
    _lastConnectAttempt (this st') = _lastConnectAttempt m /\
    w_clock w <= w_clock (world st') <= w_clock w + WIFI_TIMEOUT_MS + 500 /\
    (w_reads w < w_reads (world st') <= w_reads w + 62)%nat /\
    w_trace (world st') = w_trace w ++ evs /\
    begin_times evs = [w_clock w] /\
    (if b
     then _state (this st') = CONNECTED /\ _reconnectAttempts (this st') = 0
     else _state (this st') = ERROR /\
          _reconnectAttempts (this st') = _reconnectAttempts m).
Proof.
  destruct (begin_begins ssid password m w) as (b & st' & E & Hb).
  exists b, st'. destruct Hb as [k Hk Hno Hyes | Hno]; eexists;
    (split; [exact E|]); cbn;
    repeat (split; [first [reflexivity | unfold WIFI_TIMEOUT_MS; lia]|]).
  - split.
    + rewrite begin_times_app, WiFiProps.begin_times_notify_change. cbn.
      rewrite WiFiProps.begin_times_notify. reflexivity.
    + split; reflexivity.
  - split.
    + rewrite begin_times_app, WiFiProps.begin_times_notify_change. cbn.
      rewrite WiFiProps.begin_times_notify. reflexivity.
    + split; reflexivity.
Qed.

(** *** The edges of the state machine *)

Lemma walk_app (s0 s1 : WiFiState) (l1 l2 : list WiFiState) :
  transitions s0 l1 s1 -> walk s0 l1 -> walk s1 l2 -> walk s0 (l1 ++ l2).
Proof.
  revert s0. induction l1 as [|x l1 IH]; simpl; intros s0 Ht Hw1 Hw2.
  - subst s1. exact Hw2.
  - destruct Ht as [_ Ht]. destruct Hw1 as [He Hw1].
    split; [exact He | apply IH; assumption].
Qed.

Lemma walked_refl (st : Machine) : walked st st.
Proof.
  exists []. rewrite app_nil_r. split; [reflexivity|]. split; [reflexivity | exact I].
Qed.

Lemma walked_trans (a b c : Machine) : walked a b -> walked b c -> walked a c.
Proof.
  intros (e1 & Ht1 & Hc1 & Hw1) (e2 & Ht2 & Hc2 & Hw2).
  exists (e1 ++ e2). split; [rewrite Ht2, Ht1, app_assoc; reflexivity|].
  rewrite callback_states_app. split.
  - eapply transitions_app; eassumption.
  - eapply walk_app; eassumption.
Qed.

Lemma begins_walked (h : nat) (ssid password : option string) (m m0 : WiFiManager)
      (w : World) (b : bool) (st' : Machine) :
  _stateCallback m = Some h -> _state m <> CONNECTING ->
  _state m0 = _state m ->
  begins adapter ssid password m w b st' ->
  settled h st' /\ walked (mkMachine m0 w) st'.
Proof.
  intros Hcb Hs H0 Hb.
  destruct Hb as [k Hk Hno Hyes | Hno]; (split; [split; cbn; [exact Hcb | congruence]|]);
    eexists; cbn; (split; [reflexivity|]);
    rewrite callback_states_app, (callback_states_notify_change _ _ _ h Hcb);
    cbn; rewrite Hcb; cbn; rewrite H0;
    destruct (_state m); cbn; try congruence; repeat split; congruence.
Qed.

Lemma retries_walked (h : nat) (m : WiFiManager) (w : World) (st' : Machine) :
  _stateCallback m = Some h -> _state m <> CONNECTING ->
  retries adapter m w st' ->
  settled h st' /\ walked (mkMachine m w) st'.
Proof.
  intros Hcb Hs Hr. destruct Hr as [Hd | Hd Hn | b st' Hd Hn Hb].
  - split; [split; assumption | apply walked_refl].
  - split; [split; assumption|]. exists []. cbn. rewrite app_nil_r.
    split; [reflexivity|]. split; [reflexivity | exact I].
  - eapply begins_walked; [| | |exact Hb]; cbn; try assumption; reflexivity.
Qed.

Lemma outcome_walked (h : nat) (o : Op) (st st' : Machine) :
  settled h st -> outcome adapter o st st' -> settled h st' /\ walked st st'.
Proof.
  intros [Hcb Hs] Ho. destruct Ho; cbn in Hcb, Hs.
  - eapply begins_walked; [exact Hcb | exact Hs | reflexivity | eassumption].
  - match goal with H : polls _ _ _ _ |- _ => destruct H as [Hc Ha | Hc | st' Hc Ha Hr | st' Hc Hr] end.
    + split; [split; assumption|]. exists []. cbn. rewrite app_nil_r.
      split; [reflexivity|]. split; [reflexivity | exact I].
    + contradiction.
    + destruct (retries_walked h (set_state DISCONNECTED m) _ st' Hcb
                  ltac:(cbn; congruence) Hr) as [Hset Hw].
      split; [exact Hset|].
      eapply walked_trans; [|exact Hw].
      exists (notify (_stateCallback m) DISCONNECTED (w_clock w)). cbn.
      split; [reflexivity|]. rewrite Hcb. cbn. rewrite Hc.
      repeat split; congruence.
    + apply retries_walked; assumption.
  - split; [split; assumption|]. exists []. cbn. rewrite app_nil_r.
    split; [reflexivity|]. split; [reflexivity | exact I].
  - split; [split; assumption | apply walked_refl].
  - split; [split; cbn; [exact Hcb | congruence]|].
    eexists. cbn. split; [reflexivity|].
    change (callback_states ((w_clock w, EvWiFiDisconnect)
                               :: notify_change m DISCONNECTED (w_clock w)))
      with (callback_states (notify_change m DISCONNECTED (w_clock w))).
    rewrite (callback_states_notify_change _ _ _ h Hcb).
    destruct (_state m); cbn; try congruence; repeat split; congruence.
  - split; [split; assumption | apply walked_refl].
  - eapply begins_walked; [| | |eassumption]; cbn; try assumption; reflexivity.
  - split; [split; assumption|]. exists []. cbn. rewrite app_nil_r.
    split; [reflexivity|]. split; [reflexivity | exact I].
Qed.

(** X2: the notifications only follow the edges of the state machine.
    Over every run of calls, entered between calls with a callback
    registered, each state the callback is invoked with is reached from the
    state before it along [DISCONNECTED], [ERROR] or [CONNECTED] to
    [CONNECTING], [CONNECTING] to [CONNECTED] or [ERROR], or [CONNECTED] or
    [ERROR] to [DISCONNECTED]; so [CONNECTED] and [ERROR] are entered from
    [CONNECTING] only. *)
Theorem X2_notifications_follow_edges
        (ops : list Op) (m : WiFiManager) (w : World) (h : nat) :
  _stateCallback m = Some h ->
  _state m <> CONNECTING ->
  exists st' evs,
    run adapter ops (mkMachine m w) = Some (tt, st') /\
    w_trace (world st') = w_trace w ++ evs /\
    walk (_state m) (callback_states evs) /\
    _state (this st') <> CONNECTING.
Proof.
  intros Hcb Hs.
  destruct (run_invariant (fun _ => true) (settled h) walked
              walked_refl walked_trans
              (fun o st st' _ => outcome_walked h o st st')
              ops (mkMachine m w)) as (st' & E & [_ Hs'] & evs & Ht & _ & Hw).
  - clear. induction ops; [reflexivity | assumption].
  - split; assumption.
  - exists st', evs. repeat split; assumption.
Qed.

(** *** The callback slot *)

Lemma registered_only_refl (st : Machine) : registered_only st st.
Proof.
  split; [reflexivity|]. exists []. rewrite app_nil_r.
  split; [reflexivity | constructor].
Qed.

Lemma registered_only_trans (a b c : Machine) :
  registered_only a b -> registered_only b c -> registered_only a c.
Proof.
  intros (Hcb1 & e1 & Ht1 & Hf1) (Hcb2 & e2 & Ht2 & Hf2).
  split; [congruence|]. exists (e1 ++ e2).
  split; [rewrite Ht2, Ht1, app_assoc; reflexivity|].
  rewrite callback_handlers_app. apply Forall_app. split; [exact Hf1|].
  rewrite <- Hcb1. exact Hf2.
Qed.

Lemma begins_registered_only (ssid password : option string) (m m0 : WiFiManager)
      (w : World) (b : bool) (st' : Machine) :
  _stateCallback m0 = _stateCallback m ->
  begins adapter ssid password m w b st' ->
  registered_only (mkMachine m0 w) st'.
Proof.
  intros H0 Hb.
  destruct Hb as [k Hk Hno Hyes | Hno]; (split; [cbn; congruence|]);
    eexists; cbn; (split; [reflexivity|]); rewrite H0;
    rewrite callback_handlers_app; apply Forall_app;
    (split; [apply callback_handlers_notify_change|]); cbn;
    apply callback_handlers_notify.
Qed.

Lemma retries_registered_only (m : WiFiManager) (w : World) (st' : Machine) :
  retries adapter m w st' -> registered_only (mkMachine m w) st'.
Proof.
  intros Hr. destruct Hr as [Hd | Hd Hn | b st' Hd Hn Hb].
  - apply registered_only_refl.
  - split; [reflexivity|]. exists []. cbn. rewrite app_nil_r.
    split; [reflexivity | constructor].
  - eapply begins_registered_only; [|exact Hb]. reflexivity.
Qed.

Lemma outcome_registered_only (o : Op) (st st' : Machine) :
  outcome adapter o st st' -> registered_only st st'.
Proof.
  intros Ho. destruct Ho.
  - eapply begins_registered_only; [|eassumption]. reflexivity.
  - match goal with H : polls _ _ _ _ |- _ =>
      destruct H as [Hc Ha | Hc | st' Hc Ha Hr | st' Hc Hr] end.
    + split; [reflexivity|]. exists []. cbn. rewrite app_nil_r.
      split; [reflexivity | constructor].
    + apply registered_only_refl.
    + apply retries_registered_only in Hr.
      eapply registered_only_trans; [|exact Hr].
      split; [reflexivity|]. eexists. cbn. split; [reflexivity|].
      apply callback_handlers_notify.
    + apply retries_registered_only. exact Hr.
  - split; [reflexivity|]. exists []. cbn. rewrite app_nil_r.
    split; [reflexivity | constructor].
  - apply registered_only_refl.
  - split; [reflexivity|]. eexists. cbn. split; [reflexivity|].
    apply callback_handlers_notify_change.
  - apply registered_only_refl.
  - eapply begins_registered_only; [|eassumption]. reflexivity.
  - split; [reflexivity|]. exists []. cbn. rewrite app_nil_r.
    split; [reflexivity | constructor].
Qed.

(** X3: [setStateCallback] replaces the one callback slot, and only what is
    in the slot is ever invoked: over every run of calls after
    [setStateCallback (cb)], every callback invocation goes to [cb] (none
    at all when [cb] is empty), whatever was registered before, and the
    slot still holds [cb] at the end. *)
Theorem X3_last_callback_wins
        (cb : option nat) (ops : list Op) (m : WiFiManager) (w : World) :
  exists st' evs,
    (setStateCallback cb ;; run adapter ops) (mkMachine m w) = Some (tt, st') /\
    w_trace (world st') = w_trace w ++ evs /\
    Forall (fun h => cb = Some h) (callback_handlers evs) /\
    _stateCallback (this st') = cb.
Proof.
  destruct (run_invariant (fun _ => true) (fun _ => True) registered_only
              registered_only_refl registered_only_trans
              (fun o st st' _ _ Ho => conj I (outcome_registered_only o st st' Ho))
              ops (mkMachine (set_stateCallback cb m) w))
    as (st' & E & _ & Hcb & evs & Ht & Hf).
  - clear. induction ops; [reflexivity | assumption].
  - exact I.
  - exists st', evs. split; [exact E|]. split; [exact Ht|].
    split; [exact Hf | exact Hcb].
Qed.

(** *** A manager without credentials *)

Lemma inert_refl (st : Machine) : inert st st.
Proof.
  split; [reflexivity|]. split; [reflexivity|]. exists []. rewrite app_nil_r.
  split; [reflexivity | constructor].
Qed.

Lemma inert_trans (a b c : Machine) : inert a b -> inert b c -> inert a c.
Proof.
  intros (Hn1 & Hr1 & e1 & Ht1 & Hf1) (Hn2 & Hr2 & e2 & Ht2 & Hf2).
  split; [congruence|]. split; [congruence|]. exists (e1 ++ e2).
  split; [rewrite Ht2, Ht1, app_assoc; reflexivity|].
  apply Forall_app. split; assumption.
Qed.

Lemma outcome_inert (o : Op) (st st' : Machine) :
  no_begin o = true -> idle_without_credentials st -> outcome adapter o st st' ->
  idle_without_credentials st' /\ inert st st'.
Proof.
  intros Hnb [Hn Hs] Ho. destruct Ho; cbn in Hn, Hs; try discriminate.
  - match goal with H : polls _ _ _ _ |- _ =>
      destruct H as [Hc Ha | Hc | st' Hc Ha Hr | st' Hc Hr] end;
      try congruence.
    destruct Hr as [Hd | Hd Hn' | b st' Hd Hn' Hb]; try contradiction.
    + split; [split; assumption | apply inert_refl].
    + split; [split; assumption|].
      split; [reflexivity|]. split; [reflexivity|]. exists []. cbn.
      rewrite app_nil_r. split; [reflexivity | constructor].
  - congruence.
  - split; [split; assumption | apply inert_refl].
  - split; [split; [assumption | reflexivity]|].
    split; [reflexivity|]. split; [reflexivity|]. eexists. cbn.
    split; [reflexivity|]. unfold notify_change. rewrite Hs. cbn.
    constructor; [reflexivity | constructor].
  - split; [split; assumption | apply inert_refl].
  - contradiction.
  - split; [split; assumption|].
    split; [reflexivity|]. split; [reflexivity|]. exists []. cbn.
    rewrite app_nil_r. split; [reflexivity | constructor].
Qed.

(** X4: a manager that holds no credentials and is in [DISCONNECTED] (as
    constructed) stays so under every sequence of polls, queries,
    [disconnect] and [reconnect] calls, however much time passes: it never
    reads the adapter status, never calls [WiFi.begin], never invokes the
    callback and never counts an attempt; the only adapter calls are the
    [WiFi.disconnect] of explicit [disconnect] calls. *)
Theorem X4_no_credentials_no_attempt
        (ops : list Op) (m : WiFiManager) (w : World) :
  forallb no_begin ops = true ->
  _ssid m = None ->
  _state m = DISCONNECTED ->
  exists st' evs,
    run adapter ops (mkMachine m w) = Some (tt, st') /\
    _state (this st') = DISCONNECTED /\
    _ssid (this st') = None /\
    _reconnectAttempts (this st') = _reconnectAttempts m /\
    w_reads (world st') = w_reads w /\
    w_trace (world st') = w_trace w ++ evs /\
    Forall (fun e => snd e = EvWiFiDisconnect) evs.
Proof.
  intros Hops Hn Hs.
  destruct (run_invariant no_begin idle_without_credentials inert
              inert_refl inert_trans outcome_inert
              ops (mkMachine m w) Hops (conj Hn Hs))
    as (st' & E & [Hn' Hs'] & Hc & Hr & evs & Ht & Hf).
  exists st', evs. repeat split; assumption.
Qed.

(** *** The attempt counter while connected *)

Lemma begins_counter (ssid password : option string) (m : WiFiManager)
      (w : World) (b : bool) (st' : Machine) :
  begins adapter ssid password m w b st' ->
  _state (this st') = CONNECTED -> _reconnectAttempts (this st') = 0.
Proof.
  intros Hb. destruct Hb; cbn; [reflexivity | discriminate].
Qed.

Lemma outcome_counter (o : Op) (st st' : Machine) :
  (_state (this st) = CONNECTED -> _reconnectAttempts (this st) = 0) ->
  outcome adapter o st st' ->
  (_state (this st') = CONNECTED -> _reconnectAttempts (this st') = 0).
Proof.
  intros HI Ho. destruct Ho; cbn in HI.
  - eapply begins_counter; eassumption.
  - match goal with H : polls _ _ _ _ |- _ =>
      destruct H as [Hc Ha | Hc | st' Hc Ha Hr | st' Hc Hr] end.
    + exact HI.
    + exact HI.
    + destruct Hr as [Hd | Hd Hn | b st' Hd Hn Hb]; cbn; try discriminate.
      eapply begins_counter; eassumption.
    + destruct Hr as [Hd | Hd Hn | b st' Hd Hn Hb]; cbn;
        [exact HI | destruct Hc; congruence | eapply begins_counter; eassumption].
  - exact HI.
  - exact HI.
  - cbn. discriminate.
  - exact HI.
  - eapply begins_counter; eassumption.
  - exact HI.
Qed.

(** X5: in [CONNECTED] the attempt counter is 0.  The constructor
    establishes this and every call keeps it: whenever a run of calls
    leaves the manager connected, [_reconnectAttempts] is 0. *)
Theorem X5_connected_counter_zero (ops : list Op) (m : WiFiManager) (w : World) :
  (_state m = CONNECTED -> _reconnectAttempts m = 0) ->
  exists st',
    run adapter ops (mkMachine m w) = Some (tt, st') /\
    (_state (this st') = CONNECTED -> _reconnectAttempts (this st') = 0).
Proof.
  intros HI.
  destruct (run_invariant (fun _ => true)
              (fun st => _state (this st) = CONNECTED -> _reconnectAttempts (this st) = 0)
              (fun _ _ => True) (fun _ => I) (fun _ _ _ _ _ => I)
              (fun o st st' _ H Ho => conj (outcome_counter o st st' H Ho) I)
              ops (mkMachine m w)) as (st' & E & HI' & _).
  - clear. induction ops; [reflexivity | assumption].
  - exact HI.
  - exists st'. split; assumption.
Qed.

(** *** How long a poll takes *)

Lemma begins_duration (ssid password : option string) (m : WiFiManager)
      (w : World) (b : bool) (st' : Machine) :
  begins adapter ssid password m w b st' ->
  w_clock w <= w_clock (world st') <= w_clock w + WIFI_TIMEOUT_MS + 500 /\
  (w_reads (world st') <= w_reads w + 62)%nat /\
  exists evs, w_trace (world st') = w_trace w ++ evs /\
              begin_times evs = [w_clock w].
Proof.
  intros Hb. destruct Hb as [k Hk Hno Hyes | Hno]; cbn;
    (split; [unfold WIFI_TIMEOUT_MS; lia|]); (split; [lia|]);
    eexists; (split; [reflexivity|]);
    rewrite begin_times_app, WiFiProps.begin_times_notify_change; cbn;
    rewrite WiFiProps.begin_times_notify; reflexivity.
Qed.

Lemma retries_duration (m : WiFiManager) (w : World) (st' : Machine) :
  retries adapter m w st' ->
  (w_reads (world st') <= w_reads w + 62)%nat /\
  exists evs,
    w_trace (world st') = w_trace w ++ evs /\
    (begin_times evs = [] /\ w_clock (world st') = w_clock w /\
       w_reads (world st') = w_reads w \/
     begin_times evs = [w_clock w] /\
       w_clock w <= w_clock (world st') <= w_clock w + WIFI_TIMEOUT_MS + 500).
Proof.
  intros Hr. destruct Hr as [Hd | Hd Hn | b st' Hd Hn Hb].
  - cbn. split; [lia|]. exists []. rewrite app_nil_r. split; [reflexivity|].
    left. repeat split.
  - cbn. split; [lia|]. exists []. rewrite app_nil_r. split; [reflexivity|].
    left. repeat split.
  - destruct (begins_duration _ _ _ _ _ _ Hb) as (Hc & Hrd & evs & Ht & Hbt).
    split; [exact Hrd|]. exists evs. split; [exact Ht|]. right. split; assumption.
Qed.

(** X6: a poll always returns.  When it starts no connect attempt it
    returns at once, without using clock time and after at most one status
    read; when it starts one, it blocks for at most [WIFI_TIMEOUT_MS + 500]
    ms and makes at most 63 status reads. *)
Theorem X6_poll_duration (m : WiFiManager) (w : World) :
  exists st' evs,
    loop adapter (mkMachine m w) = Some (tt, st') /\
    w_trace (world st') = w_trace w ++ evs /\
    (w_reads (world st') <= w_reads w + 63)%nat /\
    (begin_times evs = [] /\ w_clock (world st') = w_clock w /\
       (w_reads (world st') <= w_reads w + 1)%nat \/
     begin_times evs = [w_clock w] /\
       w_clock w <= w_clock (world st') <= w_clock w + WIFI_TIMEOUT_MS + 500).
Proof.
  destruct (loop_polls m w) as (st' & E & Hp). exists st'.
  destruct Hp as [Hc Ha | Hc | st' Hc Ha Hr | st' Hc Hr].
  - exists []. rewrite app_nil_r. cbn. split; [exact E|]. split; [reflexivity|].
    split; [lia|]. left. split; [reflexivity|]. split; [reflexivity | lia].
  - exists []. rewrite app_nil_r. cbn. split; [exact E|]. split; [reflexivity|].
    split; [lia|]. left. split; [reflexivity|]. split; [reflexivity | lia].
  - destruct (retries_duration _ _ _ Hr) as (Hrd & evs & Ht & Hcase). cbn in Hrd, Ht, Hcase.
    exists (notify (_stateCallback m) DISCONNECTED (w_clock w) ++ evs).
    split; [exact E|]. split; [rewrite Ht, app_assoc; reflexivity|].
    split; [lia|].
    rewrite begin_times_nil_app by apply WiFiProps.begin_times_notify.
    destruct Hcase as [(Hb & Hck & Hrr) | (Hb & Hck)];
      [left | right]; repeat split; try assumption; lia.
  - destruct (retries_duration _ _ _ Hr) as (Hrd & evs & Ht & Hcase).
    exists evs. split; [exact E|]. split; [exact Ht|]. split; [lia|].
    destruct Hcase as [(Hb & Hck & Hrr) | (Hb & Hck)];
      [left | right]; repeat split; try assumption; lia.
Qed.

(** *** The backoff across the wrap of the clock *)

(** X7: the backoff test is right across the wrap-around of the 32-bit
    clock.  When [_lastConnectAttempt] was taken at clock time [t] and the
    poll comes [d] ms later, with [d] below 2^32, a poll in [DISCONNECTED]
    or [ERROR] with credentials does nothing for [d <= RECONNECT_DELAY_MS]
    and starts a connect attempt for [d > RECONNECT_DELAY_MS], wherever the
    counter wrapped in between. *)
Theorem X7_backoff_across_wrap (m : WiFiManager) (w : World) (t d : Z) :
  _state m = DISCONNECTED \/ _state m = ERROR ->
  _ssid m <> None ->
  _lastConnectAttempt m = u32 t ->
  w_clock w = t + d ->
  0 <= d < 2 ^ 32 ->
  exists st' evs,
    loop adapter (mkMachine m w) = Some (tt, st') /\
    w_trace (world st') = w_trace w ++ evs /\
    (d <= RECONNECT_DELAY_MS -> st' = mkMachine m w) /\
    (RECONNECT_DELAY_MS < d ->
     begin_times evs = [t + d] /\ _lastConnectAttempt (this st') = u32 (t + d)).
Proof.
  intros Hs Hn Hl Hc Hd.
  assert (Hel : u32 (world_millis w - _lastConnectAttempt m) = d).
  { unfold world_millis. rewrite Hl, Hc. apply u32_elapsed. exact Hd. }
  destruct (loop_retries m w Hs) as (st' & E & Hr). exists st'.
  destruct Hr as [Hw | Hw Hn' | b st' Hw Hn' Hb]; rewrite Hel in Hw.
  - exists []. rewrite app_nil_r. split; [exact E|]. split; [reflexivity|].
    split; [reflexivity | lia].
  - contradiction.
  - destruct (begins_duration _ _ _ _ _ _ Hb) as (_ & _ & evs & Ht & Hbt).
    exists evs. split; [exact E|]. split; [exact Ht|]. split; [lia|].
    intros _. rewrite Hbt, Hc. split; [reflexivity|].
    destruct Hb; cbn; unfold world_millis; rewrite Hc; reflexivity.
Qed.

(** *** Attempts that time out *)

Lemma failing_times_shift (c : Z) (n : nat) :
  map (fun i => c + (WIFI_TIMEOUT_MS + 500) * Z.of_nat i) (seq 1 n) =
  map (fun i => c + 30500 + (WIFI_TIMEOUT_MS + 500) * Z.of_nat i) (seq 0 n).
Proof.
  rewrite <- seq_shift, map_map. apply map_ext. intros i.
  unfold WIFI_TIMEOUT_MS. lia.
Qed.

(** X8: a connect attempt that times out uses up the backoff.  With an
    adapter that never reports connected, [n] polls in a row, the first one
    with the backoff elapsed, start [n] connect attempts back to back, each
    blocking for [WIFI_TIMEOUT_MS + 500] ms; the attempt counter goes up by
    [n] and the manager is left in [ERROR]. *)
Theorem X8_failed_attempts_back_to_back (n : nat) :
  forall (m : WiFiManager) (w : World),
    (forall i, is_WL_CONNECTED (adapter i) = false) ->
    _state m = DISCONNECTED \/ _state m = ERROR ->
    _ssid m <> None ->
    RECONNECT_DELAY_MS < u32 (world_millis w - _lastConnectAttempt m) ->
    - 2 ^ 31 <= _reconnectAttempts m ->
    _reconnectAttempts m + Z.of_nat n <= INT_MAX ->
    exists st' evs,
      run adapter (polls_in_a_row n) (mkMachine m w) = Some (tt, st') /\
      w_trace (world st') = w_trace w ++ evs /\
      begin_times evs =
        map (fun i => w_clock w + (WIFI_TIMEOUT_MS + 500) * Z.of_nat i) (seq 0 n) /\
      w_clock (world st') = w_clock w + (WIFI_TIMEOUT_MS + 500) * Z.of_nat n /\
      _reconnectAttempts (this st') = _reconnectAttempts m + Z.of_nat n /\
      ((0 < n)%nat -> _state (this st') = ERROR).
Proof.
  induction n as [|n IH]; intros m w Hdead Hs Hn Hd Hlo Hhi.
  - exists (mkMachine m w), []. cbn. rewrite app_nil_r.
    repeat split; try reflexivity; try lia.
  - unfold polls_in_a_row. cbn [repeat run do_op]. unfold bind.
    destruct (loop_retries m w Hs) as (st1 & E1 & Hr). rewrite E1.
    destruct Hr as [Hw | Hw Hn' | b st1 Hw Hn' Hb]; [lia | contradiction |].
    destruct Hb as [k Hk Hno Hyes | Hno]; [rewrite Hdead in Hyes; discriminate|].
    match goal with
    | |- context [run adapter (repeat OpLoop n) (mkMachine ?m1 ?w1)] =>
        destruct (IH m1 w1 Hdead) as (st' & evs & E & Ht & Hbt & Hck & Hcnt & Hst)
    end.
    + right. reflexivity.
    + exact Hn.
    + cbn. unfold world_millis. cbn.
      rewrite u32_elapsed by lia. unfold RECONNECT_DELAY_MS. lia.
    + cbn. rewrite wrap_int_small by (unfold INT_MAX in Hhi; lia). lia.
    + cbn. rewrite wrap_int_small by (unfold INT_MAX in Hhi; lia). lia.
    + cbn in Ht, Hbt, Hck, Hcnt.
      rewrite wrap_int_small in Hcnt by (unfold INT_MAX in Hhi; lia).
      exists st'. eexists. split; [exact E|].
      split; [rewrite Ht, <- app_assoc; reflexivity|].
      rewrite !begin_times_app, WiFiProps.begin_times_notify_change. cbn.
      rewrite WiFiProps.begin_times_notify, Hbt. cbn.
      split; [|split; [|split]].
      * f_equal; [unfold WIFI_TIMEOUT_MS; lia|].
        rewrite failing_times_shift. reflexivity.
      * rewrite Hck. unfold WIFI_TIMEOUT_MS. lia.
      * rewrite Hcnt. lia.
      * intros _. destruct n as [|n']; [|apply Hst; lia].
        cbn in E. injection E as <-. reflexivity.
Qed.

(** *** disconnect *)


(** *** The callback is an observer *)

Lemma notify_change_mute (m : WiFiManager) (s : WiFiState) (c : Z) :
  notify_change (set_stateCallback None m) s c = [].
Proof.
  unfold notify_change. cbn. destruct (WiFiState_eqb (_state m) s); reflexivity.
Qed.

Lemma begin_mute (ssid password : option string) (m : WiFiManager) (w : World)
      (b : bool) (st' : Machine) :
  begins adapter ssid password m w b st' ->
  begin adapter ssid password
        (mkMachine (set_stateCallback None m)
                   (mkWorld (w_clock w) (w_reads w) (silent (w_trace w)))) =
  Some (b, mute st').
Proof.
  intros Hb. destruct Hb as [k Hk Hno Hyes | Hno].
  - rewrite (WiFiProps.begin_connects adapter k); try assumption;
      [|unfold WIFI_TIMEOUT_MS; lia].
    unfold mute. cbn. rewrite notify_change_mute.
    rewrite !silent_app, silent_notify_change. cbn. rewrite silent_notify.
    reflexivity.
  - rewrite WiFiProps.begin_times_out by assumption.
    unfold mute. cbn. rewrite notify_change_mute.
    rewrite !silent_app, silent_notify_change. cbn. rewrite silent_notify.
    reflexivity.
Qed.

Lemma retries_mute (m : WiFiManager) (w : World) (st' : Machine) :
  _state m = DISCONNECTED \/ _state m = ERROR ->
  retries adapter m w st' ->
  loop adapter (mkMachine (set_stateCallback None m)
                          (mkWorld (w_clock w) (w_reads w) (silent (w_trace w)))) =
  Some (tt, mute st').
Proof.
  intros Hs Hr. destruct Hr as [Hw | Hw Hn | b st' Hw Hn Hb].
  - rewrite WiFiProps.loop_backoff; [reflexivity | exact Hs | exact Hw].
  - rewrite WiFiProps.loop_no_credentials; [reflexivity | exact Hs | exact Hw | exact Hn].
  - rewrite WiFiProps.loop_retry; [|exact Hs | exact Hw | exact Hn].
    apply begin_mute in Hb.
    unfold set_stateCallback, set_reconnectAttempts, set_lastConnectAttempt,
      world_millis in Hb |- *.
    cbn in Hb |- *. rewrite Hb. reflexivity.
Qed.

Lemma do_op_mute (o : Op) (st st' : Machine) :
  outcome adapter o st st' -> do_op adapter o (mute st) = Some (tt, mute st').
Proof.
  intros Ho. destruct Ho; unfold mute at 1; cbn [this world do_op].
  - unfold bind. match goal with H : begins _ _ _ _ _ _ _ |- _ =>
      rewrite (begin_mute _ _ _ _ _ _ H) end. reflexivity.
  - match goal with H : polls _ _ _ _ |- _ =>
      destruct H as [Hc Ha | Hc | st' Hc Ha Hr | st' Hc Hr] end.
    + rewrite WiFiProps.loop_still_connected; [reflexivity | exact Hc | exact Ha].
    + rewrite WiFiProps.loop_connecting; [reflexivity | exact Hc].
    + rewrite WiFiProps.loop_link_lost; [|exact Hc | exact Ha].
      apply retries_mute in Hr; [|left; reflexivity].
      cbn in Hr |- *. rewrite silent_app, silent_notify, app_nil_r in Hr.
      rewrite app_nil_r. exact Hr.
    + apply retries_mute; assumption.
  - unfold isConnected, bind, get_this, WiFi_status. cbn.
    match goal with H : _state _ = CONNECTED |- _ => rewrite H end. reflexivity.
  - unfold isConnected, bind, get_this, WiFi_status. cbn.
    match goal with H : _state _ <> CONNECTED |- _ =>
      apply WiFiState_eqb_neq in H; rewrite H end. reflexivity.
  - unfold disconnect, bind, emit, modify_world, world_emit. cbn.
    rewrite WiFiProps.updateState_run, notify_change_mute.
    unfold mute. cbn. rewrite silent_app. cbn. rewrite silent_notify_change.
    rewrite app_nil_r. reflexivity.
  - unfold reconnect, bind, get_this, modify_this. cbn.
    match goal with H : _ssid _ = None |- _ => rewrite H end. reflexivity.
  - unfold reconnect, bind, get_this, modify_this. cbn.
    destruct (_ssid m) as [ssid|] eqn:Hssid; [|congruence]. cbn.
    match goal with H : begins _ _ _ _ _ _ _ |- _ =>
      apply begin_mute in H;
      unfold set_stateCallback, set_reconnectAttempts in H |- *;
      cbn in H |- *; rewrite H end.
    reflexivity.
  - reflexivity.
Qed.

(** X10: the callback is an observer only.  Running any sequence of calls
    with the callback slot emptied gives the run with the callback
    registered, less the callback invocations: the same states, counters,
    timestamps, clock, status reads and adapter calls. *)
Theorem X10_callback_is_observer_only (ops : list Op) :
  forall st : Machine,
  exists st',
    run adapter ops st = Some (tt, st') /\
    run adapter ops (mute st) = Some (tt, mute st').
Proof.
  induction ops as [|o ops IH]; intros st; cbn [run].
  - exists st. split; reflexivity.
  - destruct (do_op_outcome o st) as (st1 & E1 & H1).
    destruct (IH st1) as (st2 & E2 & E2').
    exists st2. unfold bind. rewrite E1, (do_op_mute o st st1 H1).
    split; assumption.
Qed.

End More.

Lemma X2_notifications_follow_edges_witness :
  let m := set_stateCallback (Some 7%nat) WiFiManager_new in
  let w := mkWorld 1000 0 [] in
  let ops := [OpBegin (Some "net"%string) (Some "key"%string);
              OpLoop; OpDisconnect; OpDelay 6000; OpLoop] in
  _stateCallback m = Some 7%nat /\
  _state m <> CONNECTING /\
  exists st' evs,
    run slow_adapter ops (mkMachine m w) = Some (tt, st') /\
    w_trace (world st') = w_trace w ++ evs /\
    walk (_state m) (callback_states evs) /\
    _state (this st') <> CONNECTING.
Proof.
  cbv zeta. split; [reflexivity|]. split; [discriminate|].
  apply (X2_notifications_follow_edges slow_adapter) with (h := 7%nat);
    [reflexivity | discriminate].
Defined.

Lemma X4_no_credentials_no_attempt_witness :
  let m := WiFiManager_new in
  let w := mkWorld 1000 0 [] in
  let ops := [OpLoop; OpDelay 6000; OpLoop; OpReconnect; OpDisconnect; OpIsConnected] in
  forallb no_begin ops = true /\
  _ssid m = None /\
  _state m = DISCONNECTED /\
  exists st' evs,
    run slow_adapter ops (mkMachine m w) = Some (tt, st') /\
    _state (this st') = DISCONNECTED /\
    _ssid (this st') = None /\
    _reconnectAttempts (this st') = _reconnectAttempts m /\
    w_reads (world st') = w_reads w /\
    w_trace (world st') = w_trace w ++ evs /\
    Forall (fun e => snd e = EvWiFiDisconnect) evs.
Proof.
  cbv zeta. split; [reflexivity|]. split; [reflexivity|]. split; [reflexivity|].
  apply (X4_no_credentials_no_attempt slow_adapter); reflexivity.
Defined.

Lemma X5_connected_counter_zero_witness :
  let m := WiFiManager_new in
  let w := mkWorld 1000 0 [] in
  let ops := [OpBegin (Some "net"%string) (Some "key"%string);
              OpDelay 6000; OpLoop; OpReconnect; OpLoop] in
  (_state m = CONNECTED -> _reconnectAttempts m = 0) /\
  exists st',
    run flaky_adapter ops (mkMachine m w) = Some (tt, st') /\
    (_state (this st') = CONNECTED -> _reconnectAttempts (this st') = 0).
Proof.
  cbv zeta. split; [reflexivity|].
  apply (X5_connected_counter_zero flaky_adapter). reflexivity.
Defined.

Lemma X7_backoff_across_wrap_witness :
  let m := mkWiFiManager (Some "net"%string) (Some "key"%string) ERROR None
                         4294966296 1 in
  let w := mkWorld 4294972296 0 [] in
  (_state m = DISCONNECTED \/ _state m = ERROR) /\
  _ssid m <> None /\
  _lastConnectAttempt m = u32 4294966296 /\
  w_clock w = 4294966296 + 6000 /\
  0 <= 6000 < 2 ^ 32 /\
  exists st' evs,
    loop dead_adapter (mkMachine m w) = Some (tt, st') /\
    w_trace (world st') = w_trace w ++ evs /\
    (6000 <= RECONNECT_DELAY_MS -> st' = mkMachine m w) /\
    (RECONNECT_DELAY_MS < 6000 ->
     begin_times evs = [4294966296 + 6000] /\
     _lastConnectAttempt (this st') = u32 (4294966296 + 6000)).
Proof.
  cbv zeta. split; [right; reflexivity|]. split; [discriminate|].
  split; [reflexivity|]. split; [reflexivity|]. split; [lia|].
  apply (X7_backoff_across_wrap dead_adapter);
    [right; reflexivity | discriminate | reflexivity | reflexivity | lia].
Defined.

Lemma X8_failed_attempts_back_to_back_witness :
  let m := mkWiFiManager (Some "net"%string) (Some "key"%string) DISCONNECTED None 0 0 in
  let w := mkWorld 6000 0 [] in
  (forall i, is_WL_CONNECTED (dead_adapter i) = false) /\
  (_state m = DISCONNECTED \/ _state m = ERROR) /\
  _ssid m <> None /\
  RECONNECT_DELAY_MS < u32 (world_millis w - _lastConnectAttempt m) /\
  - 2 ^ 31 <= _reconnectAttempts m /\
  _reconnectAttempts m + Z.of_nat 3 <= INT_MAX /\
  exists st' evs,
    run dead_adapter (polls_in_a_row 3) (mkMachine m w) = Some (tt, st') /\
    w_trace (world st') = w_trace w ++ evs /\
    begin_times evs =
      map (fun i => w_clock w + (WIFI_TIMEOUT_MS + 500) * Z.of_nat i) (seq 0 3) /\
    w_clock (world st') = w_clock w + (WIFI_TIMEOUT_MS + 500) * Z.of_nat 3 /\
    _reconnectAttempts (this st') = _reconnectAttempts m + Z.of_nat 3 /\
    ((0 < 3)%nat -> _state (this st') = ERROR).
Proof.
  cbv zeta.
  assert (H1 : forall i, is_WL_CONNECTED (dead_adapter i) = false) by reflexivity.
  assert (H4 : RECONNECT_DELAY_MS <
               u32 (world_millis (mkWorld 6000 0 []) - 0)) by (vm_compute; reflexivity).
  assert (H5 : - 2 ^ 31 <= 0) by lia.
  assert (H6 : 0 + Z.of_nat 3 <= INT_MAX) by (vm_compute; discriminate).
  split; [exact H1|]. split; [left; reflexivity|]. split; [discriminate|].
  split; [exact H4|]. split; [exact H5|]. split; [exact H6|].
  apply (X8_failed_attempts_back_to_back dead_adapter 3
           (mkWiFiManager (Some "net"%string) (Some "key"%string) DISCONNECTED None 0 0)
           (mkWorld 6000 0 []) H1 (or_introl eq_refl) ltac:(discriminate) H4 H5 H6).
Defined.


End WiFiMore.

(* ================================================================= *)
(** ** LEDIndicator: invariants and timing under polling *)

Module UtilsMore.
Import Utils.

Lemma loop_period (T : Z) (l : LEDIndicator) (w : World) :
  period_of (_pattern l) = Some T ->
  loop l w = blink T (world_millis w) l w.
Proof.
  intros H. unfold loop. destruct (_pattern l); cbn in H; try discriminate;
    injection H as <-; reflexivity.
Qed.

Lemma poll_at_app (t1 t2 : list Z) :
  forall (l : LEDIndicator) (w : World),
    poll_at (t1 ++ t2) l w =
    poll_at t2 (fst (poll_at t1 l w)) (snd (poll_at t1 l w)).
Proof.
  induction t1 as [|t t1 IH]; intros l w; cbn [poll_at app fst snd].
  - reflexivity.
  - destruct (loop l (mkWorld t (w_reads w) (w_trace w))) as [l1 w1]. apply IH.
Qed.

(** *** The fields keep their ranges *)

(** X11: [_blinkPhase] stays in 0..5 and [_lastUpdate] stays a 32-bit
    value: the constructor establishes both and every call ([begin],
    [loop], [setPattern], [on], [off], [toggle]) keeps them, whatever the
    pattern and the clock. *)
Theorem X11_phase_and_timestamp_in_range
        (ops : list Op) (l : LEDIndicator) (w : World) :
  0 <= _blinkPhase l < 6 ->
  0 <= _lastUpdate l < 2 ^ 32 ->
  0 <= _blinkPhase (fst (run ops l w)) < 6 /\
  0 <= _lastUpdate (fst (run ops l w)) < 2 ^ 32.
Proof.
  revert l w. induction ops as [|o ops IH]; intros l w Hp Hl; cbn [run].
  - cbn. split; assumption.
  - assert (H1 : 0 <= _blinkPhase (fst (do_op o l w)) < 6 /\
                 0 <= _lastUpdate (fst (do_op o l w)) < 2 ^ 32).
    { destruct o as [| |p| | | |ms]; cbn [do_op]; try (cbn; split; assumption).
      - unfold loop. destruct (_pattern l) eqn:Hpat;
          try rewrite UtilsProps.blink_run;
          try (cbn; split; assumption);
          try (match goal with |- context [?a >? ?b] => destruct (a >? b) end;
               cbn; split; try assumption; apply u32_range).
        match goal with |- context [?a >? ?b] => destruct (a >? b) end.
        + rewrite UtilsProps.toggle_run. cbn.
          rewrite UtilsProps.next_phase by exact Hp.
          split; [apply Z.mod_pos_bound; lia | apply u32_range].
        + cbn. split; assumption.
      - cbn. split; lia. }
    destruct (do_op o l w) as [l1 w1]. cbn [fst] in H1.
    apply IH; tauto.
Qed.

(** *** The one-period patterns under arbitrary polling *)

Lemma ascending_weaken (t0 t1 : Z) (times : list Z) :
  t0 <= t1 -> ascending t1 times -> ascending t0 times.
Proof.
  intros Hle H. destruct times as [|t times]; [exact I|].
  cbn in *. split; [lia | tauto].
Qed.

(** Polls after a toggle at [tprev]. *)
Lemma poll_at_period_from (T : Z) (times : list Z) :
  forall (l : LEDIndicator) (w : World) (tprev : Z),
    period_of (_pattern l) = Some T ->
    _lastUpdate l = u32 tprev ->
    ascending tprev times ->
    exists evs,
      w_trace (snd (poll_at times l w)) = w_trace w ++ evs /\
      spaced T (tprev :: write_times evs).
Proof.
  induction times as [|t times IH]; intros l w tprev Hp Hl Hasc; cbn [poll_at].
  - exists []. rewrite app_nil_r. split; [reflexivity | exact I].
  - destruct Hasc as [Hle Hasc].
    rewrite (loop_period T l _ Hp), UtilsProps.blink_run.
    unfold world_millis. cbn [w_clock]. rewrite Hl, u32_sub.
    destruct (u32 (t - tprev) >? T) eqn:E.
    + rewrite Z.gtb_ltb in E. apply Z.ltb_lt in E.
      match goal with
      | |- context [poll_at times ?l1 ?w1] =>
          destruct (IH l1 w1 t Hp eq_refl Hasc) as (evs & Ht & Hsp)
      end.
      eexists. split; [rewrite Ht; cbn; rewrite <- app_assoc; reflexivity|].
      cbn [write_times]. cbn [spaced]. split; [|exact Hsp].
      pose proof (u32_le (t - tprev)) as Hu. lia.
    + destruct (IH l (mkWorld t (w_reads w) (w_trace w)) tprev Hp Hl
                  (ascending_weaken _ _ _ Hle Hasc)) as (evs & Ht & Hsp).
      exists evs. split; [exact Ht | exact Hsp].
Qed.

(** X12: under [BLINK_SLOW], [BLINK_FAST] and [PULSE] the line never
    toggles twice within the period of the pattern (1000, 200, 50 ms):
    however the polls are spread in time, consecutive writes are more than
    the period apart, also across the wrap-around of the 32-bit clock. *)
Theorem X12_blink_never_faster_than_period
        (T : Z) (times : list Z) (t0 : Z) (l : LEDIndicator) (w : World) :
  period_of (_pattern l) = Some T ->
  ascending t0 times ->
  exists evs,
    w_trace (snd (poll_at times l w)) = w_trace w ++ evs /\
    spaced T (write_times evs).
Proof.
  revert l w t0. induction times as [|t times IH]; intros l w t0 Hp Hasc; cbn [poll_at].
  - exists []. rewrite app_nil_r. split; [reflexivity | exact I].
  - destruct Hasc as [Hle Hasc].
    rewrite (loop_period T l _ Hp), UtilsProps.blink_run.
    match goal with |- context [?a >? ?b] => destruct (a >? b) end.
    + match goal with
      | |- context [poll_at times ?l1 ?w1] =>
          destruct (poll_at_period_from T times l1 w1 t Hp eq_refl Hasc)
            as (evs & Ht & Hsp)
      end.
      eexists. split; [rewrite Ht; cbn; rewrite <- app_assoc; reflexivity|].
      cbn [write_times]. exact Hsp.
    + destruct (IH l (mkWorld t (w_reads w) (w_trace w)) t Hp Hasc)
        as (evs & Ht & Hsp).
      exists evs. split; [exact Ht | exact Hsp].
Qed.

(** *** The one-period patterns under a regular tick *)

Lemma every_range (d t0 : Z) (a n : nat) :
  map (fun i => t0 + d * Z.of_nat i) (seq a (S n)) =
  map (fun i => t0 + d * Z.of_nat i) (seq a n) ++ [t0 + d * Z.of_nat (a + n)].
Proof. rewrite seq_S, map_app. reflexivity. Qed.

(** Polls that come too early change nothing. *)
Lemma poll_at_quiet (T d t : Z) (n : nat) :
  forall (a : nat) (l : LEDIndicator) (w : World),
    period_of (_pattern l) = Some T ->
    _lastUpdate l = u32 t ->
    (forall i, (a <= i < a + n)%nat -> 0 <= d * Z.of_nat i <= T) ->
    T < 2 ^ 32 ->
    fst (poll_at (map (fun i => t + d * Z.of_nat i) (seq a n)) l w) = l /\
    w_reads (snd (poll_at (map (fun i => t + d * Z.of_nat i) (seq a n)) l w)) = w_reads w /\
    w_trace (snd (poll_at (map (fun i => t + d * Z.of_nat i) (seq a n)) l w)) = w_trace w.
Proof.
  induction n as [|n IH]; intros a l w Hp Hl Hearly HT; cbn [seq map poll_at].
  - repeat split.
  - rewrite (loop_period T l _ Hp), UtilsProps.blink_run.
    unfold world_millis. cbn [w_clock]. rewrite Hl.
    assert (Ha : 0 <= d * Z.of_nat a <= T) by (apply Hearly; lia).
    rewrite u32_elapsed by lia.
    assert (E : (d * Z.of_nat a >? T) = false)
      by (rewrite Z.gtb_ltb; apply Z.ltb_ge; lia).
    rewrite E.
    destruct (IH (S a) l (mkWorld (t + d * Z.of_nat a) (w_reads w) (w_trace w)) Hp Hl)
      as (H1 & H2 & H3); [intros i Hi; apply Hearly; lia | exact HT |].
    repeat split; assumption.
Qed.

(** One period: the toggle comes at the first tick past the period. *)
Lemma poll_at_one_period (T d t : Z) (l : LEDIndicator) (w : World) :
  period_of (_pattern l) = Some T ->
  _lastUpdate l = u32 t ->
  0 < d ->
  d * (T / d + 1) < 2 ^ 32 ->
  fst (poll_at (every d t (Z.to_nat (T / d + 1))) l w) =
    mkLEDIndicator (_pin l) (_activeLow l) (_pattern l) (negb (_ledState l))
                   (u32 (t + d * (T / d + 1))) (_blinkPhase l) /\
  w_reads (snd (poll_at (every d t (Z.to_nat (T / d + 1))) l w)) = w_reads w /\
  w_trace (snd (poll_at (every d t (Z.to_nat (T / d + 1))) l w)) =
    w_trace w ++ [(t + d * (T / d + 1),
                   EvDigitalWrite (_pin l)
                     (if _activeLow l then negb (negb (_ledState l))
                      else negb (_ledState l)))].
Proof.
  intros Hp Hl Hd Hbig.
  assert (HT : 0 <= T) by (destruct (_pattern l); cbn in Hp; inversion Hp; lia).
  assert (Hq : 0 <= T / d) by (apply Z.div_pos; lia).
  pose proof (Z.mul_div_le T d Hd) as Hlo.
  pose proof (Z.mul_succ_div_gt T d Hd) as Hhi.
  replace (Z.to_nat (T / d + 1)) with (S (Z.to_nat (T / d))) by lia.
  unfold every. rewrite every_range, poll_at_app.
  destruct (poll_at_quiet T d t (Z.to_nat (T / d)) 1 l w Hp Hl) as (H1 & H2 & H3).
  { intros i Hi. split; [nia|].
    assert (Z.of_nat i <= T / d) by lia. nia. }
  { nia. }
  destruct (poll_at (map (fun i => t + d * Z.of_nat i) (seq 1 (Z.to_nat (T / d)))) l w)
    as [l1 w1]. cbn [fst snd] in *. subst l1.
  cbn [poll_at]. rewrite (loop_period T l _ Hp), UtilsProps.blink_run.
  unfold world_millis. cbn [w_clock]. rewrite Hl.
  replace (Z.of_nat (1 + Z.to_nat (T / d))) with (T / d + 1) by lia.
  rewrite u32_elapsed by nia.
  assert (E : (d * (T / d + 1) >? T) = true)
    by (rewrite Z.gtb_ltb; apply Z.ltb_lt; unfold Z.succ in Hhi; lia).
  rewrite E. cbn. rewrite H2, H3. repeat split.
Qed.

Lemma map_seq_offset {A : Type} (f : nat -> A) (a b : nat) :
  forall s : nat,
    map f (seq (a + s) b) = map (fun i => f (a + i)%nat) (seq s b).
Proof.
  induction b as [|b IH]; intros s; cbn [seq map]; [reflexivity|].
  f_equal. rewrite <- IH, Nat.add_succ_r. reflexivity.
Qed.

Lemma every_app (d t0 : Z) (a b : nat) :
  every d t0 (a + b) = every d t0 a ++ every d (t0 + d * Z.of_nat a) b.
Proof.
  unfold every. rewrite seq_app, map_app. f_equal.
  rewrite (Nat.add_comm 1 a), map_seq_offset.
  apply map_ext. intros i. lia.
Qed.

(** X13: polled on a regular tick of [d] ms, a one-period pattern toggles
    every [d * (T / d + 1)] ms, the first multiple of the tick above the
    period [T]: after a toggle at [t], [k] rounds of [T / d + 1] polls give
    [k] writes, at [t + j * d * (T / d + 1)] for [j = 1 .. k], wherever
    the 32-bit clock wraps.  With the 10 ms tick of [main.cpp] that is
    every 1010, 210 and 60 ms for [BLINK_SLOW], [BLINK_FAST] and [PULSE]. *)
Theorem X13_toggle_period_under_regular_tick (T d : Z) (k : nat) :
  forall (t : Z) (l : LEDIndicator) (w : World),
    period_of (_pattern l) = Some T ->
    _lastUpdate l = u32 t ->
    0 < d ->
    d * (T / d + 1) < 2 ^ 32 ->
    exists evs,
      w_trace (snd (poll_at (every d t (k * Z.to_nat (T / d + 1))) l w)) =
        w_trace w ++ evs /\
      write_times evs =
        map (fun j => t + d * (T / d + 1) * Z.of_nat j) (seq 1 k) /\
      _lastUpdate (fst (poll_at (every d t (k * Z.to_nat (T / d + 1))) l w)) =
        u32 (t + d * (T / d + 1) * Z.of_nat k).
Proof.
  induction k as [|k IH]; intros t l w Hp Hl Hd Hbig.
  - cbn. exists []. rewrite app_nil_r. split; [reflexivity|]. split; [reflexivity|].
    rewrite Hl. f_equal. lia.
  - assert (HT : 0 <= T) by (destruct (_pattern l); cbn in Hp; inversion Hp; lia).
    assert (Hq : 0 <= T / d) by (apply Z.div_pos; lia).
    cbn [Nat.mul]. rewrite every_app, poll_at_app.
    destruct (poll_at_one_period T d t l w Hp Hl Hd Hbig) as (H1 & H2 & H3).
    destruct (poll_at (every d t (Z.to_nat (T / d + 1))) l w) as [l1 w1].
    cbn [fst snd] in *.
    replace (Z.of_nat (Z.to_nat (T / d + 1))) with (T / d + 1) by lia.
    destruct (IH (t + d * (T / d + 1)) l1 w1) as (evs & Ht & Hwt & Hlast).
    + rewrite H1. exact Hp.
    + rewrite H1. reflexivity.
    + exact Hd.
    + exact Hbig.
    + eexists. split; [rewrite Ht, H3, <- app_assoc; reflexivity|].
      split.
      * cbn [app write_times]. rewrite Hwt. cbn [seq map]. f_equal; [lia|].
        rewrite <- (seq_shift k 1), map_map. apply map_ext. intros j. lia.
      * rewrite Hlast. f_equal. lia.
Qed.

(** *** The steady patterns *)

Lemma poll_at_steady (v : bool) (times : list Z) :
  forall (l : LEDIndicator) (w : World),
    _pattern l = (if v then ON else OFF) ->
    exists evs,
      w_trace (snd (poll_at times l w)) = w_trace w ++ evs /\
      pin_writes evs = repeat (driven l v) (List.length times) /\
      _pattern (fst (poll_at times l w)) = _pattern l /\
      (times <> [] -> _ledState (fst (poll_at times l w)) = v).
Proof.
  induction times as [|t times IH]; intros l w Hp; cbn [poll_at].
  - exists []. rewrite app_nil_r. repeat split. congruence.
  - assert (E : loop l (mkWorld t (w_reads w) (w_trace w)) =
                applyState v l (mkWorld t (w_reads w) (w_trace w))).
    { unfold loop. rewrite Hp. destruct v; reflexivity. }
    rewrite E. unfold applyState.
    match goal with
    | |- context [poll_at times ?l1 ?w1] =>
        destruct (IH l1 w1 Hp) as (evs & Ht & Hw & Hpat & Hst)
    end.
    eexists. split; [rewrite Ht; cbn; rewrite <- app_assoc; reflexivity|].
    split; [cbn; rewrite Hw; reflexivity|].
    split; [exact Hpat|]. intros _.
    destruct times as [|t' times']; [reflexivity | apply Hst; discriminate].
Qed.

(** X14: [on] and [off] hold.  After [on ()] the pattern is [ON] and every
    later poll, at whatever time, writes the corrected on level again and
    leaves the logical level on; likewise [off ()] with the off level.  The
    line carries one constant level until another call changes the
    pattern. *)
Theorem X14_on_off_hold (times : list Z) (l : LEDIndicator) (w : World) (v : bool) :
  let start := if v then on l w else off l w in
  exists evs,
    w_trace (snd (poll_at times (fst start) (snd start))) = w_trace w ++ evs /\
    pin_writes evs = repeat (driven l v) (S (List.length times)) /\
    _pattern (fst (poll_at times (fst start) (snd start))) = (if v then ON else OFF) /\
    _ledState (fst (poll_at times (fst start) (snd start))) = v.
Proof.
  cbv zeta.
  assert (Hs : (if v then on l w else off l w) =
               (mkLEDIndicator (_pin l) (_activeLow l) (if v then ON else OFF) v
                               (_lastUpdate l) (_blinkPhase l),
                world_emit (EvDigitalWrite (_pin l)
                              (if _activeLow l then negb v else v)) w))
    by (destruct v; reflexivity).
  rewrite Hs. cbn [fst snd].
  match goal with
  | |- context [poll_at times ?l1 ?w1] =>
      destruct (poll_at_steady v times l1 w1 eq_refl) as (evs & Ht & Hw & Hpat & Hst)
  end.
  eexists. split; [rewrite Ht; cbn; rewrite <- app_assoc; reflexivity|].
  split; [cbn; rewrite Hw; reflexivity|].
  split; [exact Hpat|].
  destruct times as [|t times']; [reflexivity | apply Hst; discriminate].
Qed.

(** *** The levels of the timed patterns *)

Lemma loop_timed (l : LEDIndicator) (w : World) :
  _pattern l <> OFF -> _pattern l <> ON ->
  loop l w = (l, w) \/
  exists now ph,
    loop l w =
    (mkLEDIndicator (_pin l) (_activeLow l) (_pattern l) (negb (_ledState l)) now ph,
     world_emit (EvDigitalWrite (_pin l)
                   (if _activeLow l then negb (negb (_ledState l))
                    else negb (_ledState l))) w).
Proof.
  intros Hoff Hon. destruct (_pattern l) eqn:Hp; try congruence.
  - rewrite (loop_period 1000) by (rewrite Hp; reflexivity).
    rewrite UtilsProps.blink_run, Hp.
    match goal with |- context [?a >? ?b] => destruct (a >? b) end;
      [right; eexists; eexists; reflexivity | left; reflexivity].
  - rewrite (loop_period 200) by (rewrite Hp; reflexivity).
    rewrite UtilsProps.blink_run, Hp.
    match goal with |- context [?a >? ?b] => destruct (a >? b) end;
      [right; eexists; eexists; reflexivity | left; reflexivity].
  - rewrite (loop_period 50) by (rewrite Hp; reflexivity).
    rewrite UtilsProps.blink_run, Hp.
    match goal with |- context [?a >? ?b] => destruct (a >? b) end;
      [right; eexists; eexists; reflexivity | left; reflexivity].
  - rewrite UtilsProps.loop_double_blink by exact Hp.
    match goal with |- context [?a >? ?b] => destruct (a >? b) end;
      [right; eexists; eexists; reflexivity | left; reflexivity].
Qed.

(** X15: a timed pattern ([BLINK_SLOW], [BLINK_FAST], [PULSE],
    [DOUBLE_BLINK]) never writes the same level twice in a row: the levels
    written over any polls alternate, starting with the inverse of the
    logical level at the start, each written with the polarity correction;
    the logical level at the end is the start level after that many
    flips. *)
Theorem X15_timed_patterns_alternate (times : list Z) :
  forall (l : LEDIndicator) (w : World),
    _pattern l <> OFF -> _pattern l <> ON ->
    exists evs k,
      w_trace (snd (poll_at times l w)) = w_trace w ++ evs /\
      pin_writes evs = map (driven l) (alternating (negb (_ledState l)) k) /\
      _ledState (fst (poll_at times l w)) =
        (if Nat.even k then _ledState l else negb (_ledState l)).
Proof.
  induction times as [|t times IH]; intros l w Hoff Hon; cbn [poll_at].
  - exists [], O. rewrite app_nil_r. repeat split.
  - destruct (loop_timed l (mkWorld t (w_reads w) (w_trace w)) Hoff Hon)
      as [E | (now & ph & E)]; rewrite E.
    + destruct (IH l (mkWorld t (w_reads w) (w_trace w)) Hoff Hon)
        as (evs & k & Ht & Hw & Hst).
      exists evs, k. repeat split; assumption.
    + match goal with
      | |- context [poll_at times ?l1 ?w1] =>
          destruct (IH l1 w1 Hoff Hon) as (evs & k & Ht & Hw & Hst)
      end.
      cbn in Ht, Hw, Hst. eexists. exists (S k).
      split; [rewrite Ht, <- app_assoc; reflexivity|].
      split.
      * cbn. rewrite Hw. reflexivity.
      * rewrite Hst. rewrite Nat.even_succ, <- Nat.negb_even.
        destruct (Nat.even k); cbn; [reflexivity | apply negb_involutive].
Qed.

Lemma X11_phase_and_timestamp_in_range_witness :
  let l := LEDIndicator_new LED_PIN LED_BUILTIN_ACTIVE_LOW in
  let w := mkWorld 0 0 [] in
  let ops := [OpBegin; OpSetPattern DOUBLE_BLINK; OpDelay 101; OpLoop;
              OpDelay 101; OpLoop; OpToggle; OpSetPattern PULSE; OpDelay 51; OpLoop] in
  0 <= _blinkPhase l < 6 /\
  0 <= _lastUpdate l < 2 ^ 32 /\
  0 <= _blinkPhase (fst (run ops l w)) < 6 /\
  0 <= _lastUpdate (fst (run ops l w)) < 2 ^ 32.
Proof.
  cbv zeta.
  assert (H1 : 0 <= _blinkPhase (LEDIndicator_new LED_PIN LED_BUILTIN_ACTIVE_LOW) < 6)
    by (cbn; lia).
  assert (H2 : 0 <= _lastUpdate (LEDIndicator_new LED_PIN LED_BUILTIN_ACTIVE_LOW) < 2 ^ 32)
    by (cbn; lia).
  split; [exact H1|]. split; [exact H2|].
  apply (X11_phase_and_timestamp_in_range _ _ _ H1 H2).
Defined.

Lemma X12_blink_never_faster_than_period_witness :
  let l := setPattern BLINK_FAST (LEDIndicator_new LED_PIN LED_BUILTIN_ACTIVE_LOW) in
  let w := mkWorld 0 0 [] in
  let times := [150; 201; 300; 402; 500; 603; 4294967396] in
  period_of (_pattern l) = Some 200 /\
  ascending 0 times /\
  exists evs,
    w_trace (snd (poll_at times l w)) = w_trace w ++ evs /\
    spaced 200 (write_times evs).
Proof.
  cbv zeta.
  assert (H2 : ascending 0 [150; 201; 300; 402; 500; 603; 4294967396])
    by (cbn; lia).
  split; [reflexivity|]. split; [exact H2|].
  apply (X12_blink_never_faster_than_period 200
           [150; 201; 300; 402; 500; 603; 4294967396] 0
           (setPattern BLINK_FAST (LEDIndicator_new LED_PIN LED_BUILTIN_ACTIVE_LOW))
           (mkWorld 0 0 []) eq_refl H2).
Defined.

Lemma X13_toggle_period_under_regular_tick_witness :
  let l := mkLEDIndicator LED_PIN false BLINK_FAST false (u32 4294967000) 0 in
  let w := mkWorld 4294967000 0 [] in
  period_of (_pattern l) = Some 200 /\
  _lastUpdate l = u32 4294967000 /\
  0 < 10 /\
  10 * (200 / 10 + 1) < 2 ^ 32 /\
  exists evs,
    w_trace (snd (poll_at (every 10 4294967000 (3 * Z.to_nat (200 / 10 + 1))) l w)) =
      w_trace w ++ evs /\
    write_times evs =
      map (fun j => 4294967000 + 10 * (200 / 10 + 1) * Z.of_nat j) (seq 1 3) /\
    _lastUpdate (fst (poll_at (every 10 4294967000 (3 * Z.to_nat (200 / 10 + 1))) l w)) =
      u32 (4294967000 + 10 * (200 / 10 + 1) * Z.of_nat 3).
Proof.
  cbv zeta.
  assert (H3 : 0 < 10) by lia.
  assert (H4 : 10 * (200 / 10 + 1) < 2 ^ 32) by (vm_compute; reflexivity).
  split; [reflexivity|]. split; [reflexivity|]. split; [exact H3|]. split; [exact H4|].
  apply (X13_toggle_period_under_regular_tick 200 10 3 4294967000
           (mkLEDIndicator LED_PIN false BLINK_FAST false (u32 4294967000) 0)
           (mkWorld 4294967000 0 []) eq_refl eq_refl H3 H4).
Defined.

Lemma X15_timed_patterns_alternate_witness :
  let l := setPattern DOUBLE_BLINK (LEDIndicator_new LED_PIN true) in
  let w := mkWorld 0 0 [] in
  _pattern l <> OFF /\
  _pattern l <> ON /\
  exists evs k,
    w_trace (snd (poll_at [101; 150; 202; 303] l w)) = w_trace w ++ evs /\
    pin_writes evs = map (driven l) (alternating (negb (_ledState l)) k) /\
    _ledState (fst (poll_at [101; 150; 202; 303] l w)) =
      (if Nat.even k then _ledState l else negb (_ledState l)).
Proof.
  cbv zeta. split; [discriminate|]. split; [discriminate|].
  apply X15_timed_patterns_alternate; discriminate.
Defined.

(** With the 10 ms tick, [BLINK_FAST] toggles every 210 ms, also across
    the wrap of the clock at 4294967296. *)
Example blink_fast_on_a_10ms_tick :
  write_times
    (w_trace (snd (poll_at (every 10 4294967000 63)
                           (mkLEDIndicator 2 false BLINK_FAST false (u32 4294967000) 0)
                           (mkWorld 4294967000 0 [])))) =
  [4294967210; 4294967420; 4294967630].
Proof. vm_compute. reflexivity. Qed.

End UtilsMore.

(* ================================================================= *)
(** ** main.cpp: the manager drives the LED *)

Module MainProps.
Import Main.

Lemma skipn_app_length {A : Type} (a b : list A) :
  skipn (List.length a) (a ++ b) = b.
Proof. induction a as [|x a IH]; [reflexivity | exact IH]. Qed.

Lemma dispatch_frame (evs : list (Z * Event)) :
  forall l : Utils.LEDIndicator,
    Utils._pin (dispatch evs l) = Utils._pin l /\
    Utils._activeLow (dispatch evs l) = Utils._activeLow l /\
    Utils._ledState (dispatch evs l) = Utils._ledState l.
Proof.
  induction evs as [|[t e] evs IH]; intros l; cbn [dispatch]; [repeat split|].
  destruct e; try apply IH.
  destruct (handler =? onWiFiStateChange_slot)%nat; [|apply IH].
  destruct (IH (onWiFiStateChange s l)) as (H1 & H2 & H3).
  rewrite H1, H2, H3. destruct s; repeat split.
Qed.

Lemma pattern_onWiFiStateChange (s : WiFiState) (l : Utils.LEDIndicator) :
  Utils._pattern (onWiFiStateChange s l) = pattern_for s.
Proof. destruct s; reflexivity. Qed.

(** The callback runs keep the pattern in step with the state. *)
Lemma dispatch_pattern (evs : list (Z * Event)) :
  forall (l : Utils.LEDIndicator) (s0 s1 : WiFiState),
    Forall (fun h => h = onWiFiStateChange_slot) (WiFi.callback_handlers evs) ->
    transitions s0 (callback_states evs) s1 ->
    Utils._pattern l = pattern_for s0 ->
    Utils._pattern (dispatch evs l) = pattern_for s1.
Proof.
  induction evs as [|[t e] evs IH]; intros l s0 s1 Hh Ht Hp; cbn [dispatch].
  - cbn in Ht. subst s1. exact Hp.
  - destruct e; cbn [callback_states WiFi.callback_handlers] in Ht, Hh;
      try (eapply IH; eassumption).
    destruct Ht as [_ Ht]. inversion Hh as [|? ? Hslot Hrest]; subst.
    rewrite Nat.eqb_refl. eapply IH; [exact Hrest | exact Ht|].
    apply pattern_onWiFiStateChange.
Qed.

Lemma loop_keeps_pattern (l : Utils.LEDIndicator) (w : World) :
  Utils._pattern (fst (Utils.loop l w)) = Utils._pattern l /\
  Utils._pin (fst (Utils.loop l w)) = Utils._pin l /\
  Utils._activeLow (fst (Utils.loop l w)) = Utils._activeLow l /\
  w_clock (snd (Utils.loop l w)) = w_clock w.
Proof.
  unfold Utils.loop. destruct (Utils._pattern l) eqn:Hp;
    try rewrite UtilsProps.blink_run;
    try (match goal with |- context [?a >? ?b] => destruct (a >? b) end);
    try rewrite UtilsProps.toggle_run; cbn; rewrite ?Hp; repeat split.
Qed.

Lemma pin_writes_notify (cb : option nat) (s : WiFiState) (t : Z) :
  pin_writes (WiFi.notify cb s t) = [].
Proof. destruct cb; reflexivity. Qed.

Lemma pin_writes_notify_change (m : WiFi.WiFiManager) (s : WiFiState) (t : Z) :
  pin_writes (WiFi.notify_change m s t) = [].
Proof.
  unfold WiFi.notify_change. destruct (WiFiState_eqb (WiFi._state m) s);
    [reflexivity | apply pin_writes_notify].
Qed.

Section Firmware.

Variable adapter : nat -> wl_status_t.

#[local] Arguments WiFi.begin : simpl never.
#[local] Arguments WiFi.loop : simpl never.
#[local] Arguments Utils.loop : simpl never.

(** A call of the manager that keeps the callback log in step with the
    state keeps the LED pattern in step too. *)
Lemma call_in_step {A : Type} (c : WiFi.M A) (s : System) (a : A) (st' : WiFi.Machine) :
  in_step s ->
  c (WiFi.mkMachine (wifiManager s) (platform s)) = Some (a, st') ->
  WiFi.evolves (WiFi.mkMachine (wifiManager s) (platform s)) st' ->
  WiFi.registered_only (WiFi.mkMachine (wifiManager s) (platform s)) st' ->
  exists s',
    call c s = Some (a, s') /\
    in_step s' /\
    wifiManager s' = WiFi.this st' /\
    platform s' = WiFi.world st' /\
    Utils._ledState (led s') = Utils._ledState (led s).
Proof.
  intros (Hcb & Hs & Hp & Hpin & Hal) E (Hcb' & Hs' & evs & Ht & Hc)
         (_ & evs' & Ht' & Hh).
  cbn in Hcb', Hs', Ht, Hc, Ht', Hh.
  assert (evs' = evs) by (rewrite Ht in Ht'; apply app_inv_head in Ht'; congruence).
  subst evs'.
  unfold call. rewrite E, Ht, skipn_app_length.
  eexists. split; [reflexivity|]. cbn.
  destruct (dispatch_frame evs (led s)) as (F1 & F2 & F3).
  split; [|repeat split; exact F3].
  split; [cbn; congruence|]. split; [cbn; tauto|]. cbn.
  split; [|split; congruence].
  eapply dispatch_pattern; [| |exact Hp].
  - eapply Forall_impl; [|exact Hh]. cbn. intros h Hreg. congruence.
  - apply Hc. congruence.
Qed.

Lemma setup_in_step (t : Z) :
  exists s,
    setup adapter (boot t) = Some s /\
    in_step s /\
    Utils._ledState (led s) = false /\
    t + 1000 <= w_clock (platform s) <= t + 1000 + WIFI_TIMEOUT_MS + 500 /\
    pin_writes (w_trace (platform s)) = [(LED_PIN, false)].
Proof.
  unfold setup, boot. cbn.
  destruct (WiFiMore.begin_begins adapter (Some WIFI_SSID) (Some WIFI_PASSWORD)
              (WiFi.set_stateCallback (Some onWiFiStateChange_slot) WiFi.WiFiManager_new)
              (mkWorld (t + 1000) 0
                 [(t + 1000, EvPinMode LED_PIN);
                  (t + 1000, EvDigitalWrite LED_PIN false)]))
    as (b & st' & E & Hb).
  unfold call, world_emit, world_delay. cbn. rewrite E.
  eexists. split; [reflexivity|].
  destruct Hb as [k Hk Hno Hyes | Hno]; cbn; unfold in_step; cbn;
    repeat split; try discriminate; try (unfold WIFI_TIMEOUT_MS; lia).
Qed.

Lemma polls_clock (m : WiFi.WiFiManager) (w : World) (st' : WiFi.Machine) :
  WiFi.polls adapter m w st' ->
  w_clock w <= w_clock (WiFi.world st') <= w_clock w + WIFI_TIMEOUT_MS + 500.
Proof.
  intros Hp. destruct Hp as [Hc Ha | Hc | st' Hc Ha Hr | st' Hc Hr]; cbn;
    try (unfold WIFI_TIMEOUT_MS; lia).
  - destruct (WiFiMore.retries_duration adapter _ _ _ Hr) as (_ & evs & _ & Hcase).
    cbn in Hcase. destruct Hcase as [(_ & H & _) | (_ & H)];
      unfold WIFI_TIMEOUT_MS in *; lia.
  - destruct (WiFiMore.retries_duration adapter _ _ _ Hr) as (_ & evs & _ & Hcase).
    destruct Hcase as [(_ & H & _) | (_ & H)]; unfold WIFI_TIMEOUT_MS in *; lia.
Qed.

Lemma loop_in_step (s : System) :
  in_step s ->
  exists s', loop adapter s = Some s' /\ in_step s' /\
    (WiFi._state (wifiManager s') = CONNECTED ->
     Utils._ledState (led s') = true /\
     exists tr c, w_trace (platform s') = tr ++ [(c, EvDigitalWrite LED_PIN true)]).
Proof.
  intros Hin.
  destruct (WiFiProps.loop_evolves adapter (WiFi.mkMachine (wifiManager s) (platform s)))
    as (st' & E & Hev).
  assert (Hreg : WiFi.registered_only
                   (WiFi.mkMachine (wifiManager s) (platform s)) st').
  { destruct (WiFiMore.do_op_outcome adapter WiFi.OpLoop
                (WiFi.mkMachine (wifiManager s) (platform s))) as (st'' & E' & Ho).
    cbn [WiFi.do_op] in E'. rewrite E in E'. injection E' as <-.
    eapply WiFiMore.outcome_registered_only. exact Ho. }
  destruct (call_in_step (WiFi.loop adapter) s tt st' Hin E Hev Hreg)
    as (s1 & E1 & (Hcb & Hs & Hp & Hpin & Hal) & Hm & Hw & _).
  unfold loop. rewrite E1. unfold led_call.
  pose proof (loop_keeps_pattern (led s1) (platform s1)) as (K1 & K2 & K3 & K4).
  destruct (Utils.loop (led s1) (platform s1)) as [l2 w2] eqn:EL. cbn [fst snd] in *.
  eexists. split; [reflexivity|]. cbn.
  split; [unfold in_step; cbn; repeat split; congruence|].
  intros Hc. rewrite Hc in Hp. cbn in Hp.
  unfold Utils.loop in EL. rewrite Hp in EL. unfold Utils.applyState in EL.
  injection EL as <- <-. cbn. split; [reflexivity|].
  rewrite Hpin, Hal. eexists. eexists. reflexivity.
Qed.

Lemma iterate_in_step (n : nat) :
  forall s, in_step s -> exists s', iterate adapter n s = Some s' /\ in_step s'.
Proof.
  induction n as [|n IH]; intros s Hin; cbn [iterate].
  - exists s. split; [reflexivity | exact Hin].
  - destruct (loop_in_step s Hin) as (s1 & E1 & Hin1 & _). rewrite E1.
    apply IH. exact Hin1.
Qed.

Lemma iterate_last (n : nat) :
  forall s,
    iterate adapter (S n) s =
    match iterate adapter n s with
    | Some s' => loop adapter s'
    | None => None
    end.
Proof.
  induction n as [|n IH]; intros s.
  - cbn. destruct (loop adapter s); reflexivity.
  - cbn [iterate] in *. destruct (loop adapter s) as [s1|]; [|reflexivity].
    apply IH.
Qed.

(** X16: the LED pattern follows the WiFi state.  After [setup] and after
    every iteration of [loop], for every adapter behaviour, the pattern of
    the LED is the one [onWiFiStateChange] selects for the state of the
    manager ([ON] for [CONNECTED], [BLINK_SLOW] for [DISCONNECTED],
    [DOUBLE_BLINK] for [ERROR]).  The manager is never in [CONNECTING] when
    the LED is polled, because [begin] blocks: the [BLINK_FAST] pattern
    selected for [CONNECTING] is never polled. *)
Theorem X16_led_pattern_follows_wifi_state (n : nat) (t : Z) :
  exists s,
    firmware adapter n (boot t) = Some s /\
    Utils._pattern (led s) = pattern_for (WiFi._state (wifiManager s)) /\
    WiFi._state (wifiManager s) <> CONNECTING /\
    Utils._pattern (led s) <> Utils.BLINK_FAST.
Proof.
  unfold firmware.
  destruct (setup_in_step t) as (s0 & E0 & Hin0 & _). rewrite E0.
  destruct (iterate_in_step n s0 Hin0) as (s & E & (Hcb & Hs & Hp & _)).
  exists s. split; [exact E|]. split; [exact Hp|]. split; [exact Hs|].
  rewrite Hp. destruct (WiFi._state (wifiManager s)); cbn; congruence.
Qed.

(** X17: whenever an iteration of [loop] ends with the manager in
    [CONNECTED], the LED is lit: its logical level is on and the last thing
    the iteration did to the platform was to drive [LED_PIN] high. *)
Theorem X17_connected_means_led_on (n : nat) (t : Z) :
  exists s,
    firmware adapter (S n) (boot t) = Some s /\
    (WiFi._state (wifiManager s) = CONNECTED ->
     Utils._ledState (led s) = true /\
     exists tr c, w_trace (platform s) = tr ++ [(c, EvDigitalWrite LED_PIN true)]).
Proof.
  unfold firmware.
  destruct (setup_in_step t) as (s0 & E0 & Hin0 & _). rewrite E0.
  rewrite iterate_last.
  destruct (iterate_in_step n s0 Hin0) as (s1 & E1 & Hin1). rewrite E1.
  destruct (loop_in_step s1 Hin1) as (s & E & _ & H).
  exists s. split; [exact E | exact H].
Qed.

(** X18: [setup] always returns, between 1000 and
    [1000 + WIFI_TIMEOUT_MS + 500] ms after boot, and the LED is not
    serviced while it runs: the only level written to the pin is the off
    level of [led.begin], so the LED is dark throughout the first connect
    attempt although blink patterns were selected. *)
Theorem X18_setup_leaves_led_dark (t : Z) :
  exists s,
    setup adapter (boot t) = Some s /\
    t + 1000 <= w_clock (platform s) <= t + 1000 + WIFI_TIMEOUT_MS + 500 /\
    pin_writes (w_trace (platform s)) = [(LED_PIN, false)] /\
    Utils._ledState (led s) = false /\
    WiFi._ssid (wifiManager s) = Some WIFI_SSID /\
    WiFi._password (wifiManager s) = Some WIFI_PASSWORD.
Proof.
  unfold setup, boot. cbn.
  destruct (WiFiMore.begin_begins adapter (Some WIFI_SSID) (Some WIFI_PASSWORD)
              (WiFi.set_stateCallback (Some onWiFiStateChange_slot) WiFi.WiFiManager_new)
              (mkWorld (t + 1000) 0
                 [(t + 1000, EvPinMode LED_PIN);
                  (t + 1000, EvDigitalWrite LED_PIN false)]))
    as (b & st' & E & Hb).
  unfold call, world_emit, world_delay. cbn. rewrite E.
  eexists. split; [reflexivity|].
  destruct Hb as [k Hk Hno Hyes | Hno]; cbn;
    repeat split; try (unfold WIFI_TIMEOUT_MS; lia).
Qed.

(** X19: every iteration of [loop] returns, at least 10 ms and at most
    [WIFI_TIMEOUT_MS + 510] ms of clock time after it started: the yield of
    10 ms is always made, and an iteration that runs into a reconnect
    attempt blocks for the length of [begin]. *)
Theorem X19_iteration_duration (s : System) :
  exists s',
    loop adapter s = Some s' /\
    w_clock (platform s) + 10 <= w_clock (platform s') <=
      w_clock (platform s) + WIFI_TIMEOUT_MS + 510.
Proof.
  destruct (WiFiMore.loop_polls adapter (wifiManager s) (platform s)) as (st' & E & Hp).
  apply polls_clock in Hp.
  unfold loop, call. rewrite E. unfold led_call. cbn [led platform wifiManager].
  match goal with
  | |- context [Utils.loop ?l ?w] =>
      pose proof (loop_keeps_pattern l w) as (_ & _ & _ & K);
      destruct (Utils.loop l w) as [l2 w2]
  end.
  cbn [snd] in K. eexists. split; [reflexivity|]. cbn. lia.
Qed.

End Firmware.

End MainProps.
